(** * reddit_agent: a shallow embedding of the learning agent

    The development follows the Python package [reddit_agent]:
    [models.py] (UtilityMetrics), [analysis.py] (ContentAnalyzer),
    [database.py] (Database), [agent.py] (RedditAIAgent) and the helper
    [safe_parse_json] of [llm.py].

    Conventions of the embedding.
    - A Python [float] is an exact rational ([Q]): rounding, infinities and
      NaN are outside the model.  Comparisons are the boolean ones of [Q].
    - A Python exception is a constructor of [exn]; fallible code returns
      [res A]; code that also mutates the agent (database, in-memory model,
      log) lives in the monad [M], whose state survives a raised exception,
      as the mutations of a Python object do.
    - The content source, the clock and storage faults are inputs, gathered
      in the record [world]. *)

From Stdlib Require Import ZArith QArith Qminmax Lia Lqa List Bool String Ascii.
From Stdlib Require Import Sorted Permutation.
From stdpp Require Import base option gmap strings.
Import ListNotations.

Local Open Scope Z_scope.
Local Open Scope Q_scope.
Local Open Scope string_scope.

(** ** Exceptions *)

Module Exn.

(** The exception classes the code names or can meet. [KeyboardInterrupt]
    stands for the classes that derive from [BaseException] only. *)
Inductive exn : Type :=
  | ValueError
  | TypeError
  | OverflowError
  | KeyError (key : string)
  | JSONDecodeError
  | RecursionError
  | IntegrityError
  | OperationalError
  | InterfaceError
  | Redirect
  | Forbidden
  | RuntimeError (msg : string)
  | KeyboardInterrupt.

(** [isinstance(e, Exception)] *)
Definition is_Exception (e : exn) : bool :=
  match e with
  | KeyboardInterrupt => false
  | _ => true
  end.

(** [isinstance(e, ValueError)]: [json.JSONDecodeError] derives from it. *)
Definition is_ValueError (e : exn) : bool :=
  match e with
  | ValueError | JSONDecodeError => true
  | _ => false
  end.

Definition is_TypeError (e : exn) : bool :=
  match e with
  | TypeError => true
  | _ => false
  end.

Definition is_JSONDecodeError (e : exn) : bool :=
  match e with
  | JSONDecodeError => true
  | _ => false
  end.

Inductive res (A : Type) : Type :=
  | Ok (a : A)
  | Raise (e : exn).

Arguments Ok {A} a.
Arguments Raise {A} e.

Definition res_bind {A B} (r : res A) (k : A -> res B) : res B :=
  match r with
  | Ok a => k a
  | Raise e => Raise e
  end.

End Exn.
Export Exn.

Notation "'let?' x ':=' r 'in' k" := (res_bind r (fun x => k))
  (at level 10, x name, r at level 100, k at level 200).

(** ** Python values and dictionaries *)

Module Py.

(** The shapes of value that the agent stores in its dictionaries. *)
Inductive pyval : Type :=
  | VNone
  | VBool (b : bool)
  | VInt (z : Z)
  | VFloat (q : Q)
  | VStr (s : string)
  | VList (l : list string).

(** Largest magnitude an [int] may have for [float(int)] to succeed:
    from 2^1024 - 2^970 on, the conversion raises [OverflowError]. *)
Definition float_int_bound : Z := (2 ^ 1024 - 2 ^ 970)%Z.

Section Float.

(** [float(s)] on a string is Python's own parser: [Some q] when [s] is a
    numeral, [None] when it raises [ValueError]. *)
Variable float_of_str : string -> option Q.

(** [float(v)] *)
Definition to_float (v : pyval) : res Q :=
  match v with
  | VNone => Raise TypeError
  | VBool b => Ok (if b then 1 else 0)
  | VInt z =>
      if (Z.abs z <? float_int_bound)%Z then Ok (inject_Z z)
      else Raise OverflowError
  | VFloat q => Ok q
  | VStr s =>
      match float_of_str s with
      | Some q => Ok q
      | None => Raise ValueError
      end
  | VList _ => Raise TypeError
  end.

End Float.

(** A [dict] with string keys, in insertion order. *)
Definition dict : Type := list (string * pyval).

(** [d.get(k)] *)
Fixpoint dict_get (d : dict) (k : string) : option pyval :=
  match d with
  | [] => None
  | (k', v) :: d' => if String.eqb k k' then Some v else dict_get d' k
  end.

(** [d[k] = v]: the value is replaced in place, a new key goes last. *)
Fixpoint dict_set (d : dict) (k : string) (v : pyval) : dict :=
  match d with
  | [] => [(k, v)]
  | (k', v') :: d' =>
      if String.eqb k k' then (k', v) :: d' else (k', v') :: dict_set d' k v
  end.

(** [d[k]] *)
Definition dict_item (d : dict) (k : string) : res pyval :=
  match dict_get d k with
  | Some v => Ok v
  | None => Raise (KeyError k)
  end.

Definition dict_keys (d : dict) : list string := map fst d.

(** Arithmetic on a value taken from a dictionary: an operand that is not a
    number makes [float * value] raise [TypeError]. *)
Definition as_number (v : pyval) : res Q :=
  match v with
  | VBool b => Ok (if b then 1 else 0)
  | VInt z => Ok (inject_Z z)
  | VFloat q => Ok q
  | _ => Raise TypeError
  end.

(** [x > y], [max(a, b)] and [min(a, b)] on floats; the builtins return
    their first argument unless the second is strictly better. *)
Definition Qgt_bool (x y : Q) : bool := negb (Qle_bool x y).
Definition py_max (a b : Q) : Q := if Qgt_bool b a then b else a.
Definition py_min (a b : Q) : Q := if Qgt_bool a b then b else a.

End Py.
Export Py.

(** ** models.py and analysis.py *)

(** [UtilityMetrics], the dataclass of four floats. *)
Record UtilityMetrics : Type := {
  engagement_rate : Q;
  sentiment_score : Q;
  relevance_score : Q;
  novelty_score : Q
}.

(** What the agent reads of a PRAW submission.  [comments] is [None] when
    the object has no such attribute, and otherwise the outcome of
    [list(submission.comments)]: the number of comments or the exception
    that the fetch raised. *)
Record submission : Type := {
  sub_id : string;
  title : string;
  selftext : string;
  author : string;
  subreddit : string;
  created_utc : Q;
  score : Z;
  comments : option (res nat);
  stickied : bool
}.

Module ContentAnalyzer.

(** [analyze_submission]: the placeholder analysis, the same for every
    submission. *)
Definition analyze_submission (s : submission) : dict :=
  [("sentiment", VFloat 0.5); ("topics", VList ["general"])].

(** The comment count of [calculate_engagement_rate]: the inner
    [try ... except Exception: pass] keeps 0 when the fetch fails. *)
Definition comment_count (s : submission) : res Z :=
  match comments s with
  | None => Ok 0%Z
  | Some (Ok n) => Ok (Z.of_nat n)
  | Some (Raise e) => if is_Exception e then Ok 0%Z else Raise e
  end.

(** The arithmetic of [calculate_engagement_rate] once the comment count
    is known; [current_time] is [datetime.utcnow().timestamp()]. *)
Definition engagement_formula (current_time : Q) (s : submission)
    (count : Z) : Q :=
  let total_engagement := inject_Z (score s + count) in
  let submission_time := created_utc s in
  let time_factor := py_max 1 ((current_time - submission_time) / 3600) in
  py_min 1 (total_engagement / (100 * time_factor)).

(** [calculate_engagement_rate]: the outer [except Exception] turns any
    failure of the body into 0.0. *)
Definition calculate_engagement_rate (current_time : Q) (s : submission)
    : res Q :=
  match
    (let? count := comment_count s in
     Ok (engagement_formula current_time s count))
  with
  | Ok r => Ok r
  | Raise e => if is_Exception e then Ok 0 else Raise e
  end.

(** [calculate_relevance] and [calculate_novelty]: placeholders. *)
Definition calculate_relevance (s : submission) (analysis : dict) : Q := 0.5.
Definition calculate_novelty (s : submission) (analysis : dict) : Q := 0.5.

End ContentAnalyzer.

(** ** agent.py: configuration and the utility function *)

(** [self.utility_weights], a dictionary with four fixed keys. *)
Record utility_weights : Type := {
  w_engagement : Q;
  w_sentiment : Q;
  w_relevance : Q;
  w_novelty : Q
}.

(** The fields of [RedditAIAgent] that are set once in [__init__]. *)
Record agent_config : Type := {
  learning_rate : Q;
  weights : utility_weights
}.

(** The configuration read from an empty environment. *)
Definition default_weights : utility_weights :=
  {| w_engagement := 0.4; w_sentiment := 0.2;
     w_relevance := 0.2; w_novelty := 0.2 |}.

Definition default_config : agent_config :=
  {| learning_rate := 0.1; weights := default_weights |}.

(** [calculate_utility] *)
Definition calculate_utility (w : utility_weights) (m : UtilityMetrics) : Q :=
  w_engagement w * engagement_rate m +
  w_sentiment w * sentiment_score m +
  w_relevance w * relevance_score m +
  w_novelty w * novelty_score m.




Definition in_unit (q : Q) : Prop := 0 <= q /\ q <= 1.

(** ** The agent's state, the outside world and the monad *)

Inductive log_entry : Type :=
  | LogPrivate (name : string)
  | LogNotExist (name : string)
  | LogForbidden (name : string)
  | LogSubredditError (name : string) (e : exn)
  | LogSubmissionError (id : string) (e : exn)
  | LogModelWarning (key : string) (e : exn).

(** A row of the table [submissions]. *)
Record submission_row : Type := {
  r_submission_id : string;
  r_title : string;
  r_content : string;
  r_author : string;
  r_subreddit : string;
  r_created_utc : Q;
  r_processed_at : Q;
  r_sentiment : pyval;
  r_topics : pyval;
  r_engagement_score : pyval;
  r_utility_score : Q
}.

(** A row of the table [learned_patterns]; [p_pattern_data] is the payload
    that [json.dumps] wrote and [json.loads] reads back. *)
Record pattern_row : Type := {
  p_pattern_id : Z;
  p_subreddit : string;
  p_pattern_type : string;
  p_pattern_data : dict;
  p_confidence : Q;
  p_utility_score : Q;
  p_last_updated : Q
}.

(** The two tables in row order, the AUTOINCREMENT counter, the number of
    connections opened so far, the dictionary [self.subreddit_models] and
    the log. *)
Record agent_state : Type := {
  submissions : list submission_row;
  learned_patterns : list pattern_row;
  pattern_seq : Z;
  db_ops : nat;
  subreddit_models : gmap string dict;
  log : list log_entry
}.

(** [setup_database] on a fresh file, and an agent just constructed. *)
Definition initial_state : agent_state :=
  {| submissions := []; learned_patterns := []; pattern_seq := 0%Z;
     db_ops := O; subreddit_models := ∅; log := [] |}.

(** What [subreddit.new(limit=...)] yields: submissions, until the
    generator is exhausted or a request fails. *)
Inductive listing : Type :=
  | Done
  | Yield (s : submission) (rest : listing)
  | Broken (e : exn).

(** The collaborators. [subreddit_type] is the outcome of
    [reddit.subreddit(name).subreddit_type]; [utcnow] and [now] are the
    two clock readings; [local_hour t] is
    [datetime.fromtimestamp(t).hour]; [db_fault n] is the error, if any,
    that the storage layer raises on the [n]-th connection. *)
Record world : Type := {
  subreddit_type : string -> res string;
  new_listing : string -> Z -> listing;
  utcnow : Q;
  now : Q;
  local_hour : Q -> res Z;
  db_fault : nat -> option exn;
  float_of_str : string -> option Q
}.

Module Monad.

Definition M (A : Type) : Type := agent_state -> res A * agent_state.

Definition ret {A} (a : A) : M A := fun st => (Ok a, st).

Definition bind {A B} (m : M A) (k : A -> M B) : M B := fun st =>
  match m st with
  | (Ok a, st') => k a st'
  | (Raise e, st') => (Raise e, st')
  end.

Definition lift {A} (r : res A) : M A := fun st => (r, st).

(** [try: m  except <catches> as e: h e] *)
Definition try_except {A} (m : M A) (catches : exn -> bool)
    (h : exn -> M A) : M A := fun st =>
  match m st with
  | (Ok a, st') => (Ok a, st')
  | (Raise e, st') => if catches e then h e st' else (Raise e, st')
  end.

Definition logger (entry : log_entry) : M unit := fun st =>
  (Ok tt,
   {| submissions := submissions st; learned_patterns := learned_patterns st;
      pattern_seq := pattern_seq st; db_ops := db_ops st;
      subreddit_models := subreddit_models st;
      log := log st ++ [entry] |}).

End Monad.
Export Monad.

Notation "x <-- m ;; k" := (bind m (fun x => k))
  (at level 90, m at level 89, right associativity).
Notation "m ;;; k" := (bind m (fun _ => k))
  (at level 90, right associativity).

(** ** database.py *)

Module Database.

Section WithWorld.

Variable w : world.

(** [with sqlite3.connect(self.db_path) as conn]: the connection is
    counted, and a storage fault scheduled for it is raised before the
    statement runs, leaving the tables as they were. *)
Definition connect : M unit := fun st =>
  let st' :=
    {| submissions := submissions st; learned_patterns := learned_patterns st;
       pattern_seq := pattern_seq st; db_ops := S (db_ops st);
       subreddit_models := subreddit_models st; log := log st |} in
  match db_fault w (db_ops st) with
  | Some e => (Raise e, st')
  | None => (Ok tt, st')
  end.

Definition has_row (sid : string) (rows : list submission_row) : bool :=
  existsb (fun r => String.eqb (r_submission_id r) sid) rows.

(** [SELECT * FROM submissions WHERE submission_id = ?] *)
Definition rows_with (sid : string) (rows : list submission_row)
    : list submission_row :=
  List.filter (fun r => String.eqb (r_submission_id r) sid) rows.

(** [is_submission_processed]:
    [SELECT 1 FROM submissions WHERE submission_id = ?] *)
Definition is_submission_processed (sid : string) : M bool :=
  connect ;;;
  fun st => (Ok (has_row sid (submissions st)), st).

(** What sqlite3 accepts as a statement parameter: a list is refused, and
    so is an integer that does not fit 64 bits. *)
Definition sql_bind (v : pyval) : res pyval :=
  match v with
  | VList _ => Raise InterfaceError
  | VInt z =>
      if ((- 2 ^ 63 <=? z) && (z <? 2 ^ 63))%Z then Ok v
      else Raise OverflowError
  | _ => Ok v
  end.

(** [INSERT INTO submissions ...]: the column [submission_id] is the
    PRIMARY KEY, so a row whose key is already there is refused. *)
Definition insert_submission (r : submission_row) : M unit := fun st =>
  if has_row (r_submission_id r) (submissions st)
  then (Raise IntegrityError, st)
  else
    (Ok tt,
     {| submissions := submissions st ++ [r];
        learned_patterns := learned_patterns st;
        pattern_seq := pattern_seq st; db_ops := db_ops st;
        subreddit_models := subreddit_models st; log := log st |}).

(** [store_submission]: the parameter tuple is evaluated inside the
    [with] block, then bound, then the row is inserted. *)
Definition store_submission (s : submission) (analysis : dict)
    (utility_score : Q) : M unit :=
  connect ;;;
  sentiment <-- lift (dict_item analysis "sentiment") ;;
  topics <-- lift (dict_item analysis "topics") ;;
  let engagement :=
    match dict_get analysis "engagement_rate" with
    | Some v => v
    | None => VFloat 0
    end in
  sentiment' <-- lift (sql_bind sentiment) ;;
  engagement' <-- lift (sql_bind engagement) ;;
  insert_submission
    {| r_submission_id := sub_id s;
       r_title := title s;
       r_content := selftext s;
       r_author := author s;
       r_subreddit := subreddit s;
       r_created_utc := created_utc s;
       r_processed_at := now w;
       r_sentiment := sentiment';
       r_topics := topics;
       r_engagement_score := engagement';
       r_utility_score := utility_score |}.

(** [store_pattern]: the new row takes the next AUTOINCREMENT key. *)
Definition store_pattern (subreddit_name pattern_type : string)
    (pattern_data : dict) (confidence : Q) : M unit :=
  connect ;;;
  fun st =>
    let id := (pattern_seq st + 1)%Z in
    (Ok tt,
     {| submissions := submissions st;
        learned_patterns :=
          learned_patterns st ++
          [{| p_pattern_id := id;
              p_subreddit := subreddit_name;
              p_pattern_type := pattern_type;
              p_pattern_data := pattern_data;
              p_confidence := confidence;
              p_utility_score := confidence;
              p_last_updated := now w |}];
        pattern_seq := id; db_ops := db_ops st;
        subreddit_models := subreddit_models st; log := log st |}).

(** Rows by decreasing confidence; rows of equal confidence keep the order
    they come in.  The same function stands for the scan of
    [ORDER BY confidence DESC], which meets the rows in insertion order,
    and for Python's stable [sorted(..., reverse=True)]. *)
Fixpoint insert_desc (x : pattern_row) (l : list pattern_row)
    : list pattern_row :=
  match l with
  | [] => [x]
  | y :: l' =>
      if Qle_bool (p_confidence y) (p_confidence x) then x :: y :: l'
      else y :: insert_desc x l'
  end.

Fixpoint sort_desc (l : list pattern_row) : list pattern_row :=
  match l with
  | [] => []
  | x :: l' => insert_desc x (sort_desc l')
  end.

(** [get_patterns] *)
Definition get_patterns (subreddit_name : string) : M (list pattern_row) :=
  connect ;;;
  fun st =>
    (Ok (sort_desc
           (List.filter (fun p => String.eqb (p_subreddit p) subreddit_name)
                        (learned_patterns st))),
     st).

(** A client of the database: any sequence of calls of its methods. *)
Inductive db_call : Type :=
  | Call_is_submission_processed (sid : string)
  | Call_store_submission (s : submission) (analysis : dict) (utility : Q)
  | Call_store_pattern (name pattern_type : string) (data : dict)
      (confidence : Q)
  | Call_get_patterns (name : string).

(** One call; the boolean tells whether it returned normally. *)
Definition run_call (c : db_call) (st : agent_state) : bool * agent_state :=
  let outcome {A} (r : res A * agent_state) : bool * agent_state :=
    (match fst r with Ok _ => true | Raise _ => false end, snd r) in
  match c with
  | Call_is_submission_processed sid => outcome (is_submission_processed sid st)
  | Call_store_submission s analysis u =>
      outcome (store_submission s analysis u st)
  | Call_store_pattern name ty data c => outcome (store_pattern name ty data c st)
  | Call_get_patterns name => outcome (get_patterns name st)
  end.

(** The calls in sequence, an exception of one not stopping the client;
    the result lists the calls with their outcomes. *)
Fixpoint run_calls (calls : list db_call) (st : agent_state)
    : list (db_call * bool) * agent_state :=
  match calls with
  | [] => ([], st)
  | c :: calls' =>
      let (ok, st1) := run_call c st in
      let (trace, st2) := run_calls calls' st1 in
      ((c, ok) :: trace, st2)
  end.


End WithWorld.

End Database.

(** ** agent.py *)

(** An element of the list that [process_subreddit] returns. *)
Record processed_entry : Type := {
  pe_id : string;
  pe_title : string;
  pe_utility_score : Q;
  pe_metrics : UtilityMetrics
}.

(** The text of a suggestion, as the template that produces it and the
    values that fill it. *)
Inductive suggestion : Type :=
  | Consider_posting (post_time content_length : pyval) (topics : string)
  | No_specific_suggestion.

(** An element of the list that [get_recommendations] returns. *)
Record recommendation : Type := {
  rec_type : string;
  rec_confidence : Q;
  rec_suggestion : suggestion
}.

Module RedditAIAgent.

Import Database ContentAnalyzer.

Section WithWorld.

Variable w : world.
Variable self : agent_config.

Definition set_model (name : string) (d : dict) : M unit := fun st =>
  (Ok tt,
   {| submissions := submissions st; learned_patterns := learned_patterns st;
      pattern_seq := pattern_seq st; db_ops := db_ops st;
      subreddit_models := <[name := d]> (subreddit_models st);
      log := log st |}).

(** [self.subreddit_models[name][key] = value] *)
Definition set_model_key (name key : string) (value : pyval) : M unit :=
  fun st =>
    match subreddit_models st !! name with
    | Some d => set_model name (dict_set d key value) st
    | None => (Raise (KeyError name), st)
    end.

(** [self.subreddit_models[name].get(key, 0)] *)
Definition get_model_key (name key : string) : M pyval := fun st =>
  match subreddit_models st !! name with
  | Some d =>
      (Ok (match dict_get d key with Some v => v | None => VInt 0 end), st)
  | None => (Raise (KeyError name), st)
  end.

(** The body of the loop of [update_model], for one item of [new_data]. *)
Definition update_key (name key : string) (value : pyval) : M unit :=
  if String.eqb key "topics" then set_model_key name key value
  else
    try_except
      (old <-- get_model_key name key ;;
       old_value <-- lift (to_float (float_of_str w) old) ;;
       new_value <-- lift (to_float (float_of_str w) value) ;;
       set_model_key name key
         (VFloat ((1 - learning_rate self) * old_value +
                  learning_rate self * new_value)))
      (fun e => is_ValueError e || is_TypeError e)
      (fun e =>
         logger (LogModelWarning key e) ;;;
         set_model_key name key value).

Fixpoint update_items (name : string) (items : dict) : M unit :=
  match items with
  | [] => ret tt
  | (key, value) :: items' =>
      update_key name key value ;;; update_items name items'
  end.

(** [update_model] *)
Definition update_model (name : string) (new_data : dict) : M unit :=
  fun st =>
    match subreddit_models st !! name with
    | None => set_model name new_data st
    | Some _ => update_items name new_data st
    end.

(** [_learn_from_submission] *)
Definition _learn_from_submission (s : submission) (analysis : dict)
    (utility_score : Q) : M unit :=
  post_time <-- lift (local_hour w (created_utc s)) ;;
  topics <-- lift (dict_item analysis "topics") ;;
  let pattern_data :=
    [("title_length", VInt (Z.of_nat (String.length (title s))));
     ("content_length", VInt (Z.of_nat (String.length (selftext s))));
     ("post_time", VInt post_time);
     ("topics", topics)] in
  store_pattern w (subreddit s) "successful_post" pattern_data utility_score.

(** The body of the inner [try] of [process_subreddit], for one
    submission; the result is the entry appended to
    [processed_submissions], if any. *)
Definition process_submission (name : string) (s : submission)
    : M (option processed_entry) :=
  seen <-- is_submission_processed w (sub_id s) ;;
  if seen then ret None
  else
    let analysis := analyze_submission s in
    engagement <-- lift (calculate_engagement_rate (utcnow w) s) ;;
    sentiment <--
      lift (let? v := dict_item analysis "sentiment" in as_number v) ;;
    let metrics :=
      {| engagement_rate := engagement;
         sentiment_score := sentiment;
         relevance_score := calculate_relevance s analysis;
         novelty_score := calculate_novelty s analysis |} in
    let utility_score := calculate_utility (weights self) metrics in
    store_submission w s analysis utility_score ;;;
    update_model name
      [("avg_engagement", VFloat (engagement_rate metrics));
       ("avg_sentiment", VFloat (sentiment_score metrics));
       ("avg_relevance", VFloat (relevance_score metrics));
       ("avg_novelty", VFloat (novelty_score metrics))] ;;;
    (if Qgt_bool utility_score 0.7
     then _learn_from_submission s analysis utility_score
     else ret tt) ;;;
    ret (Some {| pe_id := sub_id s;
                 pe_title := title s;
                 pe_utility_score := utility_score;
                 pe_metrics := metrics |}).

(** The [for] loop of [process_subreddit]: an exception of one submission
    is logged and the loop goes on; an exception of the generator leaves
    the loop. *)
Fixpoint process_listing (name : string) (l : listing)
    (processed_submissions : list processed_entry)
    : M (list processed_entry) :=
  match l with
  | Done => ret processed_submissions
  | Broken e => lift (Raise e)
  | Yield s rest =>
      acc <--
        try_except
          (r <-- process_submission name s ;;
           ret (match r with
                | Some entry => (processed_submissions ++ [entry])%list
                | None => processed_submissions
                end))
          is_Exception
          (fun e =>
             logger (LogSubmissionError (sub_id s) e) ;;;
             ret processed_submissions) ;;
      process_listing name rest acc
  end.

(** The handlers of the outer [try], in the order of the source. *)
Definition subreddit_handler (name : string) (e : exn)
    : M (list processed_entry) :=
  match e with
  | Redirect => logger (LogNotExist name) ;;; ret []
  | Forbidden => logger (LogForbidden name) ;;; ret []
  | _ => logger (LogSubredditError name e) ;;; ret []
  end.

(** [process_subreddit] *)
Definition process_subreddit (name : string) (limit : Z)
    : M (list processed_entry) :=
  try_except
    (subreddit_type <-- lift (subreddit_type w name) ;;
     if String.eqb subreddit_type "private"
     then logger (LogPrivate name) ;;; ret []
     else process_listing name (new_listing w name limit) [])
    is_Exception
    (subreddit_handler name).

(** [', '.join(v)]: the argument must be an iterable of strings; a string
    is the iterable of its characters. *)
Fixpoint chars (s : string) : list string :=
  match s with
  | EmptyString => []
  | String c s' => String c EmptyString :: chars s'
  end.

Definition join_topics (v : pyval) : res string :=
  match v with
  | VList l => Ok (String.concat ", " l)
  | VStr s => Ok (String.concat ", " (chars s))
  | _ => Raise TypeError
  end.

(** [_generate_suggestion] *)
Definition _generate_suggestion (pattern : pattern_row) (model_data : dict)
    : res suggestion :=
  let pattern_data := p_pattern_data pattern in
  if String.eqb (p_pattern_type pattern) "successful_post" then
    let? post_time := dict_item pattern_data "post_time" in
    let? content_length := dict_item pattern_data "content_length" in
    let? topics := dict_item pattern_data "topics" in
    let? joined := join_topics topics in
    Ok (Consider_posting post_time content_length joined)
  else Ok No_specific_suggestion.

(** The loop of [get_recommendations] over the best patterns. *)
Fixpoint recommend_each (best_patterns : list pattern_row)
    (model_data : dict) : res (list recommendation) :=
  match best_patterns with
  | [] => Ok []
  | pattern :: rest =>
      let? text := _generate_suggestion pattern model_data in
      let? recs := recommend_each rest model_data in
      Ok ({| rec_type := p_pattern_type pattern;
             rec_confidence := p_confidence pattern;
             rec_suggestion := text |} :: recs)
  end.

(** Truth value of a list or a dictionary: it is not empty. *)
Definition truthy {A} (l : list A) : bool :=
  match l with
  | [] => false
  | _ => true
  end.

(** [get_recommendations] *)
Definition get_recommendations (name : string) : M (list recommendation) :=
  patterns <-- get_patterns w name ;;
  fun st =>
    let model_data :=
      match subreddit_models st !! name with
      | Some d => d
      | None => []
      end in
    if truthy patterns && truthy model_data then
      let best_patterns := firstn 5 (sort_desc patterns) in
      (recommend_each best_patterns model_data, st)
    else (Ok [], st).

End WithWorld.

End RedditAIAgent.

(** ** llm.py: safe_parse_json *)

Module Llm.

(** What [json.loads] returns. *)
#[warnings="-register-all"]
Inductive json : Type :=
  | JNull
  | JBool (b : bool)
  | JNum (z : Z)
  | JFloat (q : Q)
  | JStr (s : string)
  | JArr (l : list json)
  | JObj (members : list (string * json)).

(** [s.find(c)]: the index of the first [c], or -1. *)
Fixpoint find_from (c : ascii) (s : string) (i : Z) : Z :=
  match s with
  | EmptyString => (-1)%Z
  | String a s' => if Ascii.eqb a c then i else find_from c s' (i + 1)%Z
  end.

Definition str_find (c : ascii) (s : string) : Z := find_from c s 0%Z.

(** [s.rfind(c)]: the index of the last [c], or -1. *)
Fixpoint rfind_from (c : ascii) (s : string) (i last : Z) : Z :=
  match s with
  | EmptyString => last
  | String a s' =>
      rfind_from c s' (i + 1)%Z (if Ascii.eqb a c then i else last)
  end.

Definition str_rfind (c : ascii) (s : string) : Z :=
  rfind_from c s 0%Z (-1)%Z.

(** [s[i:j]] for indices between 0 and [len(s)]; empty when [j <= i]. *)
Definition slice (s : string) (i j : Z) : string :=
  substring (Z.to_nat i) (Z.to_nat (j - i)) s.

Section Parse.

(** [json.loads] is the standard library's parser. *)
Variable json_loads : string -> res json.

(** The inner [try] of [safe_parse_json]: [None] when the [if] is not
    taken. *)
Definition parse_embedded (json_str : string) : res (option json) :=
  let start_idx := str_find "{" json_str in
  let end_idx := (str_rfind "}" json_str + 1)%Z in
  if negb (start_idx =? -1)%Z && negb (end_idx =? 0)%Z then
    let json_obj := slice json_str start_idx end_idx in
    let? v := json_loads json_obj in
    Ok (Some v)
  else Ok None.

(** [safe_parse_json]: the result, and whether the failure was logged. *)
Definition safe_parse_json (json_str : string) : res json * bool :=
  match json_loads json_str with
  | Ok v => (Ok v, false)
  | Raise e =>
      if is_JSONDecodeError e then
        match parse_embedded json_str with
        | Ok (Some v) => (Ok v, false)
        | Ok None => (Ok (JObj []), true)
        | Raise e' =>
            if is_JSONDecodeError e' || is_ValueError e'
            then (Ok (JObj []), true)
            else (Raise e', false)
        end
      else (Raise e, false)
  end.

End Parse.

End Llm.

(** ** A parser for a fragment of JSON *)

Module JsonFragment.

Import Llm.

(** The documents of the fragment: objects, arrays, strings without
    escape sequences, integers, [true], [false], [null], and blanks
    between tokens.  On these [json_loads] is [json.loads]; any other
    text is refused with [JSONDecodeError]. *)

Definition dquote : ascii := "034".
Definition backslash : ascii := "092".

Definition is_blank (c : ascii) : bool :=
  Ascii.eqb c " " || Ascii.eqb c "009" || Ascii.eqb c "010" ||
  Ascii.eqb c "013".

Fixpoint skip_blanks (s : string) : string :=
  match s with
  | String c r => if is_blank c then skip_blanks r else s
  | EmptyString => s
  end.

(** The characters of a string literal after its opening quote, up to the
    closing one, and the rest of the text. *)
Fixpoint scan_string (s acc : string) : option (string * string) :=
  match s with
  | EmptyString => None
  | String c r =>
      if Ascii.eqb c dquote then Some (acc, r)
      else if Ascii.eqb c backslash || (nat_of_ascii c <? 32)%nat then None
      else scan_string r (acc ++ String c EmptyString)
  end.

Definition digit_of (c : ascii) : option Z :=
  let n := nat_of_ascii c in
  if ((48 <=? n) && (n <=? 57))%nat then Some (Z.of_nat (n - 48)) else None.

Fixpoint scan_digits (s : string) (acc : Z) : Z * string :=
  match s with
  | String c r =>
      match digit_of c with
      | Some d => scan_digits r (10 * acc + d)%Z
      | None => (acc, s)
      end
  | EmptyString => (acc, s)
  end.

(** An unsigned integer: a single 0, or digits that do not start with 0. *)
Definition scan_natural (s : string) : option (Z * string) :=
  match s with
  | String c r =>
      match digit_of c with
      | Some d => if (d =? 0)%Z then Some (0%Z, r) else Some (scan_digits r d)
      | None => None
      end
  | EmptyString => None
  end.

Definition drop_prefix (p s : string) : option string :=
  if String.prefix p s
  then Some (substring (String.length p) (String.length s - String.length p) s)
  else None.

(** One value and the text after it; [fuel] bounds the nesting and the
    number of members. *)
Fixpoint parse_value (fuel : nat) (s : string) : option (json * string) :=
  match fuel with
  | O => None
  | S fuel' =>
      match skip_blanks s with
      | EmptyString => None
      | String c r =>
          if Ascii.eqb c "{" then
            match skip_blanks r with
            | EmptyString => None
            | String c1 r1 =>
                if Ascii.eqb c1 "}" then Some (JObj [], r1)
                else
                  (fix members (n : nat) (s : string)
                       (acc : list (string * json)) {struct n}
                       : option (json * string) :=
                     match n with
                     | O => None
                     | S n' =>
                         match skip_blanks s with
                         | String q r2 =>
                             if Ascii.eqb q dquote then
                               match scan_string r2 EmptyString with
                               | Some (key, r3) =>
                                   match skip_blanks r3 with
                                   | String colon r4 =>
                                       if Ascii.eqb colon ":" then
                                         match parse_value fuel' r4 with
                                         | Some (v, r5) =>
                                             let acc' :=
                                               (acc ++ [(key, v)])%list in
                                             match skip_blanks r5 with
                                             | String d r6 =>
                                                 if Ascii.eqb d ","
                                                 then members n' r6 acc'
                                                 else if Ascii.eqb d "}"
                                                 then Some (JObj acc', r6)
                                                 else None
                                             | EmptyString => None
                                             end
                                         | None => None
                                         end
                                       else None
                                   | EmptyString => None
                                   end
                               | None => None
                               end
                             else None
                         | EmptyString => None
                         end
                     end) fuel' (String c1 r1) []
            end
          else if Ascii.eqb c "[" then
            match skip_blanks r with
            | EmptyString => None
            | String c1 r1 =>
                if Ascii.eqb c1 "]" then Some (JArr [], r1)
                else
                  (fix elements (n : nat) (s : string) (acc : list json)
                       {struct n} : option (json * string) :=
                     match n with
                     | O => None
                     | S n' =>
                         match parse_value fuel' s with
                         | Some (v, r2) =>
                             let acc' := (acc ++ [v])%list in
                             match skip_blanks r2 with
                             | String d r3 =>
                                 if Ascii.eqb d "," then elements n' r3 acc'
                                 else if Ascii.eqb d "]"
                                 then Some (JArr acc', r3)
                                 else None
                             | EmptyString => None
                             end
                         | None => None
                         end
                     end) fuel' (String c1 r1) []
            end
          else if Ascii.eqb c dquote then
            match scan_string r EmptyString with
            | Some (str, r1) => Some (JStr str, r1)
            | None => None
            end
          else if Ascii.eqb c "-" then
            match scan_natural r with
            | Some (z, r1) => Some (JNum (- z), r1)
            | None => None
            end
          else
            match scan_natural (String c r) with
            | Some (z, r1) => Some (JNum z, r1)
            | None =>
                match drop_prefix "true" (String c r),
                      drop_prefix "false" (String c r),
                      drop_prefix "null" (String c r) with
                | Some r1, _, _ => Some (JBool true, r1)
                | _, Some r1, _ => Some (JBool false, r1)
                | _, _, Some r1 => Some (JNull, r1)
                | _, _, _ => None
                end
            end
      end
  end.

(** [json.loads] on the fragment: one value, then blanks only. *)
Definition json_loads (s : string) : res json :=
  match parse_value (S (String.length s)) s with
  | Some (v, rest) =>
      match skip_blanks rest with
      | EmptyString => Ok v
      | String _ _ => Raise JSONDecodeError
      end
  | None => Raise JSONDecodeError
  end.

(** A string literal of a document. *)
Definition quoted (s : string) : string :=
  String dquote (s ++ String dquote EmptyString).

End JsonFragment.

(** ** llm.py: LLMAnalyzer *)

Module LLMAnalyzer.

Import Llm.

(** The request sent to the model: which template of the source and the
    values that fill it. *)
Inductive prompt : Type :=
  | Prompt_sentiment (text : string)
  | Prompt_topics (text : string)
  | Prompt_relevance (text subreddit_name : string)
  | Prompt_novelty (text subreddit_name : string)
  | Prompt_suggestion (pattern model_data : dict) (subreddit_name : string)
  | Prompt_relevant_subreddit (description target_market : string)
  | Prompt_market_need (text : string)
  | Prompt_insights (posts : list dict).

(** What a [try] of [llm.py] or [main.py] can catch: an exception of
    [exn], the [AttributeError] of a method call on a value that has no
    such method, or the [OSError] of a file that cannot be written. *)
Inductive raised : Type :=
  | Py (e : exn)
  | AttributeError
  | OSError.

(** [isinstance(e, Exception)] *)
Definition is_Exception' (r : raised) : bool :=
  match r with
  | Py e => is_Exception e
  | AttributeError | OSError => true
  end.

(** The third component of the answer of [is_relevant_subreddit]: a value
    of the parsed answer, or [str(e)] for a caught exception. *)
Inductive reason : Type :=
  | Reason (v : json)
  | Reason_of (e : raised).

(** The log lines of [llm.py] and [main.py]. *)
Inductive note : Type :=
  | Debug_response (response : option string)
  | Error_completion (e : raised)
  | Error_parse (text : string)
  | Error_score (p : prompt) (e : raised)
  | Error_topics (e : raised)
  | Error_suggestion (e : raised)
  | Info_relevance (analysis : json)
  | Error_subreddit_relevance (e : raised)
  | Debug_market_need (analysis : json)
  | Error_market_need (e : raised)
  | Error_insights (e : raised)
  | Info_category (category subreddit_name : string)
  | Info_analyzed (count : Z) (subreddit_name : string)
  | Error_analyzing (subreddit_name : string) (e : raised)
  | Info_saved (subreddit_name : string)
  | Error_saving (e : raised)
  | Info_searching (query : option string)
  | Info_subreddit (display_name : string) (is_relevant confidence : json)
  | Info_reason (r : reason)
  | Error_analysis (e : raised).

(** A computation that logs and may raise: its outcome and its log. *)
Definition W (A : Type) : Type := (A + raised) * list note.

Definition wret {A} (a : A) : W A := (inl a, []).

Definition wraise {A} (e : raised) : W A := (inr e, []).

Definition wlog (n : note) : W unit := (inl tt, [n]).

Definition wbind {A B} (m : W A) (k : A -> W B) : W B :=
  match m with
  | (inl a, notes) => let (r, notes') := k a in (r, (notes ++ notes')%list)
  | (inr e, notes) => (inr e, notes)
  end.

(** [try: m  except <catches> as e: h e] *)
Definition wtry {A} (m : W A) (catches : raised -> bool)
    (h : raised -> W A) : W A :=
  match m with
  | (inl a, notes) => (inl a, notes)
  | (inr e, notes) =>
      if catches e
      then let (r, notes') := h e in (r, (notes ++ notes')%list)
      else (inr e, notes)
  end.

Definition wlift {A} (r : res A) : W A :=
  match r with
  | Ok a => wret a
  | Raise e => wraise (Py e)
  end.

(** [s.split(',')]: the fields between the commas, empty ones included;
    [cur] is the field being read. *)
Fixpoint split_from (c : ascii) (s cur : string) : list string :=
  match s with
  | EmptyString => [cur]
  | String a s' =>
      if Ascii.eqb a c then cur :: split_from c s' EmptyString
      else split_from c s' (cur ++ String a EmptyString)
  end.

Definition split (c : ascii) (s : string) : list string :=
  split_from c s EmptyString.

(** [d.get(k)] on the members of a parsed object: a key written twice in
    the text keeps its last value. *)
Fixpoint members_get (m : list (string * json)) (k : string) : option json :=
  match m with
  | [] => None
  | (k', v) :: m' =>
      match members_get m' k with
      | Some v' => Some v'
      | None => if String.eqb k k' then Some v else None
      end
  end.

(** [d[k] = v] on the members of an object. *)
Fixpoint members_set (m : list (string * json)) (k : string) (v : json)
    : list (string * json) :=
  match m with
  | [] => [(k, v)]
  | (k', v') :: m' =>
      if String.eqb k k' then (k', v) :: m' else (k', v') :: members_set m' k v
  end.

(** [analysis.get(k, default)]: only an object has the method. *)
Definition json_get (analysis : json) (k : string) (default : json) : W json :=
  match analysis with
  | JObj m =>
      wret (match members_get m k with Some v => v | None => default end)
  | _ => wraise AttributeError
  end.

(** Truth value of a parsed value. *)
Definition json_truthy (v : json) : bool :=
  match v with
  | JNull => false
  | JBool b => b
  | JNum z => negb (z =? 0)%Z
  | JFloat q => negb (Qeq_bool q 0)
  | JStr s => negb (String.eqb s "")
  | JArr l => match l with [] => false | _ => true end
  | JObj m => match m with [] => false | _ => true end
  end.

(** [v > bound] for a float [bound]: a number or a boolean compares, any
    other value raises [TypeError]. *)
Definition json_gt (v : json) (bound : Q) : res bool :=
  match v with
  | JBool b => Ok (Qgt_bool (if b then 1 else 0) bound)
  | JNum z => Ok (Qgt_bool (inject_Z z) bound)
  | JFloat q => Ok (Qgt_bool q bound)
  | _ => Raise TypeError
  end.

(** [is_need and confidence > bound], as a condition. *)
Definition need_and_above (is_need confidence : json) (bound : Q) : res bool :=
  if json_truthy is_need then json_gt confidence bound else Ok false.

(** The model behind the client, and the builtins [str.strip],
    [float] on a string and [json.loads].  [create] stands for the request
    and the reading of [choices[0].message.content], which is a string or
    [None]; [str_float] gives [None] where [float] raises [ValueError].
    Floats are rationals here: infinities and NaN are left out. *)
Record oracle : Type := {
  create : prompt -> Q -> res (option string);
  str_strip : string -> string;
  str_float : string -> option Q;
  json_loads : string -> res json
}.

Section WithOracle.

Variable o : oracle.

(** [_get_completion] *)
Definition _get_completion (p : prompt) (temperature : Q)
    : W (option string) :=
  wtry
    (wbind (wlift (create o p temperature)) (fun response =>
     wbind (wlog (Debug_response response)) (fun _ =>
     wret response)))
    is_Exception'
    (fun e => wbind (wlog (Error_completion e)) (fun _ => wret (Some "{}"))).

(** [float(response.strip())]: [None] has no method [strip]. *)
Definition float_of_answer (response : option string) : W Q :=
  match response with
  | Some text =>
      match str_float o (str_strip o text) with
      | Some q => wret q
      | None => wraise (Py ValueError)
      end
  | None => wraise AttributeError
  end.

(** [[topic.strip() for topic in response.split(',')]] *)
Definition topics_of_answer (response : option string) : W (list string) :=
  match response with
  | Some text => wret (map (str_strip o) (split "," text))
  | None => wraise AttributeError
  end.

Definition catches_value_or_type (e : raised) : bool :=
  match e with
  | Py e' => is_ValueError e' || is_TypeError e'
  | AttributeError | OSError => false
  end.

(** [analyze_sentiment] *)
Definition analyze_sentiment (text : string) : W Q :=
  wtry
    (wbind (_get_completion (Prompt_sentiment text) 0.3) float_of_answer)
    catches_value_or_type
    (fun e =>
       wbind (wlog (Error_score (Prompt_sentiment text) e)) (fun _ => wret 0.5)).

(** [extract_topics] *)
Definition extract_topics (text : string) : W (list string) :=
  wtry
    (wbind (_get_completion (Prompt_topics text) 0.5) topics_of_answer)
    is_Exception'
    (fun e => wbind (wlog (Error_topics e)) (fun _ => wret ["general"])).

(** [calculate_relevance] *)
Definition calculate_relevance (text subreddit_name : string) : W Q :=
  wtry
    (wbind (_get_completion (Prompt_relevance text subreddit_name) 0.3)
       float_of_answer)
    catches_value_or_type
    (fun e =>
       wbind (wlog (Error_score (Prompt_relevance text subreddit_name) e))
         (fun _ => wret 0.5)).

(** [calculate_novelty] *)
Definition calculate_novelty (text subreddit_name : string) : W Q :=
  wtry
    (wbind (_get_completion (Prompt_novelty text subreddit_name) 0.3)
       float_of_answer)
    catches_value_or_type
    (fun e =>
       wbind (wlog (Error_score (Prompt_novelty text subreddit_name) e))
         (fun _ => wret 0.5)).

(** [generate_suggestion] *)
Definition generate_suggestion (pattern model_data : dict)
    (subreddit_name : string) : W (option string) :=
  wtry
    (_get_completion (Prompt_suggestion pattern model_data subreddit_name) 0.7)
    is_Exception'
    (fun e =>
       wbind (wlog (Error_suggestion e)) (fun _ =>
       wret (Some "No specific suggestion available"))).

(** [safe_parse_json], with its log line; [json.loads(None)] raises
    [TypeError], which the function does not catch. *)
Definition parse (response : option string) : W json :=
  match response with
  | Some text =>
      let (r, logged) := safe_parse_json (json_loads o) text in
      (match r with
       | Ok v => inl v
       | Raise e => inr (Py e)
       end,
       if logged then [Error_parse text] else [])
  | None => wraise (Py TypeError)
  end.

(** [is_relevant_subreddit] *)
Definition is_relevant_subreddit (description target_market : string)
    : W (json * json * reason) :=
  wtry
    (wbind (_get_completion
              (Prompt_relevant_subreddit description target_market) 0.3)
       (fun response =>
     wbind (parse response) (fun analysis =>
     wbind (wlog (Info_relevance analysis)) (fun _ =>
     wbind (json_get analysis "is_relevant" (JBool false)) (fun is_relevant =>
     wbind (json_get analysis "confidence" (JFloat 0)) (fun confidence =>
     wbind (json_get analysis "reason" (JStr "No reason provided"))
       (fun why =>
     wret (is_relevant, confidence, Reason why))))))))
    is_Exception'
    (fun e =>
       wbind (wlog (Error_subreddit_relevance e)) (fun _ =>
       wret (JBool false, JFloat 0, Reason_of e))).

(** [analyze_market_need] *)
Definition analyze_market_need (text : string) : W (json * json * json) :=
  wtry
    (wbind (_get_completion (Prompt_market_need text) 0.3) (fun response =>
     wbind (parse response) (fun analysis =>
     wbind (wlog (Debug_market_need analysis)) (fun _ =>
     wbind (json_get analysis "is_need" (JBool false)) (fun is_need =>
     wbind (json_get analysis "confidence" (JFloat 0)) (fun confidence =>
     wret (is_need, confidence, analysis)))))))
    is_Exception'
    (fun e =>
       wbind (wlog (Error_market_need e)) (fun _ =>
       wret (JBool false, JFloat 0, JObj []))).

(** [extract_market_insights] *)
Definition extract_market_insights (posts : list dict) : W json :=
  wtry
    (wbind (_get_completion (Prompt_insights posts) 0.7) parse)
    is_Exception'
    (fun e => wbind (wlog (Error_insights e)) (fun _ => wret (JObj []))).

End WithOracle.

End LLMAnalyzer.

(** ** main.py *)

Module Main.

Import Llm LLMAnalyzer.

(** What [analyze_subreddit] reads of a post; [po_comments] is the outcome
    of [replace_more] followed by [list()]: the bodies of the comments,
    or the exception of the fetch. *)
Record post : Type := {
  po_title : string;
  po_selftext : string;
  po_stickied : bool;
  po_score : Z;
  po_permalink : string;
  po_comments : res (list string)
}.

(** What a listing of posts yields. *)
Inductive post_listing : Type :=
  | Posts_done
  | Posts_yield (p : post) (rest : post_listing)
  | Posts_broken (e : exn).

(** The attributes of a community. *)
Record subreddit_about : Type := {
  sa_display_name : string;
  sa_title : string;
  sa_description : option string;
  sa_subscribers : Z
}.

(** What the search of communities yields. *)
Inductive subreddit_listing : Type :=
  | Subs_done
  | Subs_yield (s : subreddit_about) (rest : subreddit_listing)
  | Subs_broken (e : exn).

(** The dictionary [insights]. *)
Record insights : Type := {
  in_subreddit : string;
  in_title : string;
  in_description : option string;
  in_subscribers : Z;
  needs_found : list (list (string * json));
  opportunities : list json
}.

(** The content source and the file system: the attributes of a
    community by name, its listing of a category for a limit, the search
    for a query and a limit, and the exception, if any, of writing the
    insights of a community to its file. *)
Record reddit : Type := {
  about : string -> res subreddit_about;
  category_posts : string -> string -> Z -> post_listing;
  search : option string -> Z -> subreddit_listing;
  write_file : string -> insights -> option raised
}.

(** The command line. *)
Record arguments : Type := {
  arg_market : string;
  arg_search : option string;
  arg_limit : Z;
  arg_posts : Z
}.

Definition newline : string := String "010" EmptyString.

(** The text of a post sent to the model. *)
Definition post_text (p : post) (top_comments : list string) : string :=
  ("Title: " ++ po_title p ++ newline ++ newline ++
   "Content: " ++ po_selftext p ++ newline ++ newline) ++
  ("Top Comments:" ++ newline ++ String.concat newline top_comments).

(** [{'url': ..., 'title': ..., 'score': ..., 'confidence': ..., **details}] *)
Definition need_info (p : post) (confidence details : json)
    : res (list (string * json)) :=
  match details with
  | JObj members =>
      Ok (fold_left (fun d item => members_set d (fst item) (snd item))
            members
            [("url", JStr ("https://reddit.com" ++ po_permalink p));
             ("title", JStr (po_title p));
             ("score", JNum (po_score p));
             ("confidence", confidence)])
  | _ => Raise TypeError
  end.

Section WithWorld.

Variable o : oracle.
Variable rd : reddit.

(** [save_insights] *)
Definition save_insights (ins : insights) (subreddit_name : string) : W unit :=
  wtry
    (wbind (match write_file rd subreddit_name ins with
            | Some e => wraise e
            | None => wret tt
            end) (fun _ =>
     wlog (Info_saved subreddit_name)))
    is_Exception'
    (fun e => wlog (Error_saving e)).

(** The body of the inner loop of [analyze_subreddit] for a post that is
    not stickied: the need found, if any. *)
Definition analyze_post (p : post) : W (option (list (string * json))) :=
  wbind (wlift (po_comments p)) (fun comments =>
  let top_comments := firstn 3 comments in
  let text := post_text p top_comments in
  wbind (analyze_market_need o text) (fun answer =>
  let '(is_need, confidence, details) := answer in
  wbind (wlift (need_and_above is_need confidence 0.6)) (fun found =>
  if found
  then wbind (wlift (need_info p confidence details)) (fun info =>
       wret (Some info))
  else wret None))).

(** The inner loop: the needs found and the count of posts analysed. *)
Fixpoint analyze_posts (l : post_listing)
    (acc : list (list (string * json)) * Z)
    : W (list (list (string * json)) * Z) :=
  match l with
  | Posts_done => wret acc
  | Posts_broken e => wraise (Py e)
  | Posts_yield p rest =>
      if po_stickied p then analyze_posts rest acc
      else
        wbind (analyze_post p) (fun found =>
        analyze_posts rest
          (match found with
           | Some info => (fst acc ++ [info])%list
           | None => fst acc
           end,
           (snd acc + 1)%Z))
  end.

(** The outer loop, over the categories. *)
Fixpoint analyze_categories (subreddit_name : string) (post_limit : Z)
    (categories : list string) (acc : list (list (string * json)) * Z)
    : W (list (list (string * json)) * Z) :=
  match categories with
  | [] => wret acc
  | category :: categories' =>
      wbind (wlog (Info_category category subreddit_name)) (fun _ =>
      wbind (analyze_posts
               (category_posts rd subreddit_name category
                  (post_limit / Z.of_nat (length ["hot"; "new"; "top"])))
               acc) (fun acc' =>
      analyze_categories subreddit_name post_limit categories' acc'))
  end.

(** [analyze_subreddit]: [None] stands for the [None] of the source. *)
Definition analyze_subreddit (subreddit_name : string) (post_limit : Z)
    : W (option insights) :=
  wtry
    (wbind (wlift (about rd subreddit_name)) (fun subreddit =>
     wbind (analyze_categories subreddit_name post_limit
              ["hot"; "new"; "top"] ([], 0%Z)) (fun acc =>
     wbind (wlog (Info_analyzed (snd acc) subreddit_name)) (fun _ =>
     wret (Some {| in_subreddit := subreddit_name;
                   in_title := sa_title subreddit;
                   in_description := sa_description subreddit;
                   in_subscribers := sa_subscribers subreddit;
                   needs_found := fst acc;
                   opportunities := [] |})))))
    is_Exception'
    (fun e =>
       wbind (wlog (Error_analyzing subreddit_name e)) (fun _ => wret None)).

(** [f"{confidence:.2f}"]: a number or a boolean is formatted, unless it
    is an integer too large for a float ([OverflowError]); a string
    raises [ValueError], any other value [TypeError]. *)
Definition format_2f (v : json) : res unit :=
  match v with
  | JBool _ | JFloat _ => Ok tt
  | JNum z =>
      if (Z.abs z <? 2 ^ 1024 - 2 ^ 970)%Z then Ok tt
      else Raise OverflowError
  | JStr _ => Raise ValueError
  | _ => Raise TypeError
  end.

(** [subreddit.description or subreddit.title] *)
Definition description_or_title (s : subreddit_about) : string :=
  match sa_description s with
  | Some d => if String.eqb d "" then sa_title s else d
  | None => sa_title s
  end.

(** The loop body of [main] up to the test of line 155: the insights to
    keep for the community, if any. *)
Definition relevant_insights (args : arguments) (s : subreddit_about)
    : W (option insights) :=
  wbind (is_relevant_subreddit o (description_or_title s) (arg_market args))
    (fun answer =>
  let '(is_relevant, confidence, why) := answer in
  wbind (wlift (format_2f confidence)) (fun _ =>
  wbind (wlog (Info_subreddit (sa_display_name s) is_relevant confidence))
    (fun _ =>
  wbind (wlog (Info_reason why)) (fun _ =>
  wbind (wlift (need_and_above is_relevant confidence 0.3)) (fun relevant =>
  if relevant then
    wbind (analyze_subreddit (sa_display_name s) (arg_posts args))
      (fun found =>
    match found with
    | Some ins =>
        match needs_found ins with
        | [] => wret None
        | _ :: _ => wret (Some ins)
        end
    | None => wret None
    end)
  else wret None))))).

(** The loop body of [main] for one community: [analyzed_subreddits] and
    [total_needs] after it, and how it ended.  The two variables are
    updated before the file is written. *)
Definition research_one (args : arguments) (s : subreddit_about)
    (acc : list insights * Z) : (list insights * Z) * W unit :=
  match relevant_insights args s with
  | (inl (Some ins), notes) =>
      let (r, notes') := save_insights ins (sa_display_name s) in
      (((fst acc ++ [ins])%list,
        (snd acc + Z.of_nat (length (needs_found ins)))%Z),
       (r, (notes ++ notes')%list))
  | (inl None, notes) => (acc, (inl tt, notes))
  | (inr e, notes) => (acc, (inr e, notes))
  end.

(** The loop of [main] over the communities found. *)
Fixpoint research (args : arguments) (l : subreddit_listing)
    (acc : list insights * Z) : (list insights * Z) * W unit :=
  match l with
  | Subs_done => (acc, wret tt)
  | Subs_broken e => (acc, wraise (Py e))
  | Subs_yield s rest =>
      if (arg_limit args <=? Z.of_nat (length (fst acc)))%Z
      then (acc, wret tt)
      else
        match research_one args s acc with
        | (acc', (inl _, notes)) =>
            let '(acc'', (r, notes')) := research args rest acc' in
            (acc'', (r, (notes ++ notes')%list))
        | (acc', (inr e, notes)) => (acc', (inr e, notes))
        end
  end.

(** [main], from the search on: the values of [analyzed_subreddits] and
    [total_needs] that the summary prints. *)
Definition main (args : arguments) : W (list insights * Z) :=
  let '(acc, (r, notes)) :=
    research args (search rd (arg_search args) (arg_limit args * 2)%Z)
      ([], 0%Z) in
  match r with
  | inl _ => (inl acc, Info_searching (arg_search args) :: notes)
  | inr e =>
      if is_Exception' e
      then (inl acc,
            (Info_searching (arg_search args) :: notes ++ [Error_analysis e])
              %list)
      else (inr e, Info_searching (arg_search args) :: notes)
  end.

End WithWorld.

End Main.

(** ** The specification's formulas *)

Module Spec.

(** The comment count of the specification: 0 when the comments are
    unavailable. *)
Definition comment_count (s : submission) : Z :=
  match comments s with
  | Some (Ok n) => Z.of_nat n
  | _ => 0%Z
  end.

(** min(1.0, (score + comment_count) / (100 * max(1.0, age / 3600))) *)
Definition engagement_rate (current_time : Q) (s : submission) : Q :=
  Qmin 1
    (inject_Z (score s + comment_count s) /
     (100 * Qmax 1 ((current_time - created_utc s) / 3600))).

(** A value on which [float] does not overflow. *)
Definition float_safe (v : pyval) : bool :=
  match v with
  | VInt z => (Z.abs z <? float_int_bound)%Z
  | _ => true
  end.

(** The value that an update leaves under [key], given the state [old] of
    the community and the observed [value]: the observation itself for
    "topics" and when a coercion fails, the exponential average
    otherwise, an absent old value counting as 0. *)
Definition smoothed (float_of_str : string -> option Q) (alpha : Q)
    (old : dict) (key : string) (value : pyval) : pyval :=
  if String.eqb key "topics" then value
  else
    match
      to_float float_of_str
        (match dict_get old key with Some v => v | None => VInt 0 end),
      to_float float_of_str value
    with
    | Ok o, Ok n => VFloat ((1 - alpha) * o + alpha * n)
    | _, _ => value
    end.

(** The state of a community after the items of an update, one after the
    other. *)
Definition smooth_all (float_of_str : string -> option Q) (alpha : Q)
    (items : dict) (old : dict) : dict :=
  fold_left
    (fun d item =>
       dict_set d (fst item) (smoothed float_of_str alpha d (fst item) (snd item)))
    items old.

Definition all_float_safe (d : dict) : Prop :=
  forall k v, dict_get d k = Some v -> float_safe v = true.

End Spec.

(** ** Vocabulary of the statements *)

(** The state with the model of one community replaced and some warnings
    logged. *)
Definition with_model (st : agent_state) (name : string) (d : dict)
    (warnings : list log_entry) : agent_state :=
  {| submissions := submissions st; learned_patterns := learned_patterns st;
     pattern_seq := pattern_seq st; db_ops := db_ops st;
     subreddit_models := <[name := d]> (subreddit_models st);
     log := (log st ++ warnings)%list |}.

(** The state with some entries more in the log. *)
Definition add_log (st : agent_state) (entries : list log_entry)
    : agent_state :=
  {| submissions := submissions st; learned_patterns := learned_patterns st;
     pattern_seq := pattern_seq st; db_ops := db_ops st;
     subreddit_models := subreddit_models st;
     log := (log st ++ entries)%list |}.

(** Every row of a list has the engagement score 0.0. *)
Definition zero_engagement (rows : list submission_row) : Prop :=
  Forall (fun r => r_engagement_score r = VFloat 0) rows.

(** A submission with its [stickied] flag set to [b]. *)
Definition set_stickied (b : bool) (s : submission) : submission :=
  {| sub_id := sub_id s; title := title s; selftext := selftext s;
     author := author s; subreddit := subreddit s;
     created_utc := created_utc s; score := score s;
     comments := comments s; stickied := b |}.

(** The patterns of a community, in the order of their insertion. *)
Definition patterns_of (name : string) (st : agent_state) : list pattern_row :=
  List.filter (fun p => String.eqb (p_subreddit p) name) (learned_patterns st).

(** The in-memory model of a community, empty when there is none. *)
Definition model_of (name : string) (st : agent_state) : dict :=
  match subreddit_models st !! name with
  | Some d => d
  | None => []
  end.

(** [a] may come before [b] in a ranking by confidence. *)
Definition ranks_before (a b : pattern_row) : Prop :=
  p_confidence b <= p_confidence a.

Definition has_confidence (c : Q) (p : pattern_row) : bool :=
  Qeq_bool (p_confidence p) c.

(** A pattern whose suggestion can be rendered: its type is not the
    recognised one, or its payload holds the three fields of the template
    and the topics can be joined. *)
Definition renderable (p : pattern_row) : bool :=
  negb (String.eqb (p_pattern_type p) "successful_post") ||
  match dict_get (p_pattern_data p) "post_time",
        dict_get (p_pattern_data p) "content_length",
        dict_get (p_pattern_data p) "topics" with
  | Some _, Some _, Some (VList _ | VStr _) => true
  | _, _, _ => false
  end.

(** A recommendation made from a pattern. *)
Definition made_from (p : pattern_row) (r : recommendation) : Prop :=
  rec_type r = p_pattern_type p /\
  rec_confidence r = p_confidence p /\
  (p_pattern_type p <> "successful_post" ->
   rec_suggestion r = No_specific_suggestion).

(** A list of confidences that never goes up. *)
Definition non_increasing (l : list Q) : Prop :=
  StronglySorted (fun a b => b <= a) l.




(** Two states with the same two tables. *)
Definition same_tables (st st' : agent_state) : Prop :=
  submissions st' = submissions st /\
  learned_patterns st' = learned_patterns st /\
  pattern_seq st' = pattern_seq st.

(** The row that [_learn_from_submission] writes for a submission. *)
Definition learned_row (w : world) (st : agent_state) (s : submission)
    (hour : Z) (confidence : Q) : pattern_row :=
  {| p_pattern_id := (pattern_seq st + 1)%Z;
     p_subreddit := subreddit s;
     p_pattern_type := "successful_post";
     p_pattern_data :=
       [("title_length", VInt (Z.of_nat (String.length (title s))));
        ("content_length", VInt (Z.of_nat (String.length (selftext s))));
        ("post_time", VInt hour);
        ("topics", VList ["general"])];
     p_confidence := confidence;
     p_utility_score := confidence;
     p_last_updated := now w |}.

(** Every run of a computation relates the state before to the state
    after, whether it returns or raises. *)
Definition preserves {A : Type} (R : agent_state -> agent_state -> Prop)
    (m : M A) : Prop :=
  forall st, R st (snd (m st)).

(** A property of the state that, once true, stays true. *)
Definition keeps (I : agent_state -> Prop) (st st' : agent_state) : Prop :=
  I st -> I st'.

(** The state after work on the community [name]: the tables have only
    grown at their end and the models of the other communities are the
    same. *)
Definition grows_for (name : string) (st st' : agent_state) : Prop :=
  (exists rows, submissions st' = (submissions st ++ rows)%list) /\
  (exists added,
     learned_patterns st' = (learned_patterns st ++ added)%list) /\
  forall other,
    other <> name ->
    subreddit_models st' !! other = subreddit_models st !! other.

(** No two rows of the table of submissions share an identifier. *)
Definition unique_ids (st : agent_state) : Prop :=
  forall sid,
    (length (Database.rows_with sid (submissions st)) <= 1)%nat.

(** The keys of the patterns are 1, 2, ... in row order, and the
    AUTOINCREMENT counter is the last of them. *)
Definition pattern_ids_in_order (st : agent_state) : Prop :=
  map p_pattern_id (learned_patterns st)
  = map Z.of_nat (seq 1 (length (learned_patterns st))) /\
  pattern_seq st = Z.of_nat (length (learned_patterns st)).

(** Every stored pattern has a confidence above the gate of the
    learner. *)
Definition confident_patterns (st : agent_state) : Prop :=
  Forall (fun p => 0.7 < p_confidence p) (learned_patterns st).

(** The state after one more connection to the database. *)
Definition connected (st : agent_state) : agent_state :=
  {| submissions := submissions st; learned_patterns := learned_patterns st;
     pattern_seq := pattern_seq st; db_ops := S (db_ops st);
     subreddit_models := subreddit_models st; log := log st |}.

(** A storage that never fails. *)
Definition storage_up (w : world) : Prop := forall n, db_fault w n = None.

(** A value that is a float of the unit interval. *)
Definition unit_float (v : pyval) : Prop :=
  exists q, v = VFloat q /\ in_unit q.

(** A dictionary whose values are floats of the unit interval. *)
Definition unit_valued (d : dict) : Prop :=
  forall k v, dict_get d k = Some v -> unit_float v.

(** Every key of [d] is a key of [d']. *)
Definition keys_kept (d d' : dict) : Prop :=
  forall k, dict_get d k <> None -> dict_get d' k <> None.

(** Every submission that a listing yields. *)
Fixpoint yielded (l : listing) : list submission :=
  match l with
  | Yield s rest => s :: yielded rest
  | Done | Broken _ => []
  end.

(** Every submission of a list has a row in the table of a state. *)
Definition all_stored (l : list submission) (st : agent_state) : Prop :=
  Forall (fun s => Database.has_row (sub_id s) (submissions st) = true) l.

(** How a listing ends: exhausted, or with the failure of a request. *)
Fixpoint ending (l : listing) : option exn :=
  match l with
  | Done => None
  | Yield _ rest => ending rest
  | Broken e => Some e
  end.

(** [m] raises no exception of class [Exception]: it returns, or what it
    raises derives from [BaseException] only. *)
Definition contained {A} (m : LLMAnalyzer.W A) : Prop :=
  match fst m with
  | inl _ => True
  | inr e => LLMAnalyzer.is_Exception' e = false
  end.

(** [d.get(k, default)] on the members of an object. *)
Definition member_or (m : list (string * Llm.json)) (k : string)
    (default : Llm.json) : Llm.json :=
  match LLMAnalyzer.members_get m k with
  | Some v => v
  | None => default
  end.

(** A listing of posts without its stickied posts. *)
Fixpoint without_stickied (l : Main.post_listing) : Main.post_listing :=
  match l with
  | Main.Posts_yield p rest =>
      if Main.po_stickied p then without_stickied rest
      else Main.Posts_yield p (without_stickied rest)
  | Main.Posts_done => Main.Posts_done
  | Main.Posts_broken e => Main.Posts_broken e
  end.

(** The content source whose listings hold no stickied post. *)
Definition unpinned (rd : Main.reddit) : Main.reddit :=
  {| Main.about := Main.about rd;
     Main.category_posts := fun name category limit =>
       without_stickied (Main.category_posts rd name category limit);
     Main.search := Main.search rd;
     Main.write_file := Main.write_file rd |}.

(** How a listing of posts ends. *)
Fixpoint posts_ending (l : Main.post_listing) : option exn :=
  match l with
  | Main.Posts_done => None
  | Main.Posts_yield _ rest => posts_ending rest
  | Main.Posts_broken e => Some e
  end.

(** A recorded need whose entry [is_need] is true and whose entry
    [confidence] is above 0.6. *)
Definition confident_need (need : list (string * Llm.json)) : Prop :=
  exists is_need confidence,
    LLMAnalyzer.members_get need "is_need" = Some is_need /\
    LLMAnalyzer.json_truthy is_need = true /\
    LLMAnalyzer.members_get need "confidence" = Some confidence /\
    LLMAnalyzer.json_gt confidence 0.6 = Ok true.

(** The number of needs of a list of insights. *)
Definition needs_total (l : list Main.insights) : Z :=
  fold_right
    (fun ins n => (Z.of_nat (length (Main.needs_found ins)) + n)%Z) 0%Z l.

(** The content source on a file system where every write succeeds. *)
Definition writable (rd : Main.reddit) : Main.reddit :=
  {| Main.about := Main.about rd;
     Main.category_posts := Main.category_posts rd;
     Main.search := Main.search rd;
     Main.write_file := fun _ _ => None |}.

(** ** Sample inputs *)

Module Sample.

(** A submission of community "x" with no comment. *)
Definition sample_submission (id : string) (points : Z) (posted : Q)
    : submission :=
  {| sub_id := id; title := "A title"; selftext := "Some text";
     author := "someone"; subreddit := "x"; created_utc := posted;
     score := points; comments := Some (Ok O); stickied := false |}.

(** A world at time 7200 whose public communities all hold the listing
    [l], with the storage faults [faults]. *)
Definition sample_world (l : listing) (faults : nat -> option exn) : world :=
  {| subreddit_type := fun _ => Ok "public";
     new_listing := fun _ _ => l;
     utcnow := 7200;
     now := 7200;
     local_hour := fun _ => Ok 12%Z;
     db_fault := faults;
     float_of_str := fun _ => None |}.

Definition no_fault : nat -> option exn := fun _ => None.

Definition quiet_world : world := sample_world Done no_fault.

(** Weights under which a submission with full engagement and the
    placeholder scores has utility 0.71. *)
Definition keen_config : agent_config :=
  {| learning_rate := 0.1;
     weights := {| w_engagement := 0.42; w_sentiment := 0.2;
                   w_relevance := 0.2; w_novelty := 0.18 |} |}.

(** A storage that refuses every connection. *)
Definition storage_down : nat -> option exn := fun _ => Some OperationalError.

(** A pinned submission. *)
Definition stickied_submission : submission :=
  {| sub_id := "pin"; title := "Rules"; selftext := "Read me";
     author := "mod"; subreddit := "x"; created_utc := 3600;
     score := 50%Z; comments := Some (Ok 10%nat); stickied := true |}.

(** The payload of a pattern as [_learn_from_submission] writes it. *)
Definition sample_payload : dict :=
  [("title_length", VInt 7); ("content_length", VInt 9);
   ("post_time", VInt 12); ("topics", VList ["general"])].

(** A restarted agent: one pattern of community "x" is in the database,
    and the in-memory models are empty. *)
Definition restarted_state : agent_state :=
  snd (Database.store_pattern quiet_world "x" "successful_post"
         sample_payload 0.9 initial_state).

(** Two answers of the oracle: an object inside a sentence, and two
    objects joined by a word. *)
Definition object_a : string := "{" ++ JsonFragment.quoted "a" ++ ":1}".
Definition object_b : string := "{" ++ JsonFragment.quoted "b" ++ ":2}".
Definition wrapped_answer : string := "Sure: " ++ object_a ++ " done".
Definition double_answer : string := object_a ++ " and " ++ object_b.

(** A listing that yields the same submission twice. *)
Definition repeated_listing : listing :=
  Yield (sample_submission "a1" 200 3600)
    (Yield (sample_submission "a1" 200 3600) Done).

(** [str.strip] and [float] of the sample oracle: blanks of ASCII, and
    numerals without sign, point or exponent. *)
Definition rev_string (s : string) : string :=
  string_of_list_ascii (rev (list_ascii_of_string s)).

Definition sample_strip (s : string) : string :=
  rev_string
    (JsonFragment.skip_blanks (rev_string (JsonFragment.skip_blanks s))).

Definition sample_float (s : string) : option Q :=
  match JsonFragment.scan_natural s with
  | Some (z, EmptyString) => Some (inject_Z z)
  | _ => None
  end.

(** Two answers of the model. *)
Definition need_answer : string :=
  "{" ++ JsonFragment.quoted "is_need" ++ ":true," ++
  JsonFragment.quoted "confidence" ++ ":1," ++
  JsonFragment.quoted "problem" ++ ":" ++ JsonFragment.quoted "slow builds"
  ++ "}".

Definition relevant_answer : string :=
  "{" ++ JsonFragment.quoted "is_relevant" ++ ":true," ++
  JsonFragment.quoted "confidence" ++ ":1}".

(** An oracle that answers the two questions of [main.py] and whose
    service fails on every other request. *)
Definition sample_oracle : LLMAnalyzer.oracle :=
  {| LLMAnalyzer.create := fun p _ =>
       match p with
       | LLMAnalyzer.Prompt_market_need _ => Ok (Some need_answer)
       | LLMAnalyzer.Prompt_relevant_subreddit _ _ => Ok (Some relevant_answer)
       | _ => Raise (RuntimeError "rate limit")
       end;
     LLMAnalyzer.str_strip := sample_strip;
     LLMAnalyzer.str_float := sample_float;
     LLMAnalyzer.json_loads := JsonFragment.json_loads |}.

(** An oracle whose service fails on every request. *)
Definition silent_oracle : LLMAnalyzer.oracle :=
  {| LLMAnalyzer.create := fun _ _ => Raise (RuntimeError "rate limit");
     LLMAnalyzer.str_strip := sample_strip;
     LLMAnalyzer.str_float := sample_float;
     LLMAnalyzer.json_loads := JsonFragment.json_loads |}.

Definition sample_post (title : string) (pinned : bool) : Main.post :=
  {| Main.po_title := title; Main.po_selftext := "Some text";
     Main.po_stickied := pinned; Main.po_score := 10;
     Main.po_permalink := "/r/rust/1";
     Main.po_comments := Ok ["first"; "second"] |}.

Definition sample_about (name : string) : Main.subreddit_about :=
  {| Main.sa_display_name := name; Main.sa_title := "Rust";
     Main.sa_description := Some "systems programming";
     Main.sa_subscribers := 1000 |}.

(** A content source whose communities hold a stickied post and another
    one under "hot", where the listing [top] is that of "top", and whose
    search finds three communities. *)
Definition sample_reddit (top : Main.post_listing) : Main.reddit :=
  {| Main.about := fun name => Ok (sample_about name);
     Main.category_posts := fun _ category _ =>
       if String.eqb category "hot"
       then Main.Posts_yield (sample_post "pinned" true)
              (Main.Posts_yield (sample_post "slow builds" false)
                 Main.Posts_done)
       else if String.eqb category "top" then top
       else Main.Posts_done;
     Main.search := fun _ _ =>
       Main.Subs_yield (sample_about "rust")
         (Main.Subs_yield (sample_about "golang")
            (Main.Subs_yield (sample_about "zig") Main.Subs_done));
     Main.write_file := fun _ _ => None |}.

Definition sample_arguments (limit : Z) : Main.arguments :=
  {| Main.arg_market := "developer tools"; Main.arg_search := Some "compilers";
     Main.arg_limit := limit; Main.arg_posts := 30 |}.

(** An oracle whose answer on relevance gives its confidence in a
    word. *)
Definition vague_answer : string :=
  "{" ++ JsonFragment.quoted "is_relevant" ++ ":true," ++
  JsonFragment.quoted "confidence" ++ ":" ++ JsonFragment.quoted "high"
  ++ "}".

Definition vague_oracle : LLMAnalyzer.oracle :=
  {| LLMAnalyzer.create := fun p _ =>
       match p with
       | LLMAnalyzer.Prompt_relevant_subreddit _ _ => Ok (Some vague_answer)
       | _ => Ok (Some need_answer)
       end;
     LLMAnalyzer.str_strip := sample_strip;
     LLMAnalyzer.str_float := sample_float;
     LLMAnalyzer.json_loads := JsonFragment.json_loads |}.

(** The sample content source on a file system that refuses every
    write. *)
Definition read_only_reddit : Main.reddit :=
  {| Main.about := Main.about (sample_reddit Main.Posts_done);
     Main.category_posts :=
       Main.category_posts (sample_reddit Main.Posts_done);
     Main.search := Main.search (sample_reddit Main.Posts_done);
     Main.write_file := fun _ _ => Some LLMAnalyzer.OSError |}.

(** An oracle that answers every request with a list. *)
Definition list_oracle : LLMAnalyzer.oracle :=
  {| LLMAnalyzer.create := fun _ _ => Ok (Some "[1]");
     LLMAnalyzer.str_strip := sample_strip;
     LLMAnalyzer.str_float := sample_float;
     LLMAnalyzer.json_loads := JsonFragment.json_loads |}.

End Sample.
Export Sample.

(** * Properties *)

(** ** Arithmetic helpers *)

Lemma Qgt_bool_true (x y : Q) : Qgt_bool x y = true <-> y < x.
Proof.
  unfold Qgt_bool. rewrite negb_true_iff, <- not_true_iff_false, Qle_bool_iff.
  split; [apply Qnot_le_lt | apply Qlt_not_le].
Qed.

Lemma Qgt_bool_false (x y : Q) : Qgt_bool x y = false <-> x <= y.
Proof.
  unfold Qgt_bool. rewrite negb_false_iff. apply Qle_bool_iff.
Qed.

Lemma py_max_spec (a b : Q) :
  (a < b /\ py_max a b = b) \/ (b <= a /\ py_max a b = a).
Proof.
  unfold py_max. destruct (Qgt_bool b a) eqn:E.
  - left. apply Qgt_bool_true in E. auto.
  - right. apply Qgt_bool_false in E. auto.
Qed.

Lemma py_min_spec (a b : Q) :
  (b < a /\ py_min a b = b) \/ (a <= b /\ py_min a b = a).
Proof.
  unfold py_min. destruct (Qgt_bool a b) eqn:E.
  - left. apply Qgt_bool_true in E. auto.
  - right. apply Qgt_bool_false in E. auto.
Qed.



Lemma py_max_ge_l (a b : Q) : a <= py_max a b.
Proof.
  destruct (py_max_spec a b) as [[H ->] | [H ->]]; lra.
Qed.


Lemma Qmult_unit_bounds (x m : Q) :
  0 <= x -> in_unit m -> 0 <= x * m /\ x * m <= x.
Proof.
  intros Hx [H0 H1]. split.
  - apply Qmult_le_0_compat; assumption.
  - assert (H : m * x <= 1 * x) by (apply Qmult_le_compat_r; assumption).
    lra.
Qed.

(** ** UtilityModel *)




(** Without normalisation, weights that do not sum to 1 take the result
    out of the unit interval. *)
Example calculate_utility_not_normalised :
  calculate_utility
    {| w_engagement := 1; w_sentiment := 1; w_relevance := 1; w_novelty := 1 |}
    {| engagement_rate := 1; sentiment_score := 1;
       relevance_score := 1; novelty_score := 1 |} == 4.
Proof. reflexivity. Qed.

(** ** Engagement rate *)

Import ContentAnalyzer.








(** ** PersistenceLayer *)

Import Database.

Ltac unfold_monad :=
  unfold bind, ret, lift, try_except, logger, connect in *; simpl in *.

Ltac break_match :=
  match goal with
  | |- context [match ?x with _ => _ end] => destruct x eqn:?
  end.

Lemma has_row_app (sid : string) (rows1 rows2 : list submission_row) :
  has_row sid (rows1 ++ rows2) = has_row sid rows1 || has_row sid rows2.
Proof. apply existsb_app. Qed.

Lemma rows_with_nil (sid : string) (rows : list submission_row) :
  has_row sid rows = false -> rows_with sid rows = [].
Proof.
  induction rows as [| r rows IH]; simpl; [reflexivity |].
  intros H. apply orb_false_iff in H as [H1 H2].
  rewrite H1. apply IH, H2.
Qed.

Lemma sql_bind_ok (v b : pyval) : sql_bind v = Ok b -> b = v.
Proof.
  destruct v; simpl; try congruence.
  destruct (_ && _); congruence.
Qed.

(** What a call of [store_submission] does to the tables: it fails and
    leaves them alone, or the key was absent and one row with it is
    appended. *)
Lemma store_submission_cases (w : world) (s : submission) (analysis : dict)
    (u : Q) (st : agent_state) :
  let r := store_submission w s analysis u st in
  (learned_patterns (snd r) = learned_patterns st /\
   pattern_seq (snd r) = pattern_seq st) /\
  subreddit_models (snd r) = subreddit_models st /\
  ((exists e, fst r = Raise e /\ submissions (snd r) = submissions st) \/
   (exists row,
      fst r = Ok tt /\
      has_row (sub_id s) (submissions st) = false /\
      r_submission_id row = sub_id s /\
      dict_item analysis "sentiment" = Ok (r_sentiment row) /\
      sql_bind
        (match dict_get analysis "engagement_rate" with
         | Some v => v
         | None => VFloat 0
         end) = Ok (r_engagement_score row) /\
      r_utility_score row = u /\
      submissions (snd r) = (submissions st ++ [row])%list)).
Proof.
  unfold store_submission, insert_submission. unfold_monad.
  destruct (db_fault w (db_ops st)); simpl; [eauto 7 |].
  destruct (dict_item analysis "sentiment") as [v1 | e1] eqn:E1; simpl;
    [| eauto 7].
  destruct (dict_item analysis "topics") as [v2 | e2] eqn:E2; simpl;
    [| eauto 7].
  destruct (sql_bind v1) as [b1 | e3] eqn:E3; simpl; [| eauto 7].
  destruct (sql_bind _) as [b2 | e4] eqn:E4 in |- *; simpl; [| eauto 7].
  destruct (has_row (sub_id s) (submissions st)) eqn:E5; simpl; [eauto 7 |].
  split; [split; reflexivity |]. split; [reflexivity |]. right.
  eexists. repeat split; simpl; try reflexivity; try assumption.
  apply sql_bind_ok in E3. congruence.
Qed.


Lemma store_submission_has_row (w : world) (s : submission) (analysis : dict)
    (u : Q) (st : agent_state) (sid : string) :
  let r := store_submission w s analysis u st in
  has_row sid (submissions (snd r)) =
  has_row sid (submissions st) ||
  (match fst r with Ok _ => String.eqb (sub_id s) sid | Raise _ => false end).
Proof.
  destruct (store_submission_cases w s analysis u st)
    as (_ & _ & [(e & Hr & Hs) | (row & Hr & _ & Hid & _ & _ & _ & Hs)]);
    simpl; rewrite Hr, Hs.
  - rewrite orb_false_r. reflexivity.
  - rewrite has_row_app. simpl. rewrite Hid, orb_false_r. reflexivity.
Qed.

(** The other methods do not touch the table of submissions. *)
Lemma is_submission_processed_frame (w : world) (sid : string)
    (st : agent_state) :
  let r := is_submission_processed w sid st in
  same_tables st (snd r) /\
  subreddit_models (snd r) = subreddit_models st /\
  log (snd r) = log st /\
  match fst r with
  | Ok b => db_fault w (db_ops st) = None /\ b = has_row sid (submissions st)
  | Raise e => db_fault w (db_ops st) = Some e
  end.
Proof.
  unfold is_submission_processed, same_tables. unfold_monad.
  destruct (db_fault w (db_ops st)); simpl; auto 8.
Qed.

Lemma store_pattern_submissions (w : world) (name ty : string) (d : dict)
    (c : Q) (st : agent_state) :
  submissions (snd (store_pattern w name ty d c st)) = submissions st.
Proof.
  unfold store_pattern. unfold_monad.
  destruct (db_fault w (db_ops st)); reflexivity.
Qed.







(** ** SubredditStateStore *)

Import RedditAIAgent.

Lemma dict_get_set (d : dict) (k k' : string) (v : pyval) :
  dict_get (dict_set d k v) k' =
  if String.eqb k k' then Some v else dict_get d k'.
Proof.
  induction d as [| [k0 v0] d IH]; simpl.
  - rewrite String.eqb_sym. reflexivity.
  - destruct (String.eqb_spec k k0) as [-> | Hne]; simpl.
    + destruct (String.eqb_spec k' k0) as [-> | Hne'].
      * rewrite String.eqb_refl. reflexivity.
      * destruct (String.eqb_spec k0 k'); congruence.
    + rewrite IH. destruct (String.eqb_spec k' k0) as [-> | Hne']; [| reflexivity].
      destruct (String.eqb_spec k k0); congruence.
Qed.

Lemma with_model_again (st : agent_state) (name : string) (d d' : dict)
    (l l' : list log_entry) :
  with_model (with_model st name d l) name d' l'
  = with_model st name d' (l ++ l').
Proof.
  unfold with_model. simpl. rewrite insert_insert_eq, <- app_assoc. reflexivity.
Qed.

Lemma float_safe_to_float (fos : string -> option Q) (v : pyval) :
  Spec.float_safe v = true ->
  match to_float fos v with
  | Ok _ => True
  | Raise e => is_ValueError e || is_TypeError e = true
  end.
Proof.
  destruct v; simpl; auto.
  - intros ->. exact I.
  - destruct (fos s); auto.
Qed.

Section UpdateModel.

Variable w : world.
Variable self : agent_config.

Abbreviation smoothed := (Spec.smoothed (float_of_str w) (learning_rate self)).
Abbreviation smooth_all :=
  (Spec.smooth_all (float_of_str w) (learning_rate self)).

(** One item of the loop: the key takes its smoothed value, at worst with
    a warning. *)
Lemma update_key_spec (name key : string) (value : pyval) (cur : dict)
    (st : agent_state) :
  subreddit_models st !! name = Some cur ->
  Spec.float_safe value = true ->
  (forall v, dict_get cur key = Some v -> Spec.float_safe v = true) ->
  exists warnings,
    update_key w self name key value st =
    (Ok tt,
     with_model st name (dict_set cur key (smoothed cur key value)) warnings).
Proof.
  intros Hcur Hv Hold. unfold update_key, Spec.smoothed.
  destruct (String.eqb key "topics").
  - exists []. unfold set_model_key, set_model, with_model.
    rewrite Hcur, app_nil_r. reflexivity.
  - unfold try_except, bind, lift, get_model_key. rewrite Hcur.
    set (old := match dict_get cur key with Some v => v | None => VInt 0 end).
    assert (Hsafe : Spec.float_safe old = true).
    { unfold old. destruct (dict_get cur key); [auto | reflexivity]. }
    pose proof (float_safe_to_float (float_of_str w) old Hsafe) as Ho.
    pose proof (float_safe_to_float (float_of_str w) value Hv) as Hn.
    destruct (to_float (float_of_str w) old) as [o | e].
    + destruct (to_float (float_of_str w) value) as [n | e].
      * exists []. unfold set_model_key, set_model, with_model.
        rewrite Hcur, app_nil_r. reflexivity.
      * rewrite Hn. exists [LogModelWarning key e].
        unfold logger, set_model_key, set_model, with_model. simpl.
        rewrite Hcur. reflexivity.
    + rewrite Ho. exists [LogModelWarning key e].
      unfold logger, set_model_key, set_model, with_model. simpl.
      rewrite Hcur. reflexivity.
Qed.

Lemma smoothed_safe (cur : dict) (key : string) (value : pyval) :
  Spec.float_safe value = true ->
  Spec.float_safe (smoothed cur key value) = true.
Proof.
  intros H. unfold Spec.smoothed.
  destruct (String.eqb key "topics"); [exact H |].
  destruct (to_float _ _); [| exact H].
  destruct (to_float _ value); [reflexivity | exact H].
Qed.

Lemma smoothed_ext (d d' : dict) (key : string) (value : pyval) :
  dict_get d key = dict_get d' key ->
  smoothed d key value = smoothed d' key value.
Proof. intros H. unfold Spec.smoothed. rewrite H. reflexivity. Qed.

Lemma dict_set_safe (d : dict) (k : string) (v : pyval) :
  Spec.all_float_safe d -> Spec.float_safe v = true ->
  Spec.all_float_safe (dict_set d k v).
Proof.
  intros Hd Hv k' v'. rewrite dict_get_set.
  destruct (String.eqb k k'); [congruence | apply Hd].
Qed.

Lemma update_items_spec (name : string) (items cur : dict)
    (st : agent_state) :
  subreddit_models st !! name = Some cur ->
  Forall (fun item => Spec.float_safe (snd item) = true) items ->
  Spec.all_float_safe cur ->
  exists warnings,
    update_items w self name items st =
    (Ok tt, with_model st name (smooth_all items cur) warnings).
Proof.
  revert cur st. induction items as [| [k v] items IH]; intros cur st Hcur Hit Hold.
  - exists []. simpl. unfold ret, with_model.
    rewrite (insert_id _ _ _ Hcur), app_nil_r. destruct st; reflexivity.
  - inversion Hit as [| ? ? Hv Hrest]; subst. simpl in Hv.
    destruct (update_key_spec name k v cur st Hcur Hv (Hold k)) as [l1 E1].
    simpl. unfold bind at 1. rewrite E1.
    edestruct (IH (dict_set cur k (smoothed cur k v))
                 (with_model st name (dict_set cur k (smoothed cur k v)) l1))
      as [l2 E2].
    + simpl. apply lookup_insert_eq.
    + exact Hrest.
    + apply dict_set_safe; [exact Hold | apply smoothed_safe, Hv].
    + rewrite E2, with_model_again. eauto.
Qed.

Lemma smooth_all_cons (k : string) (v : pyval) (items cur : dict) :
  smooth_all ((k, v) :: items) cur
  = smooth_all items (dict_set cur k (smoothed cur k v)).
Proof. reflexivity. Qed.

Lemma smooth_all_other (items cur : dict) (k : string) :
  ~ In k (dict_keys items) ->
  dict_get (smooth_all items cur) k = dict_get cur k.
Proof.
  revert cur. induction items as [| [k0 v0] items IH]; intros cur Hk.
  - reflexivity.
  - simpl in Hk. rewrite smooth_all_cons, IH by tauto.
    rewrite dict_get_set.
    destruct (String.eqb_spec k0 k); [tauto | reflexivity].
Qed.

Lemma smooth_all_lookup (items cur : dict) (k : string) (v : pyval) :
  List.NoDup (dict_keys items) -> In (k, v) items ->
  dict_get (smooth_all items cur) k = Some (smoothed cur k v).
Proof.
  revert cur. induction items as [| [k0 v0] items IH]; intros cur Hnd Hin;
    [destruct Hin |].
  simpl in Hnd. inversion Hnd as [| ? ? Hfresh Hnd']; subst.
  destruct Hin as [E | Hin].
  - injection E as -> ->.
    rewrite smooth_all_cons, smooth_all_other by exact Hfresh.
    rewrite dict_get_set, String.eqb_refl. reflexivity.
  - rewrite smooth_all_cons, (IH _ Hnd' Hin). f_equal. apply smoothed_ext.
    rewrite dict_get_set.
    destruct (String.eqb_spec k0 k) as [-> | _]; [| reflexivity].
    exfalso. apply Hfresh. unfold dict_keys.
    change k with (fst (k, v)). apply in_map, Hin.
Qed.

End UpdateModel.

(** C3, as the code has it: without prior state the observations become
    the state of the community; with prior state [old], every key of the
    observations ends with its smoothed value, that is the observation
    itself for "topics", (1 - alpha) * old + alpha * new when both
    coerce to a number, an absent old value counting as 0, and the
    observation itself when the old or the new value does not coerce;
    the other keys keep their value and no exception leaves the call. *)
Theorem update_model_smooths (w : world) (self : agent_config)
    (name : string) (obs : dict) (st : agent_state) :
  let r := update_model w self name obs st in
  (subreddit_models st !! name = None ->
   fst r = Ok tt /\ subreddit_models (snd r) !! name = Some obs) /\
  (forall old,
     subreddit_models st !! name = Some old ->
     List.NoDup (dict_keys obs) ->
     Forall (fun item => Spec.float_safe (snd item) = true) obs ->
     Spec.all_float_safe old ->
     exists new,
       fst r = Ok tt /\
       subreddit_models (snd r) !! name = Some new /\
       (forall k v,
          In (k, v) obs ->
          dict_get new k =
          Some (Spec.smoothed (float_of_str w) (learning_rate self) old k v)) /\
       (forall k, ~ In k (dict_keys obs) -> dict_get new k = dict_get old k)).
Proof.
  simpl. split.
  - intros Hnone. unfold update_model. rewrite Hnone. simpl.
    split; [reflexivity | apply lookup_insert_eq].
  - intros old Hold Hnd Hsafe Hold_safe.
    destruct (update_items_spec w self name obs old st Hold Hsafe Hold_safe)
      as [warnings E].
    unfold update_model. rewrite Hold, E. simpl.
    eexists. split; [reflexivity |]. split; [apply lookup_insert_eq |].
    split.
    + intros k v Hin. apply smooth_all_lookup; assumption.
    + intros k Hk. apply smooth_all_other, Hk.
Qed.

Lemma update_model_smooths_witness :
  let st := with_model initial_state "x" [("avg_engagement", VFloat 0.5)] [] in
  let r := update_model quiet_world default_config "x"
             [("avg_engagement", VFloat 1)] st in
  exists new q,
    fst r = Ok tt /\
    subreddit_models (snd r) !! "x" = Some new /\
    dict_get new "avg_engagement" = Some (VFloat q) /\ q == 0.55.
Proof.
  intros st r.
  destruct (update_model_smooths quiet_world default_config "x"
              [("avg_engagement", VFloat 1)] st) as [_ H].
  destruct (H [("avg_engagement", VFloat 0.5)]) as (new & Hr & Hm & Hk & _).
  - reflexivity.
  - repeat constructor; simpl; tauto.
  - repeat constructor.
  - intros k v. simpl. destruct (String.eqb k "avg_engagement"); [| discriminate].
    intros E. injection E as <-. reflexivity.
  - exists new. eexists. split; [exact Hr |]. split; [exact Hm |].
    split; [apply (Hk "avg_engagement" (VFloat 1)); left; reflexivity |].
    reflexivity.
Defined.

(** C3 as stated fails when the old value is not a number: the claim has
    it count as 0, which would leave 0.1 here, and the code stores the
    observation itself. *)
Lemma update_model_old_not_numeric :
  let st := with_model initial_state "x" [("mood", VStr "calm")] [] in
  let r := update_model quiet_world default_config "x" [("mood", VFloat 1)] st in
  fst r = Ok tt /\
  subreddit_models (snd r) !! "x" = Some [("mood", VFloat 1)] /\
  ~ 1 == (1 - 0.1) * 0 + 0.1 * 1.
Proof.
  split; [reflexivity |]. split; [reflexivity |].
  intros H. discriminate H.
Qed.

(** ** LearningAgent: the effects of the steps *)

Lemma same_tables_refl (st : agent_state) : same_tables st st.
Proof. repeat split. Qed.

Lemma same_tables_trans (st1 st2 st3 : agent_state) :
  same_tables st1 st2 -> same_tables st2 st3 -> same_tables st1 st3.
Proof.
  intros (A1 & B1 & C1) (A2 & B2 & C2). repeat split; congruence.
Qed.

Lemma connect_tables (w : world) (st : agent_state) :
  same_tables st (snd (connect w st)).
Proof. unfold connect. destruct (db_fault w (db_ops st)); repeat split. Qed.

Lemma set_model_key_tables (name key : string) (v : pyval)
    (st : agent_state) :
  same_tables st (snd (set_model_key name key v st)).
Proof.
  unfold set_model_key, set_model.
  destruct (subreddit_models st !! name); repeat split.
Qed.

Lemma update_key_tables (w : world) (self : agent_config)
    (name key : string) (v : pyval) (st : agent_state) :
  same_tables st (snd (update_key w self name key v st)).
Proof.
  unfold update_key. destruct (String.eqb key "topics");
    [apply set_model_key_tables |].
  unfold try_except, bind, lift, get_model_key, logger, set_model_key,
    set_model.
  destruct (subreddit_models st !! name) eqn:E; simpl; [| repeat split].
  destruct (to_float _ _) as [o | e]; simpl.
  - destruct (to_float _ v) as [n | e]; simpl.
    + rewrite E. repeat split.
    + destruct (is_ValueError e || is_TypeError e); simpl;
        rewrite ?E; repeat split.
  - destruct (is_ValueError e || is_TypeError e); simpl;
      rewrite ?E; repeat split.
Qed.

Lemma update_items_tables (w : world) (self : agent_config) (name : string)
    (items : dict) (st : agent_state) :
  same_tables st (snd (update_items w self name items st)).
Proof.
  revert st. induction items as [| [k v] items IH]; intros st; simpl.
  - apply same_tables_refl.
  - unfold bind.
    pose proof (update_key_tables w self name k v st) as H.
    destruct (update_key w self name k v st) as [[[] | e] st1]; simpl in *.
    + eapply same_tables_trans; [exact H | apply IH].
    + exact H.
Qed.

Lemma update_model_tables (w : world) (self : agent_config) (name : string)
    (obs : dict) (st : agent_state) :
  same_tables st (snd (update_model w self name obs st)).
Proof.
  unfold update_model. destruct (subreddit_models st !! name).
  - apply update_items_tables.
  - repeat split.
Qed.

Lemma learn_from_submission_cases (w : world) (s : submission) (u : Q)
    (st : agent_state) :
  let r := _learn_from_submission w s (analyze_submission s) u st in
  submissions (snd r) = submissions st /\
  ((exists e, fst r = Raise e /\ learned_patterns (snd r) = learned_patterns st)
   \/
   (exists hour,
      local_hour w (created_utc s) = Ok hour /\
      fst r = Ok tt /\
      learned_patterns (snd r)
      = (learned_patterns st ++ [learned_row w st s hour u])%list)).
Proof.
  unfold _learn_from_submission, store_pattern. unfold_monad.
  destruct (local_hour w (created_utc s)) as [hour | e]; simpl; [| eauto].
  destruct (db_fault w (db_ops st)); simpl; [eauto |].
  split; [reflexivity |]. right. exists hour. repeat split.
Qed.

(** What the inner [try] body does for one submission. *)
Lemma process_submission_effects (w : world) (self : agent_config)
    (name : string) (s : submission) (st : agent_state) :
  let r := process_submission w self name s st in
  match fst r with
  | Ok None =>
      same_tables st (snd r) /\ has_row (sub_id s) (submissions st) = true
  | Ok (Some entry) =>
      pe_id entry = sub_id s /\
      pe_title entry = title s /\
      calculate_engagement_rate (utcnow w) s
      = Ok (engagement_rate (pe_metrics entry)) /\
      sentiment_score (pe_metrics entry) = 0.5 /\
      relevance_score (pe_metrics entry) = 0.5 /\
      novelty_score (pe_metrics entry) = 0.5 /\
      pe_utility_score entry
      = calculate_utility (weights self) (pe_metrics entry) /\
      has_row (sub_id s) (submissions st) = false /\
      (exists row,
         submissions (snd r) = (submissions st ++ [row])%list /\
         r_submission_id row = sub_id s /\
         r_engagement_score row = VFloat 0 /\
         r_utility_score row = pe_utility_score entry) /\
      (if Qgt_bool (pe_utility_score entry) 0.7
       then exists hour,
           local_hour w (created_utc s) = Ok hour /\
           learned_patterns (snd r)
           = (learned_patterns st ++
              [learned_row w st s hour (pe_utility_score entry)])%list
       else learned_patterns (snd r) = learned_patterns st)
  | Raise e =>
      learned_patterns (snd r) = learned_patterns st /\
      (submissions (snd r) = submissions st \/
       exists row,
         submissions (snd r) = (submissions st ++ [row])%list /\
         r_submission_id row = sub_id s /\
         r_engagement_score row = VFloat 0)
  end.
Proof.
  destruct (process_submission w self name s st) as [res st'] eqn:H.
  cbn [fst snd]. unfold process_submission in H. unfold bind at 1 in H.
  pose proof (is_submission_processed_frame w (sub_id s) st) as F1.
  destruct (is_submission_processed w (sub_id s) st) as [[seen | e] st1];
    cbn [fst snd] in F1; destruct F1 as ((S1 & P1 & Q1) & M1 & L1 & F1);
    [| injection H as <- <-; auto].
  destruct F1 as [_ ->].
  destruct (has_row (sub_id s) (submissions st)) eqn:Hseen.
  { injection H as <- <-. repeat split; assumption. }
  unfold bind at 1 in H. unfold lift at 1 in H.
  destruct (calculate_engagement_rate (utcnow w) s) as [eng | e] eqn:Eeng;
    [| injection H as <- <-; auto].
  unfold bind at 1 in H. unfold lift at 1 in H. simpl res_bind in H.
  cbv iota beta in H. unfold bind at 1 in H.
  match type of H with
  | context [store_submission w s ?a ?u st1] =>
      pose proof (store_submission_cases w s a u st1) as F2;
      destruct (store_submission w s a u st1) as [[[] | e] st2]
  end; cbn [fst snd] in F2;
    destruct F2 as ((P2 & Q2) & M2 &
                    [(e' & Hr & S2) | (row & Hr & _ & Hid & _ & Heng & Hu & S2)]);
    try discriminate Hr.
  2:{ injection H as <- <-. split; [congruence | left; congruence]. }
  simpl in Heng. injection Heng as Heng.
  unfold bind at 1 in H.
  match type of H with
  | context [update_model w self name ?d st2] =>
      pose proof (update_model_tables w self name d st2) as F3;
      destruct (update_model w self name d st2) as [[[] | e] st3]
  end; cbn [fst snd] in F3; destruct F3 as (S3 & P3 & Q3).
  2:{ injection H as <- <-. split; [congruence |]. right. exists row.
      repeat split; congruence. }
  unfold bind at 1 in H. cbv beta in H.
  match type of H with
  | context [Qgt_bool ?u 0.7] => destruct (Qgt_bool u 0.7) eqn:Hgt
  end.
  - match type of H with
    | context [_learn_from_submission w s ?a ?u st3] =>
        pose proof (learn_from_submission_cases w s u st3) as F4;
        destruct (_learn_from_submission w s a u st3) as [[[] | e] st4]
    end; cbn [fst snd] in F4;
      destruct F4 as (S4 & [(e' & Hr4 & P4) | (hour & Hh & Hr4 & P4)]);
      try discriminate Hr4; injection H as <- <-; cbn [pe_utility_score].
    + rewrite Hgt. repeat split; try assumption.
      * exists row. repeat split; congruence.
      * exists hour. split; [exact Hh |]. rewrite P4, P3, P2, P1.
        unfold learned_row. rewrite Q3, Q2, Q1. reflexivity.
    + split; [congruence |]. right. exists row. repeat split; congruence.
  - injection H as <- <-. cbn [pe_utility_score]. rewrite Hgt.
    repeat split; try assumption.
    + exists row. repeat split; congruence.
    + congruence.
Qed.

(** ** LearningAgent: the pattern gate *)

(** The three ways the loop goes on after one submission. *)
Lemma process_listing_yield_ok (w : world) (self : agent_config)
    (name : string) (s : submission) (rest : listing)
    (acc : list processed_entry) (st st1 : agent_state)
    (r : option processed_entry) :
  process_submission w self name s st = (Ok r, st1) ->
  process_listing w self name (Yield s rest) acc st
  = process_listing w self name rest
      (match r with
       | Some entry => (acc ++ [entry])%list
       | None => acc
       end) st1.
Proof.
  intros H. simpl. unfold bind at 1. unfold try_except.
  unfold bind at 1. rewrite H. reflexivity.
Qed.

Lemma process_listing_yield_caught (w : world) (self : agent_config)
    (name : string) (s : submission) (rest : listing)
    (acc : list processed_entry) (st st1 : agent_state) (e : exn) :
  process_submission w self name s st = (Raise e, st1) ->
  is_Exception e = true ->
  process_listing w self name (Yield s rest) acc st
  = process_listing w self name rest acc
      (add_log st1 [LogSubmissionError (sub_id s) e]).
Proof.
  intros H He. simpl. unfold bind at 1. unfold try_except.
  unfold bind at 1. rewrite H, He. reflexivity.
Qed.

Lemma process_listing_yield_fatal (w : world) (self : agent_config)
    (name : string) (s : submission) (rest : listing)
    (acc : list processed_entry) (st st1 : agent_state) (e : exn) :
  process_submission w self name s st = (Raise e, st1) ->
  is_Exception e = false ->
  process_listing w self name (Yield s rest) acc st = (Raise e, st1).
Proof.
  intros H He. simpl. unfold bind at 1. unfold try_except.
  unfold bind at 1. rewrite H, He. reflexivity.
Qed.




(** With the default weights, full engagement gives a utility of exactly
    0.7, and no pattern. *)
Example no_pattern_at_threshold :
  let r := process_submission quiet_world default_config "x"
             (sample_submission "a1" 200 3600) initial_state in
  exists entry,
    fst r = Ok (Some entry) /\
    pe_utility_score entry == 0.7 /\
    learned_patterns (snd r) = [].
Proof.
  eexists. split; [vm_compute; reflexivity |].
  split; reflexivity.
Qed.

(** ** LearningAgent: containment of failures *)

Lemma process_subreddit_inaccessible (w : world) (self : agent_config)
    (name : string) (limit : Z) (st : agent_state) (e : exn) :
  subreddit_type w name = Raise e ->
  is_Exception e = true ->
  process_subreddit w self name limit st
  = (Ok [],
     add_log st
       [match e with
        | Redirect => LogNotExist name
        | Forbidden => LogForbidden name
        | _ => LogSubredditError name e
        end]).
Proof.
  intros H He. unfold process_subreddit, try_except, bind, lift.
  rewrite H, He. destruct e; reflexivity.
Qed.

(** C6, as the code has it: [process_subreddit] lets no exception
    deriving from [Exception] reach its caller, storage failures
    included; for a private, a nonexistent or a forbidden community it
    returns the empty list at once with one log entry, of a different
    kind for each; and an exception raised while one submission is
    processed is logged and the loop goes on with the next one. *)
Theorem process_subreddit_contains_failures (w : world)
    (self : agent_config) (name : string) (limit : Z) (st : agent_state) :
  let r := process_subreddit w self name limit st in
  (forall e, fst r = Raise e -> is_Exception e = false) /\
  (subreddit_type w name = Ok "private" ->
   r = (Ok [], add_log st [LogPrivate name])) /\
  (subreddit_type w name = Raise Redirect ->
   r = (Ok [], add_log st [LogNotExist name])) /\
  (subreddit_type w name = Raise Forbidden ->
   r = (Ok [], add_log st [LogForbidden name])) /\
  (LogPrivate name <> LogNotExist name /\
   LogPrivate name <> LogForbidden name /\
   LogNotExist name <> LogForbidden name) /\
  (forall s rest acc st0 st1 e,
     process_submission w self name s st0 = (Raise e, st1) ->
     is_Exception e = true ->
     process_listing w self name (Yield s rest) acc st0
     = process_listing w self name rest acc
         (add_log st1 [LogSubmissionError (sub_id s) e])).
Proof.
  cbv zeta. split; [| split; [| split; [| split; [| split]]]].
  - intros e. unfold process_subreddit, try_except.
    destruct (bind _ _ st) as [[v | e'] st1]; simpl; [discriminate |].
    destruct (is_Exception e') eqn:He.
    + destruct e'; simpl; discriminate.
    + intros H. injection H as <-. exact He.
  - intros H. unfold process_subreddit, try_except, bind, lift.
    rewrite H. reflexivity.
  - intros H. apply (process_subreddit_inaccessible w self name limit st _ H).
    reflexivity.
  - intros H. apply (process_subreddit_inaccessible w self name limit st _ H).
    reflexivity.
  - repeat split; discriminate.
  - intros s rest acc st0 st1 e. apply process_listing_yield_caught.
Qed.

Lemma process_subreddit_contains_failures_witness :
  let w := sample_world (Yield (sample_submission "a1" 10 0) Done)
             storage_down in
  process_listing w default_config "x"
    (Yield (sample_submission "a1" 10 0) Done) [] initial_state
  = process_listing w default_config "x" Done []
      (add_log (snd (process_submission w default_config "x"
                       (sample_submission "a1" 10 0) initial_state))
         [LogSubmissionError "a1" OperationalError]).
Proof.
  intros w.
  destruct (process_subreddit_contains_failures w default_config "x" 10
              initial_state) as (_ & _ & _ & _ & _ & H).
  apply (H (sample_submission "a1" 10 0) Done []); reflexivity.
Defined.

(** C6 as stated fails on the storage layer: with a storage that refuses
    every connection, nothing surfaces; the call returns the empty list
    and the failure is only logged. *)
Lemma storage_failure_does_not_surface :
  let w := sample_world (Yield (sample_submission "a1" 10 0) Done)
             storage_down in
  let r := process_subreddit w default_config "x" 10 initial_state in
  fst r = Ok [] /\
  log (snd r) = [LogSubmissionError "a1" OperationalError] /\
  ~ (exists e, fst r = Raise e).
Proof.
  split; [reflexivity |]. split; [reflexivity |].
  intros [e H]. discriminate H.
Qed.

(** ** LearningAgent: stickied submissions *)

(** The loop body never reads the flag. *)
Lemma process_submission_ignores_stickied (w : world) (self : agent_config)
    (name : string) (s : submission) (b : bool) (st : agent_state) :
  process_submission w self name (set_stickied b s) st
  = process_submission w self name s st.
Proof. reflexivity. Qed.

(** C8 on the code: a stickied submission that [subreddit.new] yields is
    analysed like any other; it is scored, stored, used to update the
    model of the community and returned. *)
Theorem stickied_submission_is_processed :
  let w := sample_world (Yield stickied_submission Done) no_fault in
  let r := process_subreddit w default_config "x" 10 initial_state in
  stickied stickied_submission = true /\
  (exists entry,
     fst r = Ok [entry] /\ pe_id entry = "pin" /\
     pe_utility_score entry == 0.54) /\
  has_row "pin" (submissions (snd r)) = true /\
  (exists d q,
     subreddit_models (snd r) !! "x" = Some d /\
     dict_get d "avg_engagement" = Some (VFloat q) /\ q == 0.6).
Proof.
  split; [reflexivity |]. split; [| split].
  - eexists. split; [vm_compute; reflexivity |]. split; reflexivity.
  - reflexivity.
  - eexists. eexists. split; [vm_compute; reflexivity |].
    split; reflexivity.
Qed.

(** ** LearningAgent: the stored engagement score *)

Lemma process_submission_rows (w : world) (self : agent_config)
    (name : string) (s : submission) (st : agent_state) :
  exists rows,
    submissions (snd (process_submission w self name s st))
    = (submissions st ++ rows)%list /\
    zero_engagement rows.
Proof.
  pose proof (process_submission_effects w self name s st) as H.
  cbv zeta in H.
  destruct (fst (process_submission w self name s st)) as [[entry |] | e].
  - destruct H as (_ & _ & _ & _ & _ & _ & _ & _ & (row & Hs & _ & He & _) & _).
    exists [row]. split; [exact Hs |]. repeat constructor. exact He.
  - destruct H as [(Hs & _) _]. exists []. rewrite app_nil_r.
    split; [exact Hs | constructor].
  - destruct H as [_ [Hs | (row & Hs & _ & He)]].
    + exists []. rewrite app_nil_r. split; [exact Hs | constructor].
    + exists [row]. split; [exact Hs |]. repeat constructor. exact He.
Qed.

Lemma process_listing_rows (w : world) (self : agent_config) (name : string)
    (l : listing) (acc : list processed_entry) (st : agent_state) :
  exists rows,
    submissions (snd (process_listing w self name l acc st))
    = (submissions st ++ rows)%list /\
    zero_engagement rows.
Proof.
  revert acc st. induction l as [| s rest IH | e]; intros acc st.
  - exists []. simpl. rewrite app_nil_r. split; [reflexivity | constructor].
  - destruct (process_submission_rows w self name s st) as (rows1 & H1 & Z1).
    simpl. unfold bind at 1. unfold try_except. unfold bind at 1.
    destruct (process_submission w self name s st) as [[r | e] st1];
      simpl in H1.
    + simpl. destruct (IH (match r with
                           | Some entry => (acc ++ [entry])%list
                           | None => acc
                           end) st1) as (rows2 & H2 & Z2).
      exists (rows1 ++ rows2)%list. rewrite H2, H1, app_assoc.
      split; [reflexivity | apply Forall_app; auto].
    + destruct (is_Exception e).
      * simpl.
        destruct (IH acc (add_log st1 [LogSubmissionError (sub_id s) e]))
          as (rows2 & H2 & Z2).
        exists (rows1 ++ rows2)%list.
        unfold add_log in H2. rewrite H2. simpl. rewrite H1, app_assoc.
        split; [reflexivity | apply Forall_app; auto].
      * exists rows1. auto.
  - exists []. simpl. rewrite app_nil_r. split; [reflexivity | constructor].
Qed.

Lemma process_subreddit_rows (w : world) (self : agent_config)
    (name : string) (limit : Z) (st : agent_state) :
  exists rows,
    submissions (snd (process_subreddit w self name limit st))
    = (submissions st ++ rows)%list /\
    zero_engagement rows.
Proof.
  unfold process_subreddit, try_except. unfold bind at 1. unfold lift.
  destruct (subreddit_type w name) as [ty | e].
  - destruct (String.eqb ty "private").
    + exists []. simpl. rewrite app_nil_r. split; [reflexivity | constructor].
    + destruct (process_listing_rows w self name (new_listing w name limit)
                  [] st) as (rows & H & Z).
      destruct (process_listing w self name (new_listing w name limit) [] st)
        as [[v | e] st1]; simpl in H.
      * exists rows. auto.
      * destruct (is_Exception e); [| exists rows; auto].
        exists rows. split; [| exact Z].
        destruct e; simpl; exact H.
  - exists []. rewrite app_nil_r. split; [| constructor].
    destruct (is_Exception e); [| reflexivity].
    destruct e; reflexivity.
Qed.

(** C10: the analysis of a submission has the two keys "sentiment" and
    "topics" only; [store_submission] fills the engagement column with
    [analysis.get('engagement_rate', 0.0)]; so every row that
    [process_subreddit] adds to the table has the engagement score 0.0,
    whatever engagement rate went into the utility score. *)
Theorem stored_engagement_score_is_zero (w : world) (self : agent_config)
    (name : string) (limit : Z) (s : submission) (analysis : dict) (u : Q)
    (st : agent_state) :
  dict_keys (analyze_submission s) = ["sentiment"; "topics"] /\
  match fst (store_submission w s analysis u st) with
  | Ok _ =>
      exists row,
        submissions (snd (store_submission w s analysis u st))
        = (submissions st ++ [row])%list /\
        r_engagement_score row =
          match dict_get analysis "engagement_rate" with
          | Some v => v
          | None => VFloat 0
          end
  | Raise _ =>
      submissions (snd (store_submission w s analysis u st)) = submissions st
  end /\
  exists rows,
    submissions (snd (process_subreddit w self name limit st))
    = (submissions st ++ rows)%list /\
    zero_engagement rows.
Proof.
  split; [reflexivity |]. split; [| apply process_subreddit_rows].
  destruct (store_submission_cases w s analysis u st)
    as (_ & _ & [(e & Hr & Hs) | (row & Hr & _ & _ & _ & He & _ & Hs)]);
    rewrite Hr.
  - exact Hs.
  - exists row. split; [exact Hs |]. apply sql_bind_ok in He. exact He.
Qed.

(** ** RecommendationEngine *)

Lemma insert_desc_perm (x : pattern_row) (l : list pattern_row) :
  Permutation (insert_desc x l) (x :: l).
Proof.
  induction l as [| y l IH]; simpl; [reflexivity |].
  destruct (Qle_bool (p_confidence y) (p_confidence x)); [reflexivity |].
  rewrite IH. apply perm_swap.
Qed.

Lemma sort_desc_perm (l : list pattern_row) : Permutation (sort_desc l) l.
Proof.
  induction l as [| x l IH]; simpl; [reflexivity |].
  rewrite insert_desc_perm. apply perm_skip, IH.
Qed.

Lemma insert_desc_sorted (x : pattern_row) (l : list pattern_row) :
  StronglySorted ranks_before l -> StronglySorted ranks_before (insert_desc x l).
Proof.
  induction l as [| y l IH]; intros Hs; simpl.
  - repeat constructor.
  - inversion Hs as [| ? ? Hs' Hall]; subst.
    destruct (Qle_bool (p_confidence y) (p_confidence x)) eqn:E.
    + apply Qle_bool_iff in E. constructor; [exact Hs |].
      constructor; [exact E |].
      eapply List.Forall_impl; [| exact Hall].
      unfold ranks_before. intros z Hz. lra.
    + constructor; [apply IH, Hs' |].
      eapply Permutation.Permutation_Forall;
        [symmetry; apply insert_desc_perm |].
      constructor; [| exact Hall].
      unfold ranks_before.
      assert (~ p_confidence y <= p_confidence x)
        by (rewrite <- Qle_bool_iff; congruence).
      lra.
Qed.

Lemma sort_desc_sorted (l : list pattern_row) :
  StronglySorted ranks_before (sort_desc l).
Proof.
  induction l as [| x l IH]; simpl; [constructor |].
  apply insert_desc_sorted, IH.
Qed.

(** Sorting a ranking again changes nothing. *)
Lemma sort_desc_id (l : list pattern_row) :
  StronglySorted ranks_before l -> sort_desc l = l.
Proof.
  induction l as [| x l IH]; intros Hs; [reflexivity |].
  inversion Hs as [| ? ? Hs' Hall]; subst. simpl. rewrite (IH Hs').
  destruct l as [| y l]; [reflexivity |]. simpl.
  inversion Hall as [| ? ? Hy _]; subst. unfold ranks_before in Hy.
  apply Qle_bool_iff in Hy. rewrite Hy. reflexivity.
Qed.

(** The sort is stable: patterns of equal confidence keep their order. *)
Lemma insert_desc_stable (c : Q) (x : pattern_row) (l : list pattern_row) :
  List.filter (has_confidence c) (insert_desc x l)
  = List.filter (has_confidence c) (x :: l).
Proof.
  induction l as [| y l IH]; [reflexivity |]. simpl insert_desc.
  destruct (Qle_bool (p_confidence y) (p_confidence x)) eqn:E; [reflexivity |].
  assert (Hxy : has_confidence c x && has_confidence c y = false).
  { apply not_true_iff_false. intros H. apply andb_true_iff in H as [Hx Hy].
    unfold has_confidence in *. apply Qeq_bool_iff in Hx, Hy.
    assert (Hle : p_confidence y <= p_confidence x) by lra.
    apply Qle_bool_iff in Hle. congruence. }
  simpl. simpl in IH.
  destruct (has_confidence c y), (has_confidence c x);
    try discriminate Hxy; rewrite IH; reflexivity.
Qed.

Lemma sort_desc_stable (c : Q) (l : list pattern_row) :
  List.filter (has_confidence c) (sort_desc l)
  = List.filter (has_confidence c) l.
Proof.
  induction l as [| x l IH]; [reflexivity |]. simpl sort_desc.
  rewrite insert_desc_stable. simpl. rewrite IH. reflexivity.
Qed.

Lemma firstn_incl {A : Type} (n : nat) (l : list A) (x : A) :
  In x (firstn n l) -> In x l.
Proof.
  revert n. induction l as [| a l IH]; intros [| n] H; simpl in *; try tauto.
  destruct H as [H | H]; [auto | right; eapply IH, H].
Qed.

Lemma firstn_sorted (n : nat) (l : list pattern_row) :
  StronglySorted ranks_before l -> StronglySorted ranks_before (firstn n l).
Proof.
  revert n. induction l as [| x l IH]; intros n Hs.
  - rewrite firstn_nil. constructor.
  - destruct n; [constructor |]. simpl.
    inversion Hs as [| ? ? Hs' Hall]; subst.
    constructor; [apply IH, Hs' |].
    apply List.Forall_forall. intros y Hy.
    apply (proj1 (List.Forall_forall _ _) Hall), (firstn_incl _ _ _ Hy).
Qed.

Lemma generate_suggestion_renderable (p : pattern_row) (model : dict) :
  renderable p = true ->
  exists text, _generate_suggestion p model = Ok text.
Proof.
  unfold renderable, _generate_suggestion, dict_item.
  destruct (String.eqb (p_pattern_type p) "successful_post"); simpl;
    [| eauto].
  destruct (dict_get (p_pattern_data p) "post_time"); [| discriminate].
  destruct (dict_get (p_pattern_data p) "content_length"); [| discriminate].
  destruct (dict_get (p_pattern_data p) "topics") as [[] |];
    try discriminate; simpl; eauto.
Qed.

Lemma generate_suggestion_unrecognised (p : pattern_row) (model : dict) :
  p_pattern_type p <> "successful_post" ->
  _generate_suggestion p model = Ok No_specific_suggestion.
Proof.
  intros H. unfold _generate_suggestion.
  destruct (String.eqb_spec (p_pattern_type p) "successful_post");
    [contradiction | reflexivity].
Qed.

Lemma recommend_each_made_from (best : list pattern_row) (model : dict)
    (recs : list recommendation) :
  recommend_each best model = Ok recs -> Forall2 made_from best recs.
Proof.
  revert recs. induction best as [| p best IH]; intros recs H; simpl in H.
  - injection H as <-. constructor.
  - destruct (_generate_suggestion p model) as [text | e] eqn:Et;
      [| discriminate].
    simpl in H. destruct (recommend_each best model) as [recs' | e];
      [| discriminate].
    simpl in H. injection H as <-. constructor; [| apply IH; reflexivity].
    repeat split. simpl. intros Hty.
    rewrite (generate_suggestion_unrecognised p model Hty) in Et.
    congruence.
Qed.

Lemma recommend_each_total (best : list pattern_row) (model : dict) :
  Forall (fun p => renderable p = true) best ->
  exists recs, recommend_each best model = Ok recs.
Proof.
  induction 1 as [| p best Hp _ IH]; simpl; [eauto |].
  destruct (generate_suggestion_renderable p model Hp) as [text ->].
  destruct IH as [recs ->]. simpl. eauto.
Qed.

Lemma made_from_confidences (best : list pattern_row)
    (recs : list recommendation) :
  Forall2 made_from best recs ->
  map rec_confidence recs = map p_confidence best.
Proof.
  induction 1 as [| p r best recs (_ & Hc & _) _ IH]; simpl; congruence.
Qed.

Lemma ranking_non_increasing (l : list pattern_row) :
  StronglySorted ranks_before l -> non_increasing (map p_confidence l).
Proof.
  induction 1 as [| x l _ IH Hall]; simpl; constructor; [exact IH |].
  apply List.Forall_forall. intros q Hq. apply in_map_iff in Hq as (y & <- & Hy).
  apply (proj1 (List.Forall_forall _ _) Hall y Hy).
Qed.

Lemma truthy_nil {A : Type} (l : list A) : truthy l = false <-> l = [].
Proof. destruct l; simpl; split; congruence. Qed.

Lemma truthy_sort_desc (l : list pattern_row) :
  truthy (sort_desc l) = truthy l.
Proof.
  pose proof (sort_desc_perm l) as H.
  destruct l as [| x l].
  - reflexivity.
  - destruct (sort_desc (x :: l)) eqn:E; [| reflexivity].
    apply Permutation_nil in H. discriminate H.
Qed.

(** [get_recommendations], when the storage answers. *)
Lemma get_recommendations_answer (w : world) (name : string)
    (st : agent_state) :
  db_fault w (db_ops st) = None ->
  fst (get_recommendations w name st) =
  if truthy (patterns_of name st) && truthy (model_of name st)
  then recommend_each (firstn 5 (sort_desc (patterns_of name st)))
         (model_of name st)
  else Ok [].
Proof.
  intros Hf. unfold get_recommendations, get_patterns. unfold_monad.
  rewrite Hf. simpl. fold (patterns_of name st). fold (model_of name st).
  rewrite truthy_sort_desc.
  rewrite (sort_desc_id _ (sort_desc_sorted (patterns_of name st))).
  unfold model_of.
  destruct (truthy (patterns_of name st) && truthy _); reflexivity.
Qed.

(** C7, as the code has it: when the storage answers,
    [get_recommendations] returns the empty list when the community has
    no pattern or no model data; when it has both, it ranks the patterns
    by decreasing confidence, patterns of equal confidence in insertion
    order, and makes one recommendation from each of the first five, a
    pattern of unrecognised type getting the placeholder suggestion.  So a
    returned list has at most 5 elements, of non-increasing confidence. *)
Theorem recommendations_top_five (w : world) (name : string)
    (st : agent_state) :
  db_fault w (db_ops st) = None ->
  let r := get_recommendations w name st in
  let ranking := sort_desc (patterns_of name st) in
  (Permutation ranking (patterns_of name st) /\
   StronglySorted ranks_before ranking /\
   forall c, List.filter (has_confidence c) ranking
             = List.filter (has_confidence c) (patterns_of name st)) /\
  (patterns_of name st = [] \/ model_of name st = [] -> fst r = Ok []) /\
  (patterns_of name st <> [] -> model_of name st <> [] ->
   Forall (fun p => renderable p = true) (firstn 5 ranking) ->
   exists recs,
     fst r = Ok recs /\ Forall2 made_from (firstn 5 ranking) recs) /\
  (forall recs,
     fst r = Ok recs ->
     (length recs <= 5)%nat /\ non_increasing (map rec_confidence recs)).
Proof.
  intros Hf. cbv zeta. rewrite (get_recommendations_answer w name st Hf).
  split; [| split; [| split]].
  - split; [apply sort_desc_perm |]. split; [apply sort_desc_sorted |].
    intros c. apply sort_desc_stable.
  - intros [H | H]; rewrite H; simpl; rewrite ?andb_false_r; reflexivity.
  - intros Hp Hm Hren.
    destruct (truthy (patterns_of name st)) eqn:Tp;
      [| apply truthy_nil in Tp; contradiction].
    destruct (truthy (model_of name st)) eqn:Tm;
      [| apply truthy_nil in Tm; contradiction].
    simpl.
    destruct (recommend_each_total _ (model_of name st) Hren) as [recs E].
    exists recs. split; [exact E |].
    apply (recommend_each_made_from _ _ _ E).
  - intros recs.
    destruct (truthy (patterns_of name st) && truthy (model_of name st)).
    + intros E. apply recommend_each_made_from in E.
      split.
      * rewrite <- (List.Forall2_length E). apply List.firstn_le_length.
      * rewrite (made_from_confidences _ _ E).
        apply ranking_non_increasing, firstn_sorted, sort_desc_sorted.
    + intros E. injection E as <-. split; [simpl; lia | constructor].
Qed.

Lemma recommendations_top_five_witness :
  let st := with_model restarted_state "x" [("avg_engagement", VFloat 0.6)] [] in
  exists recs,
    fst (get_recommendations quiet_world "x" st) = Ok recs /\
    (length recs <= 5)%nat /\
    non_increasing (map rec_confidence recs).
Proof.
  intros st.
  destruct (recommendations_top_five quiet_world "x" st)
    as (_ & _ & Hsome & Hall).
  - reflexivity.
  - destruct Hsome as (recs & E & _).
    + vm_compute. discriminate.
    + vm_compute. discriminate.
    + vm_compute. repeat constructor.
    + exists recs. split; [exact E | apply Hall, E].
Defined.

(** C7 as stated fails after a restart: the community has a pattern in
    the database and no model data in memory, and the result is empty
    instead of one recommendation. *)
Lemma recommendations_need_model_data :
  length (patterns_of "x" restarted_state) = 1%nat /\
  model_of "x" restarted_state = [] /\
  fst (get_recommendations quiet_world "x" restarted_state) = Ok [].
Proof. repeat split. Qed.

(** ** The JSON layer *)

Import Llm.

Example json_loads_object_a :
  JsonFragment.json_loads object_a = Ok (JObj [("a", JNum 1)]).
Proof. reflexivity. Qed.

Example json_loads_nested :
  JsonFragment.json_loads "[1, [true, null], {}, -20]"
  = Ok (JArr [JNum 1; JArr [JBool true; JNull]; JObj []; JNum (-20)]).
Proof. reflexivity. Qed.

Example json_loads_wrapped :
  JsonFragment.json_loads wrapped_answer = Raise JSONDecodeError /\
  JsonFragment.json_loads double_answer = Raise JSONDecodeError /\
  JsonFragment.json_loads "" = Raise JSONDecodeError.
Proof. repeat split. Qed.


Lemma find_from_nonneg (c : ascii) (s : string) (i : Z) :
  (0 <= i)%Z -> (find_from c s i = -1 \/ i <= find_from c s i)%Z.
Proof.
  revert i. induction s as [| a s IH]; intros i Hi; simpl; [auto |].
  destruct (Ascii.eqb a c); [right; lia |].
  destruct (IH (i + 1)%Z) as [H | H]; [lia | auto | right; lia].
Qed.








Section SafeParse.

Variable json_loads : string -> res json.



End SafeParse.





(** * Further properties *)

(** ** Relations kept by every step *)

Section Preserves.

Variable R : agent_state -> agent_state -> Prop.
Hypothesis R_refl : forall st, R st st.
Hypothesis R_trans : forall st1 st2 st3, R st1 st2 -> R st2 st3 -> R st1 st3.

Lemma preserves_ret {A : Type} (a : A) : preserves R (ret a).
Proof. intros st. apply R_refl. Qed.

Lemma preserves_lift {A : Type} (r : res A) : preserves R (lift r).
Proof. intros st. apply R_refl. Qed.

Lemma preserves_bind {A B : Type} (m : M A) (k : A -> M B) :
  preserves R m -> (forall a, preserves R (k a)) -> preserves R (bind m k).
Proof.
  intros Hm Hk st. unfold bind. specialize (Hm st).
  destruct (m st) as [[a | e] st1]; simpl in *; [| exact Hm].
  eapply R_trans; [exact Hm | apply Hk].
Qed.

Lemma preserves_try_except {A : Type} (m : M A) (catches : exn -> bool)
    (h : exn -> M A) :
  preserves R m -> (forall e, preserves R (h e)) ->
  preserves R (try_except m catches h).
Proof.
  intros Hm Hh st. unfold try_except. specialize (Hm st).
  destruct (m st) as [[a | e] st1]; simpl in *; [exact Hm |].
  destruct (catches e); [| exact Hm].
  eapply R_trans; [exact Hm | apply Hh].
Qed.

End Preserves.

(** A relation kept by the five writes of the agent (a connection, a log
    line, an inserted submission, a stored pattern whose confidence
    passes [ok_confidence], a replaced model of [name]) is kept by the
    whole of [process_subreddit] on [name]. *)
Section AgentPreserves.

Variable w : world.
Variable self : agent_config.
Variable name : string.
Variable R : agent_state -> agent_state -> Prop.
Variable ok_confidence : Q -> Prop.

Hypothesis R_refl : forall st, R st st.
Hypothesis R_trans : forall st1 st2 st3, R st1 st2 -> R st2 st3 -> R st1 st3.
Hypothesis R_connect : preserves R (connect w).
Hypothesis R_logger : forall entry, preserves R (logger entry).
Hypothesis R_insert : forall row, preserves R (insert_submission row).
Hypothesis R_pattern :
  forall community ty data c,
    ok_confidence c -> preserves R (store_pattern w community ty data c).
Hypothesis R_model : forall d, preserves R (set_model name d).
Hypothesis R_gate : forall u, 0.7 < u -> ok_confidence u.

Ltac compose :=
  repeat first
    [ apply (preserves_ret R R_refl)
    | apply (preserves_lift R R_refl)
    | apply R_connect
    | apply R_logger
    | apply R_insert
    | apply R_model
    | apply (preserves_bind R R_trans); [| intros ? ]
    | apply (preserves_try_except R R_trans); [| intros ? ] ].

Lemma preserves_read {A : Type} (f : agent_state -> res A) :
  preserves R (fun st => (f st, st)).
Proof. intros st. apply R_refl. Qed.

Lemma is_submission_processed_preserves (sid : string) :
  preserves R (is_submission_processed w sid).
Proof.
  unfold is_submission_processed. compose.
  apply (preserves_read (fun st => Ok (has_row sid (submissions st)))).
Qed.

Lemma store_submission_preserves (s : submission) (analysis : dict) (u : Q) :
  preserves R (store_submission w s analysis u).
Proof. unfold store_submission. compose. Qed.

Lemma set_model_key_preserves (key : string) (v : pyval) :
  preserves R (set_model_key name key v).
Proof.
  intros st. unfold set_model_key.
  destruct (subreddit_models st !! name); [apply R_model | apply R_refl].
Qed.

Lemma get_model_key_preserves (key : string) :
  preserves R (get_model_key name key).
Proof.
  intros st. unfold get_model_key.
  destruct (subreddit_models st !! name); apply R_refl.
Qed.

Lemma update_key_preserves (key : string) (v : pyval) :
  preserves R (update_key w self name key v).
Proof.
  unfold update_key. destruct (String.eqb key "topics");
    [apply set_model_key_preserves |].
  compose; first [apply get_model_key_preserves | apply set_model_key_preserves].
Qed.

Lemma update_items_preserves (items : dict) :
  preserves R (update_items w self name items).
Proof.
  induction items as [| [k v] items IH]; simpl; compose.
  - apply update_key_preserves.
  - exact IH.
Qed.

Lemma update_model_preserves (obs : dict) :
  preserves R (update_model w self name obs).
Proof.
  intros st. unfold update_model.
  destruct (subreddit_models st !! name);
    [apply update_items_preserves | apply R_model].
Qed.

Lemma learn_from_submission_preserves (s : submission) (analysis : dict)
    (u : Q) :
  0.7 < u -> preserves R (_learn_from_submission w s analysis u).
Proof.
  intros Hu. unfold _learn_from_submission.
  apply (preserves_bind R R_trans);
    [apply (preserves_lift R R_refl) | intros hour].
  apply (preserves_bind R R_trans);
    [apply (preserves_lift R R_refl) | intros topics].
  apply R_pattern, R_gate, Hu.
Qed.

Ltac after tac := apply (preserves_bind R R_trans); [tac | intros ?].
Ltac pure := first [apply (preserves_ret R R_refl) | apply (preserves_lift R R_refl)].

Lemma process_submission_preserves (s : submission) :
  preserves R (process_submission w self name s).
Proof.
  unfold process_submission.
  after ltac:(apply is_submission_processed_preserves).
  match goal with |- preserves R (if ?b then _ else _) => destruct b end;
    [pure |].
  after pure. after pure.
  after ltac:(apply store_submission_preserves).
  after ltac:(apply update_model_preserves).
  after idtac; [| pure].
  match goal with
  | |- preserves R (if Qgt_bool ?u 0.7 then _ else _) =>
      destruct (Qgt_bool u 0.7) eqn:Hgt
  end; [| pure].
  apply learn_from_submission_preserves, Qgt_bool_true, Hgt.
Qed.

Lemma process_listing_preserves (l : listing) (acc : list processed_entry) :
  preserves R (process_listing w self name l acc).
Proof.
  revert acc. induction l as [| s rest IH | e]; intros acc; simpl;
    [pure | | pure].
  after idtac; [| apply IH].
  apply (preserves_try_except R R_trans).
  - after ltac:(apply process_submission_preserves). pure.
  - intros e. after ltac:(apply R_logger). pure.
Qed.

Lemma process_subreddit_preserves (limit : Z) :
  preserves R (process_subreddit w self name limit).
Proof.
  unfold process_subreddit. apply (preserves_try_except R R_trans).
  - after pure.
    match goal with |- preserves R (if ?b then _ else _) => destruct b end.
    + after ltac:(apply R_logger). pure.
    + apply process_listing_preserves.
  - intros e. unfold subreddit_handler.
    destruct e; after ltac:(apply R_logger); pure.
Qed.

End AgentPreserves.

(** ** Writes of the agent: what they leave alone *)

Lemma keeps_refl (I : agent_state -> Prop) (st : agent_state) : keeps I st st.
Proof. intros H. exact H. Qed.

Lemma keeps_trans (I : agent_state -> Prop) (st1 st2 st3 : agent_state) :
  keeps I st1 st2 -> keeps I st2 st3 -> keeps I st1 st3.
Proof. unfold keeps. auto. Qed.

Lemma grows_for_refl (name : string) (st : agent_state) : grows_for name st st.
Proof.
  split; [exists []; rewrite app_nil_r; reflexivity |].
  split; [exists []; rewrite app_nil_r; reflexivity | reflexivity].
Qed.

Lemma grows_for_trans (name : string) (st1 st2 st3 : agent_state) :
  grows_for name st1 st2 -> grows_for name st2 st3 -> grows_for name st1 st3.
Proof.
  intros ([r1 S1] & [a1 P1] & M1) ([r2 S2] & [a2 P2] & M2).
  split; [exists (r1 ++ r2)%list; rewrite S2, S1, app_assoc; reflexivity |].
  split; [exists (a1 ++ a2)%list; rewrite P2, P1, app_assoc; reflexivity |].
  intros other Hne. rewrite (M2 other Hne). apply M1, Hne.
Qed.

Lemma grows_for_same (name : string) (st st' : agent_state) :
  submissions st' = submissions st ->
  learned_patterns st' = learned_patterns st ->
  subreddit_models st' = subreddit_models st ->
  grows_for name st st'.
Proof.
  intros S P M.
  split; [exists []; rewrite S, app_nil_r; reflexivity |].
  split; [exists []; rewrite P, app_nil_r; reflexivity |].
  intros other _. rewrite M. reflexivity.
Qed.

Lemma connect_state (w : world) (st : agent_state) :
  snd (connect w st) = connected st.
Proof. unfold connect. destruct (db_fault w (db_ops st)); reflexivity. Qed.

Lemma store_pattern_state (w : world) (community ty : string) (data : dict)
    (c : Q) (st : agent_state) :
  let r := store_pattern w community ty data c st in
  (fst r = Ok tt /\
   db_fault w (db_ops st) = None /\
   submissions (snd r) = submissions st /\
   subreddit_models (snd r) = subreddit_models st /\
   pattern_seq (snd r) = (pattern_seq st + 1)%Z /\
   learned_patterns (snd r) =
     (learned_patterns st ++
      [{| p_pattern_id := (pattern_seq st + 1)%Z;
          p_subreddit := community;
          p_pattern_type := ty;
          p_pattern_data := data;
          p_confidence := c;
          p_utility_score := c;
          p_last_updated := now w |}])%list) \/
  (exists e, fst r = Raise e /\ db_fault w (db_ops st) = Some e /\
             snd r = connected st).
Proof.
  unfold store_pattern. unfold_monad.
  destruct (db_fault w (db_ops st)) as [e |]; simpl.
  - right. exists e. auto.
  - left. repeat split.
Qed.

Section GrowsFor.

Variable w : world.
Variable name : string.

Lemma connect_grows : preserves (grows_for name) (connect w).
Proof. intros st. rewrite connect_state. apply grows_for_same; reflexivity. Qed.

Lemma logger_grows (entry : log_entry) :
  preserves (grows_for name) (logger entry).
Proof. intros st. apply grows_for_same; reflexivity. Qed.

Lemma insert_submission_grows (row : submission_row) :
  preserves (grows_for name) (insert_submission row).
Proof.
  intros st. unfold insert_submission.
  destruct (has_row _ _); [apply grows_for_refl |].
  split; [exists [row]; reflexivity |].
  split; [exists []; simpl; rewrite app_nil_r; reflexivity | reflexivity].
Qed.

Lemma store_pattern_grows (community ty : string) (data : dict) (c : Q) :
  preserves (grows_for name) (store_pattern w community ty data c).
Proof.
  intros st.
  destruct (store_pattern_state w community ty data c st)
    as [(_ & _ & Hs & Hm & _ & Hp) | (e & _ & _ & ->)];
    [| apply grows_for_same; reflexivity].
  split; [exists []; rewrite Hs, app_nil_r; reflexivity |].
  split; [eexists; exact Hp |].
  intros other _. rewrite Hm. reflexivity.
Qed.

Lemma set_model_grows (d : dict) :
  preserves (grows_for name) (set_model name d).
Proof.
  intros st. split; [exists []; simpl; rewrite app_nil_r; reflexivity |].
  split; [exists []; simpl; rewrite app_nil_r; reflexivity |].
  intros other Hne. simpl. apply lookup_insert_ne. congruence.
Qed.

End GrowsFor.

(** X1. [process_subreddit] on a community only appends to the two
    tables: no stored submission and no stored pattern is removed or
    changed; and it changes the model of no other community. *)
Theorem process_subreddit_only_appends (w : world) (self : agent_config)
    (name : string) (limit : Z) (st : agent_state) :
  grows_for name st (snd (process_subreddit w self name limit st)).
Proof.
  apply (process_subreddit_preserves w self name (grows_for name)
           (fun _ => True)).
  - apply grows_for_refl.
  - apply grows_for_trans.
  - apply connect_grows.
  - apply logger_grows.
  - apply insert_submission_grows.
  - intros community ty data c _. apply store_pattern_grows.
  - apply set_model_grows.
  - trivial.
Qed.

(** ** Invariants of the tables *)

Section KeepsInvariant.

Variable w : world.
Variable name : string.

Lemma connect_keeps (I : agent_state -> Prop) :
  (forall st, I st -> I (connected st)) -> preserves (keeps I) (connect w).
Proof. intros H st. rewrite connect_state. exact (H st). Qed.

Lemma insert_submission_unique (row : submission_row) :
  preserves (keeps unique_ids) (insert_submission row).
Proof.
  intros st Hu. unfold insert_submission.
  destruct (has_row (r_submission_id row) (submissions st)) eqn:Hrow;
    [exact Hu |].
  intros sid. simpl. unfold rows_with.
  rewrite List.filter_app, length_app. simpl.
  destruct (String.eqb_spec (r_submission_id row) sid) as [E | _]; simpl.
  - rewrite E in Hrow. apply rows_with_nil in Hrow.
    unfold rows_with in Hrow. rewrite Hrow. simpl. lia.
  - specialize (Hu sid). unfold rows_with in Hu. lia.
Qed.

Lemma store_pattern_unique (community ty : string) (data : dict) (c : Q) :
  preserves (keeps unique_ids) (store_pattern w community ty data c).
Proof.
  intros st Hu sid. rewrite store_pattern_submissions. apply Hu.
Qed.

Lemma store_pattern_ids (community ty : string) (data : dict) (c : Q) :
  preserves (keeps pattern_ids_in_order) (store_pattern w community ty data c).
Proof.
  intros st [Hids Hseq].
  destruct (store_pattern_state w community ty data c st)
    as [(_ & _ & _ & _ & Hq & Hp) | (e & _ & _ & ->)];
    [| split; assumption].
  unfold pattern_ids_in_order. rewrite Hp, Hq, length_app, map_app, Hids.
  simpl length. rewrite Nat.add_1_r, seq_S, map_app, Hseq. simpl.
  split; [f_equal; f_equal; lia | lia].
Qed.

Lemma store_pattern_confident (community ty : string) (data : dict) (c : Q) :
  0.7 < c ->
  preserves (keeps confident_patterns) (store_pattern w community ty data c).
Proof.
  intros Hc st Hall.
  destruct (store_pattern_state w community ty data c st)
    as [(_ & _ & _ & _ & _ & Hp) | (e & _ & _ & ->)]; [| exact Hall].
  unfold confident_patterns. rewrite Hp. apply Forall_app. split; [exact Hall |].
  repeat constructor. exact Hc.
Qed.

End KeepsInvariant.

(** X2. [process_subreddit] never stores a submission twice: a table
    without two rows of one identifier stays so, also when the listing
    yields a submission again. *)
Theorem process_subreddit_keeps_unique_ids (w : world) (self : agent_config)
    (name : string) (limit : Z) (st : agent_state) :
  unique_ids st ->
  unique_ids (snd (process_subreddit w self name limit st)).
Proof.
  apply (process_subreddit_preserves w self name (keeps unique_ids)
           (fun _ => True)).
  - apply keeps_refl.
  - apply keeps_trans.
  - apply connect_keeps. auto.
  - intros entry st0 H. exact H.
  - apply insert_submission_unique.
  - intros community ty data c _. apply store_pattern_unique.
  - intros d st0 H. exact H.
  - trivial.
Qed.

Lemma process_subreddit_keeps_unique_ids_witness :
  let r := process_subreddit (sample_world repeated_listing no_fault)
             default_config "x" 10 initial_state in
  unique_ids (snd r) /\ length (submissions (snd r)) = 1%nat.
Proof.
  split; [| reflexivity].
  apply process_subreddit_keeps_unique_ids.
  intros sid. simpl. lia.
Defined.

Lemma pattern_ids_same_tables (st st' : agent_state) :
  learned_patterns st' = learned_patterns st ->
  pattern_seq st' = pattern_seq st ->
  pattern_ids_in_order st -> pattern_ids_in_order st'.
Proof.
  intros P Q [H1 H2]. unfold pattern_ids_in_order. rewrite P, Q. auto.
Qed.

Lemma run_call_keeps_pattern_ids (w : world) (c : db_call)
    (st : agent_state) :
  pattern_ids_in_order st -> pattern_ids_in_order (snd (run_call w c st)).
Proof.
  intros H. destruct c as [sid | s analysis u | name ty d conf | name]; simpl.
  - destruct (is_submission_processed_frame w sid st) as ((_ & P & Q) & _).
    apply (pattern_ids_same_tables st); assumption.
  - destruct (store_submission_cases w s analysis u st) as ((P & Q) & _).
    apply (pattern_ids_same_tables st); assumption.
  - apply store_pattern_ids, H.
  - unfold get_patterns. unfold_monad.
    destruct (db_fault w (db_ops st)); exact H.
Qed.

Lemma run_calls_keep_pattern_ids (w : world) (calls : list db_call)
    (st : agent_state) :
  pattern_ids_in_order st -> pattern_ids_in_order (snd (run_calls w calls st)).
Proof.
  revert st. induction calls as [| c calls IH]; intros st H; [exact H |].
  simpl. pose proof (run_call_keeps_pattern_ids w c st H) as H1.
  destruct (run_call w c st) as [ok st1].
  specialize (IH st1 H1).
  destruct (run_calls w calls st1) as [trace st2]. exact IH.
Qed.

(** X3. The keys of the stored patterns are 1, 2, 3, ... in the order of
    their insertion, whatever calls a client makes on a fresh database,
    and [process_subreddit] keeps them so: no key is reused or skipped,
    also when a call fails. *)
Theorem pattern_keys_count_up (w : world) (calls : list db_call)
    (self : agent_config) (name : string) (limit : Z) (st : agent_state) :
  pattern_ids_in_order (snd (run_calls w calls initial_state)) /\
  (pattern_ids_in_order st ->
   pattern_ids_in_order (snd (process_subreddit w self name limit st))).
Proof.
  split.
  - apply run_calls_keep_pattern_ids. split; reflexivity.
  - apply (process_subreddit_preserves w self name
             (keeps pattern_ids_in_order) (fun _ => True)).
    + apply keeps_refl.
    + apply keeps_trans.
    + apply connect_keeps. intros st0 H. exact H.
    + intros entry st0 H. exact H.
    + intros row st0 H. unfold insert_submission.
      destruct (has_row _ _); exact H.
    + intros community ty data c _. apply store_pattern_ids.
    + intros d st0 H. exact H.
    + trivial.
Qed.

Lemma pattern_keys_count_up_witness :
  let r := process_subreddit
             (sample_world (Yield (sample_submission "a1" 200 3600) Done)
                no_fault)
             keen_config "x" 10 restarted_state in
  pattern_ids_in_order (snd r) /\
  map p_pattern_id (learned_patterns (snd r)) = [1%Z; 2%Z].
Proof.
  split; [| reflexivity].
  apply (pattern_keys_count_up
           (sample_world (Yield (sample_submission "a1" 200 3600) Done)
              no_fault)
           [] keen_config "x" 10 restarted_state).
  split; reflexivity.
Defined.

(** X4. Every pattern that [process_subreddit] stores has a confidence
    above 0.7; so on a database filled by the agent alone, every
    recommendation that [get_recommendations] returns has a confidence
    above 0.7. *)
Theorem recommendations_are_confident (w : world) (self : agent_config)
    (name : string) (limit : Z) (st : agent_state) :
  confident_patterns st ->
  confident_patterns (snd (process_subreddit w self name limit st)) /\
  forall community recs,
    fst (get_recommendations w community st) = Ok recs ->
    Forall (fun r => 0.7 < rec_confidence r) recs.
Proof.
  intros Hc. split.
  - revert Hc.
    apply (process_subreddit_preserves w self name
             (keeps confident_patterns) (fun c => 0.7 < c)).
    + apply keeps_refl.
    + apply keeps_trans.
    + apply connect_keeps. intros st0 H. exact H.
    + intros entry st0 H. exact H.
    + intros row st0 H. unfold insert_submission.
      destruct (has_row _ _); exact H.
    + intros community ty data c. apply store_pattern_confident.
    + intros d st0 H. exact H.
    + trivial.
  - intros community recs Hr.
    destruct (db_fault w (db_ops st)) as [e |] eqn:Hf.
    { unfold get_recommendations, get_patterns in Hr. unfold_monad.
      rewrite Hf in Hr. discriminate Hr. }
    rewrite (get_recommendations_answer w community st Hf) in Hr.
    destruct (truthy _ && truthy _).
    + apply recommend_each_made_from in Hr.
      assert (Hbest : Forall (fun p => 0.7 < p_confidence p)
                        (firstn 5 (sort_desc (patterns_of community st)))).
      { apply List.Forall_forall. intros p Hp. apply firstn_incl in Hp.
        apply (Permutation_in _ (sort_desc_perm _)) in Hp.
        unfold patterns_of in Hp. apply filter_In in Hp as [Hp _].
        apply (proj1 (List.Forall_forall _ _) Hc p Hp). }
      clear - Hr Hbest.
      induction Hr as [| p r best recs (_ & Hcr & _) _ IH]; [constructor |].
      inversion Hbest; subst. constructor; [rewrite Hcr; assumption | auto].
    + injection Hr as <-. constructor.
Qed.

Lemma recommendations_are_confident_witness :
  let st := with_model restarted_state "x" [("avg_engagement", VFloat 0.6)] [] in
  exists recs,
    fst (get_recommendations quiet_world "x" st) = Ok recs /\
    length recs = 1%nat /\
    Forall (fun r => 0.7 < rec_confidence r) recs.
Proof.
  intros st. eexists. split; [vm_compute; reflexivity |].
  split; [reflexivity |].
  assert (Hc : confident_patterns st) by (repeat constructor).
  destruct (recommendations_are_confident quiet_world default_config "x" 10
              st Hc) as [_ H].
  apply (H "x"). vm_compute. reflexivity.
Defined.

(** ** Reading the patterns back *)

Lemma get_patterns_answer (w : world) (name : string) (st : agent_state) :
  get_patterns w name st =
  (match db_fault w (db_ops st) with
   | Some e => Raise e
   | None => Ok (sort_desc (patterns_of name st))
   end,
   connected st).
Proof.
  unfold get_patterns, patterns_of. unfold_monad.
  destruct (db_fault w (db_ops st)); reflexivity.
Qed.

(** X5. [get_patterns] changes nothing but the count of connections; when
    the storage answers, it returns exactly the patterns of the community
    asked for, by decreasing confidence, patterns of equal confidence in
    the order of their insertion; when the storage fails, it raises the
    failure. *)
Theorem get_patterns_returns_the_ranking (w : world) (name : string)
    (st : agent_state) :
  let r := get_patterns w name st in
  snd r = connected st /\
  match db_fault w (db_ops st) with
  | Some e => fst r = Raise e
  | None =>
      exists l,
        fst r = Ok l /\
        Permutation l (patterns_of name st) /\
        StronglySorted ranks_before l /\
        Forall (fun p => p_subreddit p = name) l /\
        forall c, List.filter (has_confidence c) l
                  = List.filter (has_confidence c) (patterns_of name st)
  end.
Proof.
  cbv zeta. rewrite get_patterns_answer. split; [reflexivity |].
  destruct (db_fault w (db_ops st)); [reflexivity |].
  exists (sort_desc (patterns_of name st)). split; [reflexivity |].
  split; [apply sort_desc_perm |]. split; [apply sort_desc_sorted |].
  split; [| intros c; apply sort_desc_stable].
  apply List.Forall_forall. intros p Hp.
  apply (Permutation_in _ (sort_desc_perm _)) in Hp.
  unfold patterns_of in Hp. apply filter_In in Hp as [_ Hp].
  apply String.eqb_eq, Hp.
Qed.

Lemma patterns_of_store_pattern (w : world) (name ty : string) (data : dict)
    (c : Q) (st : agent_state) (other : string) :
  db_fault w (db_ops st) = None ->
  patterns_of other (snd (store_pattern w name ty data c st)) =
  (patterns_of other st ++
   if String.eqb name other
   then [{| p_pattern_id := (pattern_seq st + 1)%Z;
            p_subreddit := name;
            p_pattern_type := ty;
            p_pattern_data := data;
            p_confidence := c;
            p_utility_score := c;
            p_last_updated := now w |}]
   else [])%list.
Proof.
  intros Hf.
  destruct (store_pattern_state w name ty data c st)
    as [(_ & _ & _ & _ & _ & Hp) | (e & _ & He & _)]; [| congruence].
  unfold patterns_of. rewrite Hp, List.filter_app. reflexivity.
Qed.

(** X6. A pattern stored with [store_pattern] is read back by
    [get_patterns] for its community, with the payload, the type and the
    confidence it was stored with, beside the patterns that were there;
    the answer for any other community is the same as before. *)
Theorem stored_pattern_is_read_back (w : world) (name ty : string)
    (data : dict) (c : Q) (st : agent_state) :
  storage_up w ->
  let st1 := snd (store_pattern w name ty data c st) in
  (exists l row,
     fst (get_patterns w name st1) = Ok l /\
     In row l /\
     p_pattern_type row = ty /\
     p_pattern_data row = data /\
     p_confidence row = c /\
     length l = S (length (patterns_of name st))) /\
  forall other,
    other <> name ->
    fst (get_patterns w other st1) = fst (get_patterns w other st).
Proof.
  intros Hup. cbv zeta. split.
  - rewrite get_patterns_answer, Hup. simpl.
    rewrite (patterns_of_store_pattern w name ty data c st name (Hup _)).
    rewrite String.eqb_refl.
    eexists. eexists. split; [reflexivity |]. split.
    + apply (Permutation_in _ (Permutation_sym (sort_desc_perm _))).
      apply in_or_app. right. left. reflexivity.
    + repeat split.
      rewrite (Permutation_length (sort_desc_perm _)), length_app. simpl. lia.
  - intros other Hne. rewrite !get_patterns_answer, !Hup. simpl.
    rewrite (patterns_of_store_pattern w name ty data c st other (Hup _)).
    destruct (String.eqb_spec name other); [congruence |].
    rewrite app_nil_r. reflexivity.
Qed.

Lemma stored_pattern_is_read_back_witness :
  exists l row,
    fst (get_patterns quiet_world "x" restarted_state) = Ok l /\
    In row l /\ p_pattern_data row = sample_payload /\ p_confidence row = 0.9.
Proof.
  destruct (stored_pattern_is_read_back quiet_world "x" "successful_post"
              sample_payload 0.9 initial_state)
    as [(l & row & Hl & Hin & _ & Hd & Hc & _) _].
  - intros n. reflexivity.
  - exists l, row. auto.
Defined.

(** X7. [get_recommendations] writes nothing: it leaves the tables, the
    models and the log as they are.  It raises only when the storage
    fails, or when one of the five best patterns is of the recognised
    type and its payload lacks a field of the template or holds topics
    that cannot be joined. *)
Theorem get_recommendations_reads_only (w : world) (name : string)
    (st : agent_state) :
  let r := get_recommendations w name st in
  snd r = connected st /\
  forall e,
    fst r = Raise e ->
    db_fault w (db_ops st) = Some e \/
    (db_fault w (db_ops st) = None /\
     Exists (fun p => renderable p = false)
       (firstn 5 (sort_desc (patterns_of name st)))).
Proof.
  cbv zeta. split.
  - unfold get_recommendations. unfold bind. rewrite get_patterns_answer.
    destruct (db_fault w (db_ops st)); [reflexivity |].
    destruct (truthy _ && truthy _); reflexivity.
  - intros e He.
    destruct (db_fault w (db_ops st)) as [e' |] eqn:Hf.
    + left. unfold get_recommendations in He. unfold bind in He.
      rewrite get_patterns_answer, Hf in He. simpl in He. congruence.
    + right. split; [reflexivity |].
      rewrite (get_recommendations_answer w name st Hf) in He.
      destruct (truthy _ && truthy _); [| discriminate He].
      apply List.Exists_exists.
      destruct (List.Forall_Exists_dec
                  (fun p => renderable p = true)
                  (fun p => bool_dec (renderable p) true)
                  (firstn 5 (sort_desc (patterns_of name st))))
        as [Hall | Hex].
      * destruct (recommend_each_total _ (model_of name st) Hall) as [recs E].
        congruence.
      * apply List.Exists_exists in Hex as (p & Hp & Hr).
        exists p. split; [exact Hp |].
        destruct (renderable p); congruence.
Qed.

(** ** The moving average *)

Lemma convex_in_unit (alpha o n : Q) :
  0 <= alpha -> alpha <= 1 -> in_unit o -> in_unit n ->
  in_unit ((1 - alpha) * o + alpha * n).
Proof.
  intros Ha0 Ha1 Ho Hn.
  assert (Hb : 0 <= 1 - alpha) by lra.
  destruct (Qmult_unit_bounds _ _ Hb Ho) as [o0 o1].
  destruct (Qmult_unit_bounds _ _ Ha0 Hn) as [n0 n1].
  split; lra.
Qed.

Lemma unit_float_safe (v : pyval) : unit_float v -> Spec.float_safe v = true.
Proof. intros (q & -> & _). reflexivity. Qed.

Lemma smoothed_unit (fos : string -> option Q) (alpha : Q) (d : dict)
    (k : string) (v : pyval) :
  0 <= alpha -> alpha <= 1 -> unit_valued d -> unit_float v ->
  unit_float (Spec.smoothed fos alpha d k v).
Proof.
  intros Ha0 Ha1 Hd Hv. unfold Spec.smoothed.
  destruct (String.eqb k "topics"); [exact Hv |].
  destruct Hv as (n & -> & Hn).
  destruct (dict_get d k) as [old |] eqn:E.
  - destruct (Hd k old E) as (o & -> & Ho). simpl.
    eexists. split; [reflexivity |]. apply convex_in_unit; assumption.
  - simpl. eexists. split; [reflexivity |].
    apply convex_in_unit; try assumption.
    unfold in_unit, inject_Z, Qle. simpl. lia.
Qed.

Lemma dict_set_unit (d : dict) (k : string) (v : pyval) :
  unit_valued d -> unit_float v -> unit_valued (dict_set d k v).
Proof.
  intros Hd Hv k' v'. rewrite dict_get_set.
  destruct (String.eqb k k'); [| apply Hd].
  intros E. injection E as <-. exact Hv.
Qed.

Lemma smooth_all_unit (fos : string -> option Q) (alpha : Q)
    (items d : dict) :
  0 <= alpha -> alpha <= 1 ->
  Forall (fun item => unit_float (snd item)) items ->
  unit_valued d -> unit_valued (Spec.smooth_all fos alpha items d).
Proof.
  intros Ha0 Ha1 Hit. revert d.
  induction Hit as [| [k v] items Hv _ IH]; intros d Hd; [exact Hd |].
  change (Spec.smooth_all fos alpha ((k, v) :: items) d)
    with (Spec.smooth_all fos alpha items
            (dict_set d k (Spec.smoothed fos alpha d k v))).
  apply IH, dict_set_unit; [exact Hd |].
  apply smoothed_unit; assumption.
Qed.

(** X8. With a learning rate between 0 and 1, [update_model] keeps a
    model within the unit interval: when the stored values and the
    observed values are floats of [0,1], the call returns and every value
    of the updated model is a float of [0,1]. *)
Theorem update_model_stays_in_unit (w : world) (self : agent_config)
    (name : string) (obs old : dict) (st : agent_state) :
  0 <= learning_rate self -> learning_rate self <= 1 ->
  subreddit_models st !! name = Some old ->
  unit_valued old ->
  Forall (fun item => unit_float (snd item)) obs ->
  let r := update_model w self name obs st in
  exists updated,
    fst r = Ok tt /\
    subreddit_models (snd r) !! name = Some updated /\
    unit_valued updated.
Proof.
  intros Ha0 Ha1 Hold Hu Hobs. cbv zeta.
  destruct (update_items_spec w self name obs old st Hold) as [warnings E].
  - eapply List.Forall_impl; [| exact Hobs].
    intros item. apply unit_float_safe.
  - intros k v Hk. apply unit_float_safe, (Hu k v Hk).
  - unfold update_model. rewrite Hold, E. simpl.
    eexists. split; [reflexivity |]. split; [apply lookup_insert_eq |].
    apply smooth_all_unit; assumption.
Qed.

Lemma update_model_stays_in_unit_witness :
  let st := with_model initial_state "x" [("avg_engagement", VFloat 0.5)] [] in
  let r := update_model quiet_world default_config "x"
             [("avg_engagement", VFloat 1); ("avg_novelty", VFloat 0.5)] st in
  exists updated,
    subreddit_models (snd r) !! "x" = Some updated /\ unit_valued updated.
Proof.
  intros st r.
  destruct (update_model_stays_in_unit quiet_world default_config "x"
              [("avg_engagement", VFloat 1); ("avg_novelty", VFloat 0.5)]
              [("avg_engagement", VFloat 0.5)] st)
    as (updated & _ & Hm & Hu).
  - simpl. lra.
  - simpl. lra.
  - reflexivity.
  - intros k v. simpl.
    destruct (String.eqb k "avg_engagement"); [| discriminate].
    intros E. injection E as <-. eexists. split; [reflexivity |].
    split; simpl; lra.
  - repeat constructor; simpl; eexists; (split; [reflexivity |]);
      split; simpl; lra.
  - exists updated. auto.
Defined.

Lemma keys_kept_refl (d : dict) : keys_kept d d.
Proof. intros k H. exact H. Qed.

Lemma keys_kept_trans (d1 d2 d3 : dict) :
  keys_kept d1 d2 -> keys_kept d2 d3 -> keys_kept d1 d3.
Proof. unfold keys_kept. auto. Qed.

Lemma keys_kept_set (d : dict) (k : string) (v : pyval) :
  keys_kept d (dict_set d k v).
Proof.
  intros k' H. rewrite dict_get_set.
  destruct (String.eqb k k'); [discriminate | exact H].
Qed.

Lemma set_model_key_keys (name key : string) (v : pyval) (cur : dict)
    (st : agent_state) :
  subreddit_models st !! name = Some cur ->
  subreddit_models (snd (set_model_key name key v st)) !! name
  = Some (dict_set cur key v).
Proof.
  intros H. unfold set_model_key, set_model. rewrite H. simpl.
  apply lookup_insert_eq.
Qed.

Lemma update_key_keys (w : world) (self : agent_config) (name key : string)
    (v : pyval) (cur : dict) (st : agent_state) :
  subreddit_models st !! name = Some cur ->
  exists cur',
    subreddit_models (snd (update_key w self name key v st)) !! name
    = Some cur' /\ keys_kept cur cur'.
Proof.
  intros Hcur. unfold update_key.
  destruct (String.eqb key "topics").
  { rewrite (set_model_key_keys _ _ _ _ _ Hcur). eauto using keys_kept_set. }
  unfold try_except, bind, lift, get_model_key, logger, set_model_key,
    set_model.
  rewrite Hcur. simpl.
  destruct (to_float _ _) as [o | e]; simpl.
  - destruct (to_float _ v) as [n | e]; simpl.
    + rewrite Hcur. simpl. rewrite lookup_insert_eq.
      eauto using keys_kept_set.
    + destruct (is_ValueError e || is_TypeError e); simpl;
        rewrite ?Hcur; simpl; rewrite ?lookup_insert_eq;
        eauto using keys_kept_set, keys_kept_refl.
  - destruct (is_ValueError e || is_TypeError e); simpl;
      rewrite ?Hcur; simpl; rewrite ?lookup_insert_eq;
      eauto using keys_kept_set, keys_kept_refl.
Qed.

Lemma update_items_keys (w : world) (self : agent_config) (name : string)
    (items cur : dict) (st : agent_state) :
  subreddit_models st !! name = Some cur ->
  exists cur',
    subreddit_models (snd (update_items w self name items st)) !! name
    = Some cur' /\ keys_kept cur cur'.
Proof.
  revert cur st. induction items as [| [k v] items IH]; intros cur st Hcur.
  - exists cur. split; [exact Hcur | apply keys_kept_refl].
  - simpl. unfold bind.
    destruct (update_key_keys w self name k v cur st Hcur) as (c1 & H1 & K1).
    destruct (update_key w self name k v st) as [[[] | e] st1]; simpl in *.
    + destruct (IH c1 st1 H1) as (c2 & H2 & K2).
      exists c2. split; [exact H2 | eapply keys_kept_trans; eassumption].
    + exists c1. auto.
Qed.

(** X9. [update_model] never forgets a signal: whatever the observations
    and whether the call returns or raises, the community keeps a model
    afterwards and every key of its old model is still there. *)
Theorem update_model_keeps_keys (w : world) (self : agent_config)
    (name : string) (obs old : dict) (st : agent_state) :
  subreddit_models st !! name = Some old ->
  exists updated,
    subreddit_models (snd (update_model w self name obs st)) !! name
    = Some updated /\
    keys_kept old updated.
Proof.
  intros Hold. unfold update_model. rewrite Hold.
  apply update_items_keys, Hold.
Qed.

Lemma update_model_keeps_keys_witness :
  let st := with_model initial_state "x" [("mood", VStr "calm")] [] in
  exists updated,
    subreddit_models
      (snd (update_model quiet_world default_config "x"
              [("avg_engagement", VFloat 1)] st)) !! "x" = Some updated /\
    dict_get updated "mood" <> None.
Proof.
  intros st.
  destruct (update_model_keeps_keys quiet_world default_config "x"
              [("avg_engagement", VFloat 1)] [("mood", VStr "calm")] st)
    as (updated & Hm & Hk).
  - reflexivity.
  - exists updated. split; [exact Hm |]. apply Hk. discriminate.
Defined.

(** ** The engagement rate over time, and the gate under the default weights *)

Lemma py_max_monotone (a b b' : Q) : b <= b' -> py_max a b <= py_max a b'.
Proof.
  intros H.
  destruct (py_max_spec a b) as [[H1 ->] | [H1 ->]];
    destruct (py_max_spec a b') as [[H2 ->] | [H2 ->]]; lra.
Qed.

Lemma py_min_monotone (a b b' : Q) : b <= b' -> py_min a b <= py_min a b'.
Proof.
  intros H.
  destruct (py_min_spec a b) as [[H1 ->] | [H1 ->]];
    destruct (py_min_spec a b') as [[H2 ->] | [H2 ->]]; lra.
Qed.

Lemma Qdiv_antitone (a d d' : Q) :
  0 <= a -> 0 < d -> d <= d' -> a / d' <= a / d.
Proof.
  intros Ha Hd Hdd.
  assert (Hd' : 0 < d') by lra.
  apply Qle_shift_div_l; [exact Hd |].
  assert (Hq : 0 <= a / d') by (apply Qle_shift_div_l; lra).
  assert (E : a / d' * d' == a) by (field; lra).
  assert (Hm : a / d' * d <= a / d' * d').
  { rewrite !(Qmult_comm (a / d')). apply Qmult_le_compat_r; assumption. }
  lra.
Qed.

Lemma engagement_formula_decays (t1 t2 : Q) (s : submission) (n : Z) :
  (0 <= score s + n)%Z -> t1 <= t2 ->
  engagement_formula t2 s n <= engagement_formula t1 s n.
Proof.
  intros Hn Ht. unfold engagement_formula.
  apply py_min_monotone.
  assert (Ha : 0 <= inject_Z (score s + n)).
  { change 0 with (inject_Z 0). rewrite <- Zle_Qle. exact Hn. }
  pose proof (py_max_ge_l 1 ((t1 - created_utc s) / 3600)) as H1.
  assert (Hm : py_max 1 ((t1 - created_utc s) / 3600)
               <= py_max 1 ((t2 - created_utc s) / 3600)).
  { apply py_max_monotone. unfold Qdiv.
    apply Qmult_le_compat_r; [lra | discriminate]. }
  apply Qdiv_antitone; [exact Ha | lra | lra].
Qed.

Lemma calculate_engagement_rate_value (t : Q) (s : submission) (r : Q) :
  calculate_engagement_rate t s = Ok r ->
  r = engagement_formula t s (Spec.comment_count s).
Proof.
  unfold calculate_engagement_rate, comment_count, Spec.comment_count.
  destruct (comments s) as [[n | e] |]; simpl; try congruence.
  destruct (is_Exception e) eqn:E; simpl; rewrite ?E; congruence.
Qed.

Lemma calculate_engagement_rate_raises (t : Q) (s : submission) (e : exn) :
  calculate_engagement_rate t s = Raise e -> is_Exception e = false.
Proof.
  unfold calculate_engagement_rate, comment_count.
  destruct (comments s) as [[n | e'] |]; simpl; try discriminate.
  destruct (is_Exception e') eqn:E; simpl; [discriminate |].
  rewrite E. intros H. injection H as <-. exact E.
Qed.

(** X10. The engagement rate of a submission decays with its age: for a
    score and a comment count that do not sum below 0, a later clock
    reading never gives a higher rate. *)
Theorem engagement_rate_decays_with_age (t1 t2 : Q) (s : submission)
    (r1 r2 : Q) :
  (0 <= score s + Spec.comment_count s)%Z ->
  t1 <= t2 ->
  calculate_engagement_rate t1 s = Ok r1 ->
  calculate_engagement_rate t2 s = Ok r2 ->
  r2 <= r1.
Proof.
  intros Hn Ht H1 H2.
  apply calculate_engagement_rate_value in H1, H2. subst.
  apply engagement_formula_decays; assumption.
Qed.

Lemma engagement_rate_decays_with_age_witness :
  exists r1 r2,
    calculate_engagement_rate 3600 (sample_submission "a1" 50 0) = Ok r1 /\
    calculate_engagement_rate 7200 (sample_submission "a1" 50 0) = Ok r2 /\
    r1 == 0.5 /\ r2 == 0.25 /\ r2 <= r1.
Proof.
  eexists. eexists. split; [reflexivity |]. split; [reflexivity |].
  split; [reflexivity |]. split; [reflexivity |].
  eapply (engagement_rate_decays_with_age 3600 7200
            (sample_submission "a1" 50 0));
    [vm_compute; discriminate | vm_compute; discriminate
    | reflexivity | reflexivity].
Defined.


Section GateClosed.

Variable w : world.
Variable self : agent_config.
Variable name : string.

Hypothesis engagement_weight :
  0 <= w_engagement (weights self).
Hypothesis placeholder_share :
  w_engagement (weights self) +
  0.5 * (w_sentiment (weights self) + w_relevance (weights self) +
         w_novelty (weights self)) <= 0.7.




End GateClosed.



(** ** Processing a listing again *)

Lemma has_row_grows (name sid : string) (st st' : agent_state) :
  grows_for name st st' ->
  has_row sid (submissions st) = true -> has_row sid (submissions st') = true.
Proof.
  intros ([rows ->] & _) H. rewrite has_row_app, H. reflexivity.
Qed.

Lemma all_stored_grows (name : string) (l : list submission)
    (st st' : agent_state) :
  grows_for name st st' -> all_stored l st -> all_stored l st'.
Proof.
  intros Hg H. eapply List.Forall_impl; [| exact H].
  intros s. apply (has_row_grows name), Hg.
Qed.

Lemma process_submission_grows (w : world) (self : agent_config)
    (name : string) (s : submission) (st : agent_state) :
  grows_for name st (snd (process_submission w self name s st)).
Proof.
  apply (process_submission_preserves w self name (grows_for name)
           (fun _ => True)).
  - apply grows_for_refl.
  - apply grows_for_trans.
  - apply connect_grows.
  - apply logger_grows.
  - apply insert_submission_grows.
  - intros community ty data c _. apply store_pattern_grows.
  - apply set_model_grows.
  - trivial.
Qed.

(** A submission that has its row is skipped, at the cost of one
    connection. *)
Lemma process_submission_seen (w : world) (self : agent_config)
    (name : string) (s : submission) (st : agent_state) :
  db_fault w (db_ops st) = None ->
  has_row (sub_id s) (submissions st) = true ->
  process_submission w self name s st = (Ok None, connected st).
Proof.
  intros Hf Hrow. unfold process_submission, is_submission_processed.
  unfold bind, connect. rewrite Hf. simpl. rewrite Hrow. reflexivity.
Qed.

(** With a storage that answers, a submission has its row once its
    processing has returned or raised an [Exception]. *)
Lemma process_submission_stores (w : world) (self : agent_config)
    (name : string) (s : submission) (st : agent_state) :
  storage_up w ->
  let r := process_submission w self name s st in
  (forall e, fst r = Raise e -> is_Exception e = true) ->
  has_row (sub_id s) (submissions (snd r)) = true.
Proof.
  intros Hup. cbv zeta.
  destruct (has_row (sub_id s) (submissions st)) eqn:Hrow.
  { intros _. rewrite (process_submission_seen w self name s st (Hup _) Hrow).
    exact Hrow. }
  assert (Hq : is_submission_processed w (sub_id s) st
               = (Ok false, connected st)).
  { unfold is_submission_processed, bind, connect.
    rewrite Hup. simpl. rewrite Hrow. reflexivity. }
  destruct (process_submission w self name s st) as [res st'] eqn:H.
  cbn [fst snd]. intros Hres.
  unfold process_submission in H. unfold bind at 1 in H. rewrite Hq in H.
  unfold bind at 1 in H. unfold lift at 1 in H.
  destruct (calculate_engagement_rate (utcnow w) s) as [eng | e] eqn:Eeng.
  2:{ injection H as <- <-. specialize (Hres e eq_refl).
      apply calculate_engagement_rate_raises in Eeng. congruence. }
  unfold bind at 1 in H. unfold lift at 1 in H. simpl res_bind in H.
  cbv iota beta in H. unfold bind at 1 in H.
  match type of H with
  | context [store_submission w s ?a ?u ?st1] =>
      pose proof (store_submission_has_row w s a u st1 (sub_id s)) as Hst;
      assert (Hok : fst (store_submission w s a u st1) = Ok tt)
  end.
  { unfold store_submission, insert_submission. unfold_monad.
    rewrite Hup. simpl. rewrite Hrow. reflexivity. }
  cbv zeta in Hst.
  match type of H with
  | context [store_submission w s ?a ?u ?st1] =>
      destruct (store_submission w s a u st1) as [[[] | e] st2]
  end; cbn [fst snd] in Hst, Hok; [| discriminate Hok].
  rewrite String.eqb_refl, orb_true_r in Hst.
  match type of H with
  | ?m st2 = _ => assert (Hg : grows_for name st2 (snd (m st2)))
  end.
  { apply (preserves_bind (grows_for name) (grows_for_trans name)).
    - apply (update_model_preserves w self name (grows_for name)).
      + apply grows_for_refl.
      + apply grows_for_trans.
      + intros entry st0. apply grows_for_same; reflexivity.
      + apply set_model_grows.
    - intros _.
      apply (preserves_bind (grows_for name) (grows_for_trans name)).
      + match goal with
        | |- preserves _ (if Qgt_bool ?u 0.7 then _ else _) =>
            destruct (Qgt_bool u 0.7) eqn:Hgt
        end.
        * apply (learn_from_submission_preserves w (grows_for name)
                   (fun _ => True) (grows_for_refl name)
                   (grows_for_trans name)).
          -- intros community ty data c _. apply store_pattern_grows.
          -- trivial.
          -- apply Qgt_bool_true, Hgt.
        * apply (preserves_ret _ (grows_for_refl name)).
      + intros _. apply (preserves_ret _ (grows_for_refl name)). }
  rewrite H in Hg. cbn [snd] in Hg.
  apply (has_row_grows name _ _ _ Hg), Hst.
Qed.

Lemma process_listing_grows (w : world) (self : agent_config)
    (name : string) (l : listing) (acc : list processed_entry)
    (st : agent_state) :
  grows_for name st (snd (process_listing w self name l acc st)).
Proof.
  apply (process_listing_preserves w self name (grows_for name)
           (fun _ => True)).
  - apply grows_for_refl.
  - apply grows_for_trans.
  - apply connect_grows.
  - apply logger_grows.
  - apply insert_submission_grows.
  - intros community ty data c _. apply store_pattern_grows.
  - apply set_model_grows.
  - trivial.
Qed.

(** A walk that does not end in a fatal exception leaves a row for every
    submission of the listing. *)
Lemma process_listing_walk (w : world) (self : agent_config) (name : string)
    (l : listing) (acc : list processed_entry) (st : agent_state) :
  storage_up w ->
  let r := process_listing w self name l acc st in
  (forall e, fst r = Raise e -> is_Exception e = true) ->
  all_stored (yielded l) (snd r) /\
  (forall e, ending l = Some e -> is_Exception e = true).
Proof.
  intros Hup. cbv zeta. revert acc st.
  induction l as [| s rest IH | e0]; intros acc st Hr.
  - split; [constructor | discriminate].
  - pose proof (process_submission_stores w self name s st Hup) as Hs.
    cbv zeta in Hs.
    destruct (process_submission w self name s st) as [[r0 | e] st1] eqn:E;
      cbn [fst snd] in Hs.
    + rewrite (process_listing_yield_ok _ _ _ _ _ _ _ _ _ E) in Hr |- *.
      destruct (IH _ st1 Hr) as [Hall Hend]. split; [| exact Hend].
      constructor; [| exact Hall].
      apply (has_row_grows name _ _ _ (process_listing_grows _ _ _ _ _ _)).
      apply Hs. discriminate.
    + destruct (is_Exception e) eqn:He.
      * rewrite (process_listing_yield_caught _ _ _ _ _ _ _ _ _ E He)
          in Hr |- *.
        destruct (IH _ _ Hr) as [Hall Hend]. split; [| exact Hend].
        constructor; [| exact Hall].
        apply (has_row_grows name _ _ _ (process_listing_grows _ _ _ _ _ _)).
        simpl. apply Hs. intros e' H'. injection H' as <-. exact He.
      * rewrite (process_listing_yield_fatal _ _ _ _ _ _ _ _ _ E He) in Hr.
        specialize (Hr e eq_refl). congruence.
  - split; [constructor |].
    intros e H. injection H as <-. apply Hr. reflexivity.
Qed.

(** A listing whose submissions all have their row is walked without a
    write. *)
Lemma process_listing_skips (w : world) (self : agent_config) (name : string)
    (l : listing) (acc : list processed_entry) (st : agent_state) :
  storage_up w ->
  all_stored (yielded l) st ->
  let r := process_listing w self name l acc st in
  same_tables st (snd r) /\
  subreddit_models (snd r) = subreddit_models st /\
  log (snd r) = log st /\
  fst r = match ending l with
          | None => Ok acc
          | Some e => Raise e
          end.
Proof.
  intros Hup. cbv zeta. revert st.
  induction l as [| s rest IH | e0]; intros st Hall.
  - repeat split.
  - inversion Hall as [| ? ? Hs Hrest]; subst.
    pose proof (process_submission_seen w self name s st (Hup _) Hs) as E.
    rewrite (process_listing_yield_ok _ _ _ _ _ _ _ _ _ E).
    destruct (IH (connected st)) as ((S & P & Q) & M & L & F).
    + exact Hrest.
    + repeat split; assumption.
  - repeat split.
Qed.

Lemma process_subreddit_unfold (w : world) (self : agent_config)
    (name : string) (limit : Z) (st : agent_state) :
  process_subreddit w self name limit st =
  match subreddit_type w name with
  | Raise e =>
      if is_Exception e then subreddit_handler name e st else (Raise e, st)
  | Ok ty =>
      if String.eqb ty "private"
      then (Ok [], add_log st [LogPrivate name])
      else
        match process_listing w self name (new_listing w name limit) [] st with
        | (Ok v, st1) => (Ok v, st1)
        | (Raise e, st1) =>
            if is_Exception e then subreddit_handler name e st1
            else (Raise e, st1)
        end
  end.
Proof.
  unfold process_subreddit, try_except. unfold bind at 1. unfold lift.
  destruct (subreddit_type w name) as [ty | e]; [| reflexivity].
  destruct (String.eqb ty "private"); reflexivity.
Qed.

Lemma subreddit_handler_result (name : string) (e : exn) (st : agent_state) :
  fst (subreddit_handler name e st) = Ok [] /\
  same_tables st (snd (subreddit_handler name e st)) /\
  subreddit_models (snd (subreddit_handler name e st)) = subreddit_models st.
Proof. destruct e; repeat split. Qed.

(** X12. Processing is idempotent on a listing: with a storage that
    answers, once [process_subreddit] has returned for a community, a
    second call on the same listing stores nothing and changes no model,
    and returns the empty list. *)
Theorem reprocessing_adds_nothing (w : world) (self : agent_config)
    (name : string) (limit : Z) (st : agent_state) :
  storage_up w ->
  let r1 := process_subreddit w self name limit st in
  (exists entries, fst r1 = Ok entries) ->
  let r2 := process_subreddit w self name limit (snd r1) in
  fst r2 = Ok [] /\
  same_tables (snd r1) (snd r2) /\
  subreddit_models (snd r2) = subreddit_models (snd r1).
Proof.
  intros Hup. cbv zeta. intros [entries Hret].
  assert (Hskip : forall st1,
            all_stored (yielded (new_listing w name limit)) st1 ->
            (forall e, ending (new_listing w name limit) = Some e ->
                       is_Exception e = true) ->
            subreddit_type w name <> Ok "private" ->
            (exists ty, subreddit_type w name = Ok ty) ->
            let r2 := process_subreddit w self name limit st1 in
            fst r2 = Ok [] /\ same_tables st1 (snd r2) /\
            subreddit_models (snd r2) = subreddit_models st1).
  { intros st1 Hall Hend Hpub [ty Hty]. cbv zeta.
    rewrite process_subreddit_unfold, Hty.
    destruct (String.eqb_spec ty "private"); [congruence |].
    destruct (process_listing_skips w self name _ [] st1 Hup Hall)
      as (T & M & _ & F).
    destruct (process_listing w self name (new_listing w name limit) [] st1)
      as [res2 st2]; cbn [fst snd] in *.
    destruct (ending (new_listing w name limit)) as [e |]; subst res2.
    - rewrite (Hend e eq_refl).
      destruct (subreddit_handler_result name e st2) as (H1 & H2 & H3).
      split; [exact H1 |]. split.
      + eapply same_tables_trans; eassumption.
      + congruence.
    - auto. }
  destruct (process_subreddit w self name limit st) as [res1 stA] eqn:E1.
  cbn [fst snd] in *. subst res1.
  rewrite process_subreddit_unfold in E1.
  destruct (subreddit_type w name) as [ty | e] eqn:Hty.
  - destruct (String.eqb_spec ty "private") as [-> | Hne].
    { injection E1 as _ <-. rewrite process_subreddit_unfold, Hty.
      repeat split. }
    pose proof (process_listing_walk w self name (new_listing w name limit)
                  [] st Hup) as Hwalk.
    cbv zeta in Hwalk.
    destruct (process_listing w self name (new_listing w name limit) [] st)
      as [[v | e] st1]; cbn [fst snd] in *.
    + injection E1 as _ <-.
      destruct Hwalk as [Hall Hend]; [discriminate |].
      apply Hskip; eauto. congruence.
    + destruct (is_Exception e) eqn:He; [| discriminate E1].
      destruct Hwalk as [Hall Hend].
      { intros e' H. injection H as <-. exact He. }
      apply Hskip; eauto; [| congruence].
      assert (EA : stA = snd (subreddit_handler name e st1))
        by (rewrite E1; reflexivity).
      rewrite EA. destruct e; exact Hall.
  - destruct (is_Exception e) eqn:He; [| discriminate E1].
    rewrite process_subreddit_unfold, Hty, He.
    apply subreddit_handler_result.
Qed.

Lemma reprocessing_adds_nothing_witness :
  let w := sample_world (Yield (sample_submission "a1" 200 3600) Done)
             no_fault in
  let st1 := snd (process_subreddit w keen_config "x" 10 initial_state) in
  length (submissions st1) = 1%nat /\
  fst (process_subreddit w keen_config "x" 10 st1) = Ok [] /\
  same_tables st1 (snd (process_subreddit w keen_config "x" 10 st1)).
Proof.
  intros w st1. split; [reflexivity |].
  destruct (reprocessing_adds_nothing w keen_config "x" 10 initial_state)
    as (H1 & H2 & _).
  - intros n. reflexivity.
  - eexists. vm_compute. reflexivity.
  - split; assumption.
Defined.

(** ** What the returned list says *)

Lemma has_row_grows_false (name sid : string) (st st' : agent_state) :
  grows_for name st st' ->
  has_row sid (submissions st') = false -> has_row sid (submissions st) = false.
Proof.
  intros Hg H. destruct (has_row sid (submissions st)) eqn:E; [| reflexivity].
  rewrite (has_row_grows name sid st st' Hg E) in H. discriminate H.
Qed.

Lemma process_listing_entries (w : world) (self : agent_config)
    (name : string) (l : listing) (acc : list processed_entry)
    (st : agent_state) (entries : list processed_entry) :
  (forall e, In e acc -> has_row (pe_id e) (submissions st) = true) ->
  List.NoDup (map pe_id acc) ->
  let r := process_listing w self name l acc st in
  fst r = Ok entries ->
  List.NoDup (map pe_id entries) /\
  (forall e, In e entries -> has_row (pe_id e) (submissions (snd r)) = true) /\
  exists fresh,
    entries = (acc ++ fresh)%list /\
    forall e, In e fresh -> has_row (pe_id e) (submissions st) = false.
Proof.
  cbv zeta. revert acc st.
  induction l as [| s rest IH | e0]; intros acc st Hacc Hnd Hr.
  - simpl in Hr. injection Hr as <-. split; [exact Hnd |].
    split; [exact Hacc |]. exists []. rewrite app_nil_r.
    split; [reflexivity | intros e []].
  - pose proof (process_submission_effects w self name s st) as Hs.
    pose proof (process_submission_grows w self name s st) as Hg.
    cbv zeta in Hs.
    destruct (process_submission w self name s st) as [[[entry |] | e] st1]
      eqn:E; cbn [fst snd] in Hs, Hg.
    + rewrite (process_listing_yield_ok _ _ _ _ _ _ _ _ _ E) in Hr |- *.
      destruct Hs as (Hid & _ & _ & _ & _ & _ & _ & Hnew &
                      (row & Hsub & Hrid & _) & _).
      destruct (IH (acc ++ [entry])%list st1) as (N & A & fresh & -> & F).
      * intros e He. apply in_app_or in He as [He | [<- | []]].
        -- apply (has_row_grows name _ _ _ Hg), Hacc, He.
        -- rewrite Hsub, has_row_app, Hid. simpl.
           rewrite Hrid, String.eqb_refl, orb_true_r. reflexivity.
      * rewrite map_app. simpl.
        apply (Permutation.Permutation_NoDup
                 (l := pe_id entry :: map pe_id acc)).
        { apply Permutation_cons_append. }
        constructor; [| exact Hnd].
        intros Hin. apply in_map_iff in Hin as (e & Heq & He).
        specialize (Hacc e He). rewrite Heq, Hid in Hacc. congruence.
      * exact Hr.
      * split; [exact N |]. split; [exact A |].
        exists (entry :: fresh). rewrite <- app_assoc.
        split; [reflexivity |].
        intros e [<- | He]; [rewrite Hid; exact Hnew |].
        apply (has_row_grows_false name _ _ _ Hg), F, He.
    + rewrite (process_listing_yield_ok _ _ _ _ _ _ _ _ _ E) in Hr |- *.
      destruct (IH acc st1) as (N & A & fresh & -> & F).
      * intros e He. apply (has_row_grows name _ _ _ Hg), Hacc, He.
      * exact Hnd.
      * exact Hr.
      * split; [exact N |]. split; [exact A |].
        exists fresh. split; [reflexivity |].
        intros e He. apply (has_row_grows_false name _ _ _ Hg), F, He.
    + destruct (is_Exception e) eqn:He.
      * rewrite (process_listing_yield_caught _ _ _ _ _ _ _ _ _ E He)
          in Hr |- *.
        destruct (IH acc (add_log st1 [LogSubmissionError (sub_id s) e]))
          as (N & A & fresh & -> & F).
        -- intros e' He'. simpl.
           apply (has_row_grows name _ _ _ Hg), Hacc, He'.
        -- exact Hnd.
        -- exact Hr.
        -- split; [exact N |]. split; [exact A |].
           exists fresh. split; [reflexivity |].
           intros e' He'. apply (has_row_grows_false name _ _ _ Hg).
           apply (F e' He').
      * rewrite (process_listing_yield_fatal _ _ _ _ _ _ _ _ _ E He) in Hr.
        discriminate Hr.
  - discriminate Hr.
Qed.

(** X13. The list that [process_subreddit] returns names each submission
    at most once; every submission in it was not in the table before the
    call and is in the table after it. *)
Theorem returned_entries_are_new_and_stored (w : world)
    (self : agent_config) (name : string) (limit : Z) (st : agent_state)
    (entries : list processed_entry) :
  let r := process_subreddit w self name limit st in
  fst r = Ok entries ->
  List.NoDup (map pe_id entries) /\
  forall e,
    In e entries ->
    has_row (pe_id e) (submissions st) = false /\
    has_row (pe_id e) (submissions (snd r)) = true.
Proof.
  cbv zeta. rewrite process_subreddit_unfold.
  assert (Hnil : forall r0 : res (list processed_entry) * agent_state,
            fst r0 = Ok [] -> fst r0 = Ok entries ->
            List.NoDup (map pe_id entries) /\
            forall e, In e entries ->
              has_row (pe_id e) (submissions st) = false /\
              has_row (pe_id e) (submissions (snd r0)) = true).
  { intros r0 H0 H1. rewrite H0 in H1. injection H1 as <-.
    split; [constructor | intros e []]. }
  destruct (subreddit_type w name) as [ty | e].
  - destruct (String.eqb ty "private"); [apply Hnil; reflexivity |].
    pose proof (process_listing_entries w self name
                  (new_listing w name limit) [] st) as H.
    cbv zeta in H.
    destruct (process_listing w self name (new_listing w name limit) [] st)
      as [[v | e] st1]; cbn [fst snd] in *.
    + intros Hv. injection Hv as ->.
      destruct (H entries) as (N & A & fresh & -> & F);
        [intros e [] | constructor | reflexivity |].
      split; [exact N |]. intros e He. split; [apply F, He | apply A, He].
    + destruct (is_Exception e); [| discriminate].
      apply Hnil. apply subreddit_handler_result.
  - destruct (is_Exception e); [| discriminate].
    apply Hnil. apply subreddit_handler_result.
Qed.

Lemma returned_entries_are_new_and_stored_witness :
  let r := process_subreddit (sample_world repeated_listing no_fault)
             default_config "x" 10 initial_state in
  exists entries,
    fst r = Ok entries /\ map pe_id entries = ["a1"] /\
    List.NoDup (map pe_id entries).
Proof.
  intros r. eexists. split; [vm_compute; reflexivity |].
  split; [reflexivity |].
  eapply (returned_entries_are_new_and_stored
            (sample_world repeated_listing no_fault) default_config "x" 10
            initial_state).
  vm_compute. reflexivity.
Defined.

(** ** llm.py *)

Section LLMAnalyzerProperties.

Import Llm LLMAnalyzer.

Lemma contained_wbind {A B} (m : W A) (k : A -> W B) :
  contained m -> (forall a, contained (k a)) -> contained (wbind m k).
Proof.
  unfold contained. destruct m as [[a | e] notes]; simpl; intros Hm Hk.
  - specialize (Hk a). destruct (k a) as [r notes']. exact Hk.
  - exact Hm.
Qed.

(** A handler for [Exception] that raises none leaves none. *)
Lemma contained_wtry {A} (m : W A) (h : raised -> W A) :
  (forall e, contained (h e)) -> contained (wtry m is_Exception' h).
Proof.
  unfold contained. destruct m as [[a | e] notes]; simpl; intros Hh.
  - exact I.
  - destruct (is_Exception' e) eqn:E.
    + specialize (Hh e). destruct (h e) as [r notes']. exact Hh.
    + simpl. exact E.
Qed.

Lemma contained_handler {A} (n : note) (a : A) :
  contained (wbind (wlog n) (fun _ => wret a)).
Proof. exact I. Qed.

(** What [_get_completion] gives for each outcome of the request. *)
Lemma get_completion_cases (o : oracle) (p : prompt) (t : Q) :
  _get_completion o p t =
  match create o p t with
  | Ok response => (inl response, [Debug_response response])
  | Raise e =>
      if is_Exception e
      then (inl (Some "{}"), [Error_completion (Py e)])
      else (inr (Py e), [])
  end.
Proof.
  unfold _get_completion. destruct (create o p t) as [response | e]; simpl.
  - reflexivity.
  - destruct (is_Exception e); reflexivity.
Qed.

(** The score read from an answer, and what is logged. *)
Lemma score_of_text (o : oracle) (n : raised -> note) (text : string)
    (notes : list note) :
  wtry (wbind (inl (Some text), notes) (float_of_answer o))
    catches_value_or_type
    (fun e => wbind (wlog (n e)) (fun _ => wret 0.5)) =
  match str_float o (str_strip o text) with
  | Some q => (inl q, notes)
  | None => (inl 0.5, (notes ++ [n (Py ValueError)])%list)
  end.
Proof.
  simpl. destruct (str_float o (str_strip o text)); simpl.
  - rewrite app_nil_r. reflexivity.
  - rewrite app_nil_r. reflexivity.
Qed.

(** The three scores, for each outcome of the request. *)
Lemma score_cases (o : oracle) (p : prompt) (n : raised -> note) :
  wtry (wbind (_get_completion o p 0.3) (float_of_answer o))
    catches_value_or_type
    (fun e => wbind (wlog (n e)) (fun _ => wret 0.5)) =
  match create o p 0.3 with
  | Ok (Some answer) =>
      match str_float o (str_strip o answer) with
      | Some q => (inl q, [Debug_response (Some answer)])
      | None =>
          (inl 0.5, [Debug_response (Some answer); n (Py ValueError)])
      end
  | Ok None => (inr AttributeError, [Debug_response None])
  | Raise e =>
      if is_Exception e
      then match str_float o (str_strip o "{}") with
           | Some q => (inl q, [Error_completion (Py e)])
           | None => (inl 0.5, [Error_completion (Py e); n (Py ValueError)])
           end
      else (inr (Py e), [])
  end.
Proof.
  rewrite get_completion_cases.
  destruct (create o p 0.3) as [[answer |] | e].
  - rewrite score_of_text. reflexivity.
  - reflexivity.
  - destruct (is_Exception e) eqn:E.
    + rewrite score_of_text. reflexivity.
    + destruct e; try discriminate E. reflexivity.
Qed.

Lemma score_contained (o : oracle) (p : prompt) (n : raised -> note) :
  contained
    (wtry (wbind (_get_completion o p 0.3) (float_of_answer o))
       catches_value_or_type
       (fun e => wbind (wlog (n e)) (fun _ => wret 0.5))) <->
  create o p 0.3 <> Ok None.
Proof.
  rewrite score_cases. unfold contained.
  destruct (create o p 0.3) as [[answer |] | e].
  - destruct (str_float o (str_strip o answer)); simpl;
      (split; [discriminate | trivial]).
  - simpl. split; [discriminate | intros H; exfalso; apply H; reflexivity].
  - destruct (is_Exception e) eqn:E.
    + destruct (str_float o (str_strip o "{}")); simpl;
        (split; [discriminate | trivial]).
    + simpl. split; [discriminate | intros _; exact E].
Qed.

(** X14. Five methods of [LLMAnalyzer] raise no exception of class
    [Exception], whatever the service, the parser and the conversions
    do.  Each of the three scores raises one in exactly one case: when
    the message of the service has no content ([None]), the call of
    [strip] fails with an [AttributeError] that [except (ValueError,
    TypeError)] lets through. *)
Theorem llm_methods_and_exceptions (o : oracle) :
  (forall text, contained (extract_topics o text)) /\
  (forall pattern model_data name,
     contained (generate_suggestion o pattern model_data name)) /\
  (forall description market,
     contained (is_relevant_subreddit o description market)) /\
  (forall text, contained (analyze_market_need o text)) /\
  (forall posts, contained (extract_market_insights o posts)) /\
  (forall text,
     contained (analyze_sentiment o text) <->
     create o (Prompt_sentiment text) 0.3 <> Ok None) /\
  (forall text name,
     contained (calculate_relevance o text name) <->
     create o (Prompt_relevance text name) 0.3 <> Ok None) /\
  (forall text name,
     contained (calculate_novelty o text name) <->
     create o (Prompt_novelty text name) 0.3 <> Ok None).
Proof.
  repeat apply conj; intros;
    try (apply contained_wtry; intros e; apply contained_handler).
  - exact (score_contained o _ (Error_score (Prompt_sentiment text))).
  - exact (score_contained o _ (Error_score (Prompt_relevance text name))).
  - exact (score_contained o _ (Error_score (Prompt_novelty text name))).
Qed.

(** X15. When the request fails with an exception of class [Exception],
    and the text of an empty object is no numeral, each of the three
    scores is 0.5: [_get_completion] answers the text of an empty object
    in place of the failure, and the score logs that it could not read
    it. *)
Theorem scores_are_half_when_the_request_fails (o : oracle) (e : exn)
    (text name : string) :
  (forall p, create o p 0.3 = Raise e) ->
  is_Exception e = true ->
  str_float o (str_strip o "{}") = None ->
  analyze_sentiment o text =
    (inl 0.5, [Error_completion (Py e);
               Error_score (Prompt_sentiment text) (Py ValueError)]) /\
  calculate_relevance o text name =
    (inl 0.5, [Error_completion (Py e);
               Error_score (Prompt_relevance text name) (Py ValueError)]) /\
  calculate_novelty o text name =
    (inl 0.5, [Error_completion (Py e);
               Error_score (Prompt_novelty text name) (Py ValueError)]).
Proof.
  intros Hfail He Hnum.
  unfold analyze_sentiment, calculate_relevance, calculate_novelty.
  rewrite (score_cases o _ (Error_score (Prompt_sentiment text))).
  rewrite (score_cases o _ (Error_score (Prompt_relevance text name))).
  rewrite (score_cases o _ (Error_score (Prompt_novelty text name))).
  rewrite !Hfail, He, Hnum. auto.
Qed.

Lemma scores_are_half_when_the_request_fails_witness :
  fst (analyze_sentiment silent_oracle "text") = inl 0.5 /\
  fst (calculate_relevance silent_oracle "text" "x") = inl 0.5 /\
  fst (calculate_novelty silent_oracle "text" "x") = inl 0.5.
Proof.
  destruct (scores_are_half_when_the_request_fails silent_oracle
              (RuntimeError "rate limit") "text" "x")
    as (H1 & H2 & H3);
    [reflexivity | reflexivity | vm_compute; reflexivity |].
  rewrite H1, H2, H3. auto.
Defined.

(** X16. The topics for each outcome of the request: the stripped fields
    of the answer between its commas; the single text of an empty object
    when the request fails with an exception of class [Exception], not
    the fallback; the fallback [general] only when the message has no
    content. *)
Theorem extract_topics_by_outcome (o : oracle) (text : string) :
  fst (extract_topics o text) =
  match create o (Prompt_topics text) 0.5 with
  | Ok (Some answer) => inl (map (str_strip o) (split "," answer))
  | Ok None => inl ["general"]
  | Raise e =>
      if is_Exception e then inl [str_strip o "{}"] else inr (Py e)
  end.
Proof.
  unfold extract_topics. rewrite get_completion_cases.
  destruct (create o (Prompt_topics text) 0.5) as [[answer |] | e].
  - reflexivity.
  - reflexivity.
  - destruct (is_Exception e) eqn:E.
    + reflexivity.
    + simpl. destruct e; try discriminate E. reflexivity.
Qed.

(** X17. When every request fails with an exception of class
    [Exception] and the text of an empty object parses to an empty
    object, the three methods that read an object answer as for an empty
    analysis: not relevant with the reason [No reason provided], no
    need, no insight.  The failure is in the log only. *)
Theorem failed_request_reads_as_empty_analysis (o : oracle) (e : exn)
    (description market text : string) (posts : list dict) :
  (forall p t, create o p t = Raise e) ->
  is_Exception e = true ->
  json_loads o "{}" = Ok (JObj []) ->
  is_relevant_subreddit o description market =
    (inl (JBool false, JFloat 0, Reason (JStr "No reason provided")),
     [Error_completion (Py e); Info_relevance (JObj [])]) /\
  analyze_market_need o text =
    (inl (JBool false, JFloat 0, JObj []),
     [Error_completion (Py e); Debug_market_need (JObj [])]) /\
  extract_market_insights o posts =
    (inl (JObj []), [Error_completion (Py e)]).
Proof.
  intros Hfail He Hloads.
  unfold is_relevant_subreddit, analyze_market_need, extract_market_insights.
  rewrite !get_completion_cases, !Hfail, He.
  unfold parse, safe_parse_json. simpl. rewrite Hloads. simpl. auto.
Qed.

Lemma failed_request_reads_as_empty_analysis_witness :
  fst (is_relevant_subreddit silent_oracle "systems programming"
         "developer tools") =
    inl (JBool false, JFloat 0, Reason (JStr "No reason provided")) /\
  fst (analyze_market_need silent_oracle "text") =
    inl (JBool false, JFloat 0, JObj []) /\
  fst (extract_market_insights silent_oracle []) = inl (JObj []).
Proof.
  destruct (failed_request_reads_as_empty_analysis silent_oracle
              (RuntimeError "rate limit") "systems programming"
              "developer tools" "text" [])
    as (H1 & H2 & H3);
    [reflexivity | reflexivity | vm_compute; reflexivity |].
  rewrite H1, H2, H3. auto.
Defined.

(** What [analyze_market_need] returns is read from an object. *)
Lemma analyze_market_need_reads_object (o : oracle) (text : string)
    (is_need confidence details : json) :
  fst (analyze_market_need o text) = inl (is_need, confidence, details) ->
  exists m,
    details = JObj m /\
    is_need = member_or m "is_need" (JBool false) /\
    confidence = member_or m "confidence" (JFloat 0).
Proof.
  unfold analyze_market_need.
  destruct (_get_completion o (Prompt_market_need text) 0.3)
    as [[response | e] notes]; simpl.
  - destruct (parse o response) as [[analysis | e] notes']; simpl.
    + destruct analysis as [| b | z | q | s | l | m]; simpl;
        intros H; injection H as <- <- <-;
        first [ exists m; repeat split; reflexivity
              | exists []; repeat split; reflexivity ].
    + destruct (is_Exception' e); simpl; [| discriminate].
      intros H; injection H as <- <- <-; exists []; auto.
  - destruct (is_Exception' e); simpl; [| discriminate].
    intros H; injection H as <- <- <-; exists []; auto.
Qed.

(** X18. Whatever the service answers, the third component that
    [analyze_market_need] returns is an object, and the first two are
    its entries [is_need] and [confidence], or [False] and 0.0 where it
    has none: an answer that is no object, or that cannot be read, gives
    the empty object. *)
Theorem analyze_market_need_returns_an_object (o : oracle) (text : string)
    (is_need confidence details : json) :
  fst (analyze_market_need o text) = inl (is_need, confidence, details) ->
  exists m,
    details = JObj m /\
    is_need = member_or m "is_need" (JBool false) /\
    confidence = member_or m "confidence" (JFloat 0).
Proof. apply analyze_market_need_reads_object. Qed.

Lemma analyze_market_need_returns_an_object_witness :
  exists m,
    fst (analyze_market_need sample_oracle "text") =
      inl (JBool true, JNum 1, JObj m) /\
    member_or m "problem" JNull = JStr "slow builds".
Proof.
  destruct (analyze_market_need_returns_an_object sample_oracle "text"
              (JBool true) (JNum 1)
              (JObj [("is_need", JBool true); ("confidence", JNum 1);
                     ("problem", JStr "slow builds")]))
    as (m & Hm & _); [vm_compute; reflexivity |].
  injection Hm as <-. eexists. split; vm_compute; reflexivity.
Defined.

(** X26. The fallback sentence of [generate_suggestion] is never the
    result of a failure: the method returns the content of the message,
    which may be [None], and the text of an empty object when the
    request fails with an exception of class [Exception]. *)
Theorem generate_suggestion_by_outcome (o : oracle)
    (pattern model_data : dict) (name : string) :
  fst (generate_suggestion o pattern model_data name) =
  match create o (Prompt_suggestion pattern model_data name) 0.7 with
  | Ok content => inl content
  | Raise e => if is_Exception e then inl (Some "{}") else inr (Py e)
  end.
Proof.
  unfold generate_suggestion. rewrite get_completion_cases.
  destruct (create o (Prompt_suggestion pattern model_data name) 0.7)
    as [content | e].
  - reflexivity.
  - destruct (is_Exception e) eqn:E.
    + reflexivity.
    + simpl. rewrite E. reflexivity.
Qed.

(** X27. An answer that is a document but no object (a list, a number,
    a string, a boolean or null) makes [is_relevant_subreddit] answer
    not relevant with confidence 0.0, the reason being the text of the
    [AttributeError] of the call of [get], and makes
    [analyze_market_need] answer no need with the empty object. *)
Theorem answer_that_is_no_object (o : oracle)
    (description market text answer : string) (v : json) :
  (forall p t, create o p t = Ok (Some answer)) ->
  json_loads o answer = Ok v ->
  (forall m, v <> JObj m) ->
  is_relevant_subreddit o description market =
    (inl (JBool false, JFloat 0, Reason_of AttributeError),
     [Debug_response (Some answer); Info_relevance v;
      Error_subreddit_relevance AttributeError]) /\
  analyze_market_need o text =
    (inl (JBool false, JFloat 0, JObj []),
     [Debug_response (Some answer); Debug_market_need v;
      Error_market_need AttributeError]).
Proof.
  intros Hc Hloads Hv.
  unfold is_relevant_subreddit, analyze_market_need.
  rewrite !get_completion_cases, !Hc.
  unfold parse, safe_parse_json. simpl. rewrite Hloads. simpl.
  destruct v as [| b | z | q | s | l | m]; simpl; auto.
  exfalso. exact (Hv m eq_refl).
Qed.

Lemma answer_that_is_no_object_witness :
  fst (is_relevant_subreddit list_oracle "systems programming"
         "developer tools") =
    inl (JBool false, JFloat 0, Reason_of AttributeError) /\
  fst (analyze_market_need list_oracle "text") =
    inl (JBool false, JFloat 0, JObj []).
Proof.
  destruct (answer_that_is_no_object list_oracle "systems programming"
              "developer tools" "text" "[1]" (JArr [JNum 1]))
    as (H1 & H2);
    [reflexivity | vm_compute; reflexivity | discriminate |].
  rewrite H1, H2. auto.
Defined.

End LLMAnalyzerProperties.

(** ** main.py *)

Section MainProperties.

Import Llm LLMAnalyzer Main.

Lemma wbind_inl {A B} (m : W A) (k : A -> W B) (b : B) :
  fst (wbind m k) = inl b ->
  exists a, fst m = inl a /\ fst (k a) = inl b.
Proof.
  destruct m as [[a | e] notes]; simpl.
  - destruct (k a) as [r notes'] eqn:E. simpl. intros ->.
    exists a. rewrite E. auto.
  - discriminate.
Qed.

Lemma wlift_inl {A} (r : res A) (a : A) :
  fst (wlift r) = inl a -> r = Ok a.
Proof. destruct r; simpl; congruence. Qed.

(** What a [try] around [m] returns is what [m] returns, or what the
    handler returns. *)
Lemma wtry_inl {A} (m : W A) (catches : raised -> bool)
    (h : raised -> W A) (a : A) :
  fst (wtry m catches h) = inl a ->
  fst m = inl a \/ exists e, fst m = inr e /\ fst (h e) = inl a.
Proof.
  destruct m as [[a' | e] notes]; simpl.
  - auto.
  - destruct (catches e); simpl; [| discriminate].
    destruct (h e) as [r notes'] eqn:E. simpl. intros ->.
    right. exists e. rewrite E. auto.
Qed.

Lemma analyze_posts_unpinned (o : oracle) (l : post_listing) :
  forall acc,
    analyze_posts o (without_stickied l) acc = analyze_posts o l acc.
Proof.
  induction l as [| p rest IH | e]; intros acc; simpl; try reflexivity.
  destruct (po_stickied p) eqn:E; simpl; rewrite ?E.
  - apply IH.
  - destruct (analyze_post o p) as [[found | e] notes]; simpl;
      [rewrite IH |]; reflexivity.
Qed.

Lemma analyze_categories_unpinned (o : oracle) (rd : reddit)
    (name : string) (limit : Z) (categories : list string) :
  forall acc,
    analyze_categories o (unpinned rd) name limit categories acc =
    analyze_categories o rd name limit categories acc.
Proof.
  induction categories as [| c cs IH]; intros acc; simpl; [reflexivity |].
  rewrite analyze_posts_unpinned.
  destruct (analyze_posts o _ acc) as [[acc' | e] notes]; simpl;
    [rewrite IH |]; reflexivity.
Qed.

Lemma analyze_subreddit_unpinned (o : oracle) (rd : reddit)
    (name : string) (limit : Z) :
  analyze_subreddit o (unpinned rd) name limit =
  analyze_subreddit o rd name limit.
Proof.
  unfold analyze_subreddit.
  rewrite analyze_categories_unpinned. reflexivity.
Qed.

Lemma research_one_unpinned (o : oracle) (rd : reddit) (args : arguments)
    (s : subreddit_about) (acc : list insights * Z) :
  research_one o (unpinned rd) args s acc = research_one o rd args s acc.
Proof.
  unfold research_one, relevant_insights.
  rewrite analyze_subreddit_unpinned. reflexivity.
Qed.

Lemma research_unpinned (o : oracle) (rd : reddit) (args : arguments)
    (l : subreddit_listing) :
  forall acc,
    research o (unpinned rd) args l acc = research o rd args l acc.
Proof.
  induction l as [| s rest IH | e]; intros acc; simpl; try reflexivity.
  destruct (arg_limit args <=? Z.of_nat (length (fst acc)))%Z;
    [reflexivity |].
  rewrite research_one_unpinned.
  destruct (research_one o rd args s acc) as [acc' [[u | e] notes]];
    [rewrite IH |]; reflexivity.
Qed.

(** X19. Stickied posts have no effect on the analysis: a community
    whose listings hold stickied posts is analysed, counted and logged
    as the one whose listings hold the other posts only, and the summary
    of [main] is the same. *)
Theorem stickied_posts_have_no_effect (o : oracle) (rd : reddit) :
  (forall name limit,
     analyze_subreddit o (unpinned rd) name limit =
     analyze_subreddit o rd name limit) /\
  (forall args, main o (unpinned rd) args = main o rd args).
Proof.
  split; intros.
  - apply analyze_subreddit_unpinned.
  - unfold main. simpl. rewrite research_unpinned. reflexivity.
Qed.

(** A listing that fails lets the loop over it return nothing. *)
Lemma analyze_posts_broken (o : oracle) (l : post_listing) (e : exn) :
  posts_ending l = Some e ->
  forall acc r, fst (analyze_posts o l acc) <> inl r.
Proof.
  induction l as [| p rest IH | e']; simpl; intros He acc r;
    try discriminate.
  destruct (po_stickied p); [apply IH, He |].
  intros H. apply wbind_inl in H as (found & _ & H).
  exact (IH He _ _ H).
Qed.

Lemma analyze_categories_broken (o : oracle) (rd : reddit) (name : string)
    (limit : Z) (e : exn) (category : string) (categories : list string) :
  In category categories ->
  posts_ending
    (category_posts rd name category
       (limit / Z.of_nat (length ["hot"; "new"; "top"])))%Z = Some e ->
  forall acc r,
    fst (analyze_categories o rd name limit categories acc) <> inl r.
Proof.
  intros Hin He.
  induction categories as [| c cs IH]; [destruct Hin |].
  intros acc r H. cbn [analyze_categories] in H.
  apply wbind_inl in H as (u & _ & H).
  apply wbind_inl in H as (acc' & H1 & H).
  destruct Hin as [-> | Hin].
  - exact (analyze_posts_broken o _ e He _ _ H1).
  - exact (IH Hin _ _ H).
Qed.

(** X20. The analysis of a community is all or nothing: when the
    listing of one of its three categories fails, after any number of
    posts, [analyze_subreddit] returns no insight at all, and the needs
    found in the posts read before the failure are lost. *)
Theorem failed_listing_discards_the_community (o : oracle) (rd : reddit)
    (name category : string) (limit : Z) (e : exn) :
  In category ["hot"; "new"; "top"] ->
  posts_ending (category_posts rd name category (limit / 3)%Z) = Some e ->
  forall ins, fst (analyze_subreddit o rd name limit) <> inl (Some ins).
Proof.
  intros Hin He ins H.
  unfold analyze_subreddit in H.
  apply wtry_inl in H as [H | (e' & _ & H)]; [| discriminate].
  apply wbind_inl in H as (s & _ & H).
  apply wbind_inl in H as (acc & H & _).
  exact (analyze_categories_broken o rd name limit e category _ Hin He _ _ H).
Qed.

Lemma failed_listing_discards_the_community_witness :
  (exists ins,
     fst (analyze_subreddit sample_oracle (sample_reddit Posts_done)
            "rust" 30) = inl (Some ins) /\
     length (needs_found ins) = 1%nat) /\
  fst (analyze_subreddit sample_oracle
         (sample_reddit (Posts_broken Forbidden)) "rust" 30) = inl None.
Proof.
  split; [eexists; split; vm_compute; reflexivity |].
  pose proof (failed_listing_discards_the_community sample_oracle
                (sample_reddit (Posts_broken Forbidden)) "rust" "top" 30
                Forbidden) as H.
  destruct (fst (analyze_subreddit sample_oracle
                   (sample_reddit (Posts_broken Forbidden)) "rust" 30))
    as [[ins |] | e'] eqn:E.
  - exfalso. apply (H (or_intror (or_intror (or_introl eq_refl)))
                      eq_refl ins). reflexivity.
  - reflexivity.
  - vm_compute in E. discriminate E.
Defined.

Lemma members_get_absent (d : list (string * json)) (k : string) :
  ~ In k (map fst d) -> members_get d k = None.
Proof.
  induction d as [| [k' v'] d IH]; simpl; intros H; [reflexivity |].
  rewrite IH by tauto.
  destruct (String.eqb_spec k k') as [-> | _]; [| reflexivity].
  exfalso. apply H. left. reflexivity.
Qed.

Lemma members_set_keys (d : list (string * json)) (k : string) (v : json) :
  forall k', In k' (map fst (members_set d k v)) ->
             k' = k \/ In k' (map fst d).
Proof.
  induction d as [| [k1 v1] d IH]; simpl; intros k' H.
  - destruct H as [<- | []]. left. reflexivity.
  - destruct (String.eqb_spec k k1) as [-> | _]; simpl in H.
    + right. exact H.
    + destruct H as [<- | H]; [right; left; reflexivity |].
      destruct (IH _ H); auto.
Qed.

Lemma members_set_nodup (d : list (string * json)) (k : string) (v : json) :
  List.NoDup (map fst d) -> List.NoDup (map fst (members_set d k v)).
Proof.
  induction d as [| [k1 v1] d IH]; simpl; intros H.
  - constructor; [intros [] | constructor].
  - inversion H as [| ? ? Hnot Hd]; subst.
    destruct (String.eqb_spec k k1) as [-> | Hne]; simpl.
    + constructor; assumption.
    + constructor; [| apply IH, Hd].
      intros Hin. apply members_set_keys in Hin as [-> | Hin];
        [apply Hne; reflexivity | apply Hnot, Hin].
Qed.

(** Reading an object after one assignment. *)
Lemma members_get_set (d : list (string * json)) (k k' : string) (v : json) :
  List.NoDup (map fst d) ->
  members_get (members_set d k v) k' =
  if String.eqb k' k then Some v else members_get d k'.
Proof.
  induction d as [| [k1 v1] d IH]; simpl; intros H.
  - reflexivity.
  - inversion H as [| ? ? Hnot Hd]; subst.
    destruct (String.eqb_spec k k1) as [-> | Hne]; simpl.
    + destruct (String.eqb_spec k' k1) as [-> | Hne'].
      * rewrite members_get_absent by exact Hnot. reflexivity.
      * reflexivity.
    + rewrite (IH Hd).
      destruct (String.eqb_spec k' k) as [-> | Hne'].
      * reflexivity.
      * reflexivity.
Qed.

(** Reading [{**base, **m}]: the entry of [m], or else that of
    [base]. *)
Lemma members_get_merge (m : list (string * json)) :
  forall base k,
    List.NoDup (map fst base) ->
    members_get
      (fold_left (fun d item => members_set d (fst item) (snd item)) m base)
      k =
    match members_get m k with
    | Some v => Some v
    | None => members_get base k
    end.
Proof.
  induction m as [| [k1 v1] m IH]; intros base k H; simpl; [reflexivity |].
  rewrite IH by (apply members_set_nodup, H).
  destruct (members_get m k); [reflexivity |].
  rewrite members_get_set by exact H.
  destruct (String.eqb k k1); reflexivity.
Qed.

(** A need is recorded for a post only with a true entry [is_need] and
    an entry [confidence] above 0.6. *)
Lemma analyze_post_confident (o : oracle) (p : post)
    (info : list (string * json)) :
  fst (analyze_post o p) = inl (Some info) -> confident_need info.
Proof.
  unfold analyze_post. intros H.
  apply wbind_inl in H as (comments & _ & H).
  apply wbind_inl in H as ([[is_need confidence] details] & Hneed & H).
  apply analyze_market_need_reads_object in Hneed as (m & -> & Hn & Hc).
  apply wbind_inl in H as (found & Hfound & H).
  apply wlift_inl in Hfound.
  destruct found; [| discriminate H].
  apply wbind_inl in H as (info' & Hinfo & H).
  apply wlift_inl in Hinfo. simpl in H. injection H as <-.
  unfold need_info in Hinfo. injection Hinfo as <-.
  unfold need_and_above in Hfound.
  destruct (json_truthy is_need) eqn:Ht; [| discriminate Hfound].
  assert (Hbase : List.NoDup (map fst
            [("url", JStr ("https://reddit.com" ++ po_permalink p));
             ("title", JStr (po_title p)); ("score", JNum (po_score p));
             ("confidence", confidence)])).
  { simpl. repeat constructor; simpl; intros H;
      repeat (destruct H as [H | H]; [discriminate H |]); exact H. }
  exists is_need, confidence. repeat split.
  - rewrite members_get_merge by exact Hbase.
    unfold member_or in Hn.
    destruct (members_get m "is_need") as [v |]; [congruence |].
    subst is_need. discriminate Ht.
  - exact Ht.
  - rewrite members_get_merge by exact Hbase.
    unfold member_or in Hc.
    destruct (members_get m "confidence") as [v |]; [congruence |].
    reflexivity.
  - exact Hfound.
Qed.

Lemma analyze_posts_confident (o : oracle) (l : post_listing) :
  forall acc r,
    Forall confident_need (fst acc) ->
    fst (analyze_posts o l acc) = inl r ->
    Forall confident_need (fst r).
Proof.
  induction l as [| p rest IH | e]; simpl; intros acc r Hacc H.
  - injection H as <-. exact Hacc.
  - destruct (po_stickied p); [exact (IH _ _ Hacc H) |].
    apply wbind_inl in H as (found & Hfound & H).
    apply (IH _ _) in H; [exact H |]. simpl.
    destruct found as [info |]; [| exact Hacc].
    apply List.Forall_app. split; [exact Hacc |].
    constructor; [| constructor].
    exact (analyze_post_confident o p info Hfound).
  - discriminate H.
Qed.

Lemma analyze_categories_confident (o : oracle) (rd : reddit)
    (name : string) (limit : Z) (categories : list string) :
  forall acc r,
    Forall confident_need (fst acc) ->
    fst (analyze_categories o rd name limit categories acc) = inl r ->
    Forall confident_need (fst r).
Proof.
  induction categories as [| c cs IH]; intros acc r Hacc H.
  - injection H as <-. exact Hacc.
  - cbn [analyze_categories] in H.
    apply wbind_inl in H as (u & _ & H).
    apply wbind_inl in H as (acc' & H1 & H).
    exact (IH _ _ (analyze_posts_confident o _ _ _ Hacc H1) H).
Qed.

Lemma analyze_subreddit_confident (o : oracle) (rd : reddit)
    (name : string) (limit : Z) (ins : insights) :
  fst (analyze_subreddit o rd name limit) = inl (Some ins) ->
  Forall confident_need (needs_found ins).
Proof.
  intros H. unfold analyze_subreddit in H.
  apply wtry_inl in H as [H | (e' & _ & H)]; [| discriminate].
  apply wbind_inl in H as (s & _ & H).
  apply wbind_inl in H as (acc & Hacc & H).
  apply wbind_inl in H as (u & _ & H).
  simpl in H. injection H as <-. simpl.
  eapply analyze_categories_confident; [| exact Hacc]. constructor.
Qed.

(** X21. Every need that [analyze_subreddit] records has a true entry
    [is_need] and an entry [confidence] that is a number above 0.6, as
    they are read back from the record: the entries of the answer that
    are merged over the record cannot replace them by other values. *)
Theorem recorded_needs_are_confident (o : oracle) (rd : reddit)
    (name : string) (limit : Z) (ins : insights) :
  fst (analyze_subreddit o rd name limit) = inl (Some ins) ->
  Forall confident_need (needs_found ins).
Proof. apply analyze_subreddit_confident. Qed.

Lemma recorded_needs_are_confident_witness :
  exists ins,
    fst (analyze_subreddit sample_oracle (sample_reddit Posts_done)
           "rust" 30) = inl (Some ins) /\
    length (needs_found ins) = 1%nat /\
    Forall confident_need (needs_found ins).
Proof.
  eexists. split; [vm_compute; reflexivity |].
  split; [reflexivity |].
  apply (recorded_needs_are_confident sample_oracle
           (sample_reddit Posts_done) "rust" 30).
  vm_compute. reflexivity.
Defined.

Lemma relevant_insights_some (o : oracle) (rd : reddit) (args : arguments)
    (s : subreddit_about) (ins : insights) :
  fst (relevant_insights o rd args s) = inl (Some ins) ->
  needs_found ins <> [] /\
  fst (analyze_subreddit o rd (sa_display_name s) (arg_posts args)) =
    inl (Some ins).
Proof.
  unfold relevant_insights. intros H.
  apply wbind_inl in H as ([[is_relevant confidence] why] & _ & H).
  apply wbind_inl in H as (u & _ & H).
  apply wbind_inl in H as (u1 & _ & H).
  apply wbind_inl in H as (u2 & _ & H).
  apply wbind_inl in H as (relevant & _ & H).
  destruct relevant; [| discriminate H].
  apply wbind_inl in H as (found & Hfound & H).
  destruct found as [ins' |]; [| discriminate H].
  destruct (needs_found ins') eqn:E; simpl in H; [discriminate H |].
  injection H as <-. rewrite E. split; [discriminate | exact Hfound].
Qed.

(** What one round of the loop of [main] does to its two variables. *)
Lemma research_one_step (o : oracle) (rd : reddit) (args : arguments)
    (s : subreddit_about) (acc : list insights * Z) :
  fst (research_one o rd args s acc) = acc \/
  exists ins,
    fst (research_one o rd args s acc) =
      ((fst acc ++ [ins])%list,
       (snd acc + Z.of_nat (length (needs_found ins)))%Z) /\
    needs_found ins <> [] /\
    fst (analyze_subreddit o rd (sa_display_name s) (arg_posts args)) =
      inl (Some ins).
Proof.
  unfold research_one.
  destruct (relevant_insights o rd args s) as [[[ins |] | e] notes] eqn:E.
  - right. exists ins.
    destruct (save_insights rd ins (sa_display_name s)) as [r notes'].
    split; [reflexivity |].
    apply relevant_insights_some. rewrite E. reflexivity.
  - left. reflexivity.
  - left. reflexivity.
Qed.

(** A property of the two variables that every round below the limit
    keeps holds when the loop stops, however it stops. *)
Lemma research_invariant (o : oracle) (rd : reddit) (args : arguments)
    (P : list insights * Z -> Prop) :
  (forall acc ins,
     P acc ->
     (Z.of_nat (length (fst acc)) < arg_limit args)%Z ->
     needs_found ins <> [] ->
     P ((fst acc ++ [ins])%list,
        (snd acc + Z.of_nat (length (needs_found ins)))%Z)) ->
  forall l acc, P acc -> P (fst (research o rd args l acc)).
Proof.
  intros Hstep.
  induction l as [| s rest IH | e]; intros acc Hacc; simpl; try exact Hacc.
  destruct (arg_limit args <=? Z.of_nat (length (fst acc)))%Z eqn:C;
    [exact Hacc |].
  apply Z.leb_gt in C.
  assert (P (fst (research_one o rd args s acc))) as Hone.
  { destruct (research_one_step o rd args s acc)
      as [-> | (ins & -> & Hne & _)]; [exact Hacc |].
    apply Hstep; assumption. }
  destruct (research_one o rd args s acc) as [acc' [[u | e] notes]];
    simpl in Hone.
  - specialize (IH acc' Hone).
    destruct (research o rd args rest acc') as [acc'' [r notes']].
    exact IH.
  - exact Hone.
Qed.

(** What [main] gives to the summary is what its loop leaves. *)
Lemma main_result (o : oracle) (rd : reddit) (args : arguments)
    (r : list insights * Z) :
  fst (main o rd args) = inl r ->
  r = fst (research o rd args
             (search rd (arg_search args) (arg_limit args * 2)%Z)
             ([], 0%Z)).
Proof.
  unfold main.
  destruct (research o rd args _ ([], 0%Z)) as [acc [[u | e] notes]]; simpl.
  - congruence.
  - destruct (is_Exception' e); simpl; congruence.
Qed.

Lemma needs_total_app (l : list insights) (ins : insights) :
  needs_total (l ++ [ins]) =
  (needs_total l + Z.of_nat (length (needs_found ins)))%Z.
Proof.
  unfold needs_total. induction l as [| i l IH]; simpl.
  - lia.
  - rewrite IH. lia.
Qed.

(** X22. The summary of [main] never holds more communities than the
    limit of the command line, and none when the limit is zero or
    negative, however many communities the search yields. *)
Theorem main_respects_the_limit (o : oracle) (rd : reddit)
    (args : arguments) (analyzed : list insights) (total : Z) :
  fst (main o rd args) = inl (analyzed, total) ->
  (Z.of_nat (length analyzed) <= Z.max 0 (arg_limit args))%Z.
Proof.
  intros H. apply main_result in H.
  change analyzed with (fst (analyzed, total)). rewrite H.
  apply (research_invariant o rd args
           (fun acc =>
              (Z.of_nat (length (fst acc)) <= Z.max 0 (arg_limit args))%Z)).
  - intros acc ins _ Hlt _. simpl. rewrite length_app. simpl. lia.
  - simpl. lia.
Qed.

Lemma main_respects_the_limit_witness :
  exists analyzed total,
    fst (main sample_oracle (sample_reddit Posts_done) (sample_arguments 2)) =
      inl (analyzed, total) /\
    length analyzed = 2%nat /\
    (Z.of_nat (length analyzed) <= Z.max 0 2)%Z.
Proof.
  eexists. eexists. split; [vm_compute; reflexivity |].
  split; [reflexivity |].
  apply (main_respects_the_limit sample_oracle (sample_reddit Posts_done)
           (sample_arguments 2) _ 2%Z).
  vm_compute. reflexivity.
Defined.

(** X23. In the summary of [main], the total of needs is the sum of the
    needs of the communities listed, each community listed has at least
    one need, and so the total is at least the number of communities;
    this holds also when the loop was stopped by an exception. *)
Theorem main_counts_the_needs_it_lists (o : oracle) (rd : reddit)
    (args : arguments) (analyzed : list insights) (total : Z) :
  fst (main o rd args) = inl (analyzed, total) ->
  total = needs_total analyzed /\
  Forall (fun ins => needs_found ins <> []) analyzed /\
  (Z.of_nat (length analyzed) <= total)%Z.
Proof.
  intros H. apply main_result in H.
  pose (P := fun acc : list insights * Z =>
                snd acc = needs_total (fst acc) /\
                Forall (fun ins => needs_found ins <> []) (fst acc) /\
                (Z.of_nat (length (fst acc)) <= snd acc)%Z).
  change (P (analyzed, total)). rewrite H.
  apply (research_invariant o rd args P); unfold P.
  - intros acc ins (Ht & Hall & Hle) _ Hne. simpl. repeat split.
    + rewrite needs_total_app, Ht. reflexivity.
    + apply List.Forall_app. split; [exact Hall |].
      constructor; [exact Hne | constructor].
    + rewrite length_app. simpl.
      destruct (needs_found ins); [contradiction |]. simpl length. lia.
  - repeat split; [constructor | simpl; lia].
Qed.

Lemma main_counts_the_needs_it_lists_witness :
  exists analyzed,
    fst (main sample_oracle (sample_reddit Posts_done) (sample_arguments 5)) =
      inl (analyzed, 3%Z) /\
    map in_subreddit analyzed = ["rust"; "golang"; "zig"] /\
    needs_total analyzed = 3%Z.
Proof.
  eexists. split; [vm_compute; reflexivity |].
  split; [reflexivity |].
  symmetry.
  eapply (main_counts_the_needs_it_lists sample_oracle
            (sample_reddit Posts_done) (sample_arguments 5)).
  vm_compute. reflexivity.
Defined.

Lemma relevant_insights_failed (o : oracle) (rd : reddit) (args : arguments)
    (s : subreddit_about) (e : exn) :
  (forall p t, create o p t = Raise e) ->
  is_Exception e = true ->
  json_loads o "{}" = Ok (JObj []) ->
  fst (relevant_insights o rd args s) = inl None.
Proof.
  intros Hfail He Hloads. unfold relevant_insights, is_relevant_subreddit.
  rewrite get_completion_cases, Hfail, He.
  unfold parse, safe_parse_json. simpl. rewrite Hloads. reflexivity.
Qed.

Lemma research_failed (o : oracle) (rd : reddit) (args : arguments)
    (e : exn) :
  (forall p t, create o p t = Raise e) ->
  is_Exception e = true ->
  json_loads o "{}" = Ok (JObj []) ->
  forall l acc, fst (research o rd args l acc) = acc.
Proof.
  intros Hfail He Hloads.
  induction l as [| s rest IH | e']; intros acc; simpl; try reflexivity.
  destruct (arg_limit args <=? Z.of_nat (length (fst acc)))%Z;
    [reflexivity |].
  unfold research_one.
  pose proof (relevant_insights_failed o rd args s e Hfail He Hloads) as H.
  destruct (relevant_insights o rd args s) as [[[ins |] | e'] notes];
    try discriminate H.
  specialize (IH acc).
  destruct (research o rd args rest acc) as [acc' [r notes']].
  exact IH.
Qed.

(** X24. When every request to the service fails with an exception of
    class [Exception] and the text of an empty object parses to an empty
    object, the summary of [main] is empty: no community is analysed,
    whatever the search yields, since each failure reads as a community
    that is not relevant. *)
Theorem failing_service_gives_an_empty_summary (o : oracle) (rd : reddit)
    (args : arguments) (e : exn) (r : list insights * Z) :
  (forall p t, create o p t = Raise e) ->
  is_Exception e = true ->
  json_loads o "{}" = Ok (JObj []) ->
  fst (main o rd args) = inl r ->
  r = ([], 0%Z).
Proof.
  intros Hfail He Hloads H. apply main_result in H. rewrite H.
  apply (research_failed o rd args e Hfail He Hloads).
Qed.

Lemma failing_service_gives_an_empty_summary_witness :
  fst (main silent_oracle (sample_reddit Posts_done) (sample_arguments 5)) =
    inl ([], 0%Z) /\
  length (snd (main silent_oracle (sample_reddit Posts_done)
                 (sample_arguments 5))) = 13%nat.
Proof.
  split; [| vm_compute; reflexivity].
  destruct (fst (main silent_oracle (sample_reddit Posts_done)
                   (sample_arguments 5))) as [r | e'] eqn:E.
  - f_equal.
    apply (failing_service_gives_an_empty_summary silent_oracle
             (sample_reddit Posts_done) (sample_arguments 5)
             (RuntimeError "rate limit") r);
      [reflexivity | reflexivity | vm_compute; reflexivity | exact E].
  - vm_compute in E. discriminate E.
Defined.

(** X25. A confidence that the answer gives as a string stops the whole
    search: formatting it for the log raises [ValueError] before the
    community is analysed, the two variables stay as they were, and the
    communities that the search would yield next are not visited. *)
Theorem worded_confidence_stops_the_search (o : oracle) (rd : reddit)
    (args : arguments) (s : subreddit_about) (rest : subreddit_listing)
    (acc : list insights * Z) (is_relevant : json) (c : string)
    (why : reason) :
  fst (is_relevant_subreddit o (description_or_title s) (arg_market args)) =
    inl (is_relevant, JStr c, why) ->
  (Z.of_nat (length (fst acc)) < arg_limit args)%Z ->
  fst (research o rd args (Subs_yield s rest) acc) = acc /\
  fst (snd (research o rd args (Subs_yield s rest) acc)) =
    inr (Py ValueError).
Proof.
  intros H Hlt. simpl.
  apply Z.leb_gt in Hlt. rewrite Hlt.
  unfold research_one, relevant_insights.
  destruct (is_relevant_subreddit o (description_or_title s)
              (arg_market args)) as [[answer | e] notes];
    simpl in H; [| discriminate H].
  injection H as ->. simpl. auto.
Qed.

Lemma worded_confidence_stops_the_search_witness :
  fst (main vague_oracle (sample_reddit Posts_done) (sample_arguments 5)) =
    inl ([], 0%Z) /\
  fst (snd (research vague_oracle (sample_reddit Posts_done)
              (sample_arguments 5)
              (Subs_yield (sample_about "rust")
                 (Subs_yield (sample_about "golang") Subs_done))
              ([], 0%Z))) = inr (Py ValueError).
Proof.
  split; [vm_compute; reflexivity |].
  apply (worded_confidence_stops_the_search vague_oracle
           (sample_reddit Posts_done) (sample_arguments 5)
           (sample_about "rust")
           (Subs_yield (sample_about "golang") Subs_done) ([], 0%Z)
           (JBool true) "high" (Reason (JStr "No reason provided"))).
  - vm_compute. reflexivity.
  - vm_compute. reflexivity.
Defined.

Lemma save_insights_returns (rd : reddit) (ins : insights) (name : string) :
  (forall e, write_file rd name ins = Some e -> is_Exception' e = true) ->
  fst (save_insights rd ins name) = inl tt.
Proof.
  intros Hw. unfold save_insights.
  destruct (write_file rd name ins) as [e |] eqn:W; simpl.
  - rewrite (Hw e eq_refl). reflexivity.
  - reflexivity.
Qed.

Lemma research_one_writable (o : oracle) (rd : reddit) (args : arguments)
    (s : subreddit_about) (acc : list insights * Z) :
  (forall name ins e,
     write_file rd name ins = Some e -> is_Exception' e = true) ->
  fst (research_one o rd args s acc) =
    fst (research_one o (writable rd) args s acc) /\
  fst (snd (research_one o rd args s acc)) =
    fst (snd (research_one o (writable rd) args s acc)).
Proof.
  intros Hw. unfold research_one.
  change (relevant_insights o (writable rd) args s)
    with (relevant_insights o rd args s).
  destruct (relevant_insights o rd args s) as [[[ins |] | e] notes];
    try (split; reflexivity).
  pose proof (save_insights_returns rd ins (sa_display_name s)
                (Hw (sa_display_name s) ins)) as H.
  destruct (save_insights rd ins (sa_display_name s)) as [r notes'].
  simpl in H. subst r. split; reflexivity.
Qed.

Lemma research_writable (o : oracle) (rd : reddit) (args : arguments) :
  (forall name ins e,
     write_file rd name ins = Some e -> is_Exception' e = true) ->
  forall l acc,
    fst (research o rd args l acc) =
      fst (research o (writable rd) args l acc) /\
    fst (snd (research o rd args l acc)) =
      fst (snd (research o (writable rd) args l acc)).
Proof.
  intros Hw.
  induction l as [| s rest IH | e]; intros acc; simpl;
    try (split; reflexivity).
  destruct (arg_limit args <=? Z.of_nat (length (fst acc)))%Z;
    [split; reflexivity |].
  destruct (research_one_writable o rd args s acc Hw) as (H1 & H2).
  destruct (research_one o rd args s acc) as [acc1 [r1 notes1]].
  destruct (research_one o (writable rd) args s acc) as [acc2 [r2 notes2]].
  simpl in H1, H2. subst acc2 r2.
  destruct r1 as [u | e]; [| split; reflexivity].
  specialize (IH acc1).
  destruct (research o rd args rest acc1) as [acc3 [r3 notes3]].
  destruct (research o (writable rd) args rest acc1) as [acc4 [r4 notes4]].
  exact IH.
Qed.

(** X28. The summary of [main] does not depend on whether the files
    could be written: when each failure of a write is an exception of
    class [Exception], [save_insights] logs it, and the communities and
    the total are those of a run where every write succeeds. *)
Theorem summary_ignores_failed_writes (o : oracle) (rd : reddit)
    (args : arguments) :
  (forall name ins e,
     write_file rd name ins = Some e -> is_Exception' e = true) ->
  fst (main o rd args) = fst (main o (writable rd) args).
Proof.
  intros Hw. unfold main.
  change (search (writable rd)) with (search rd).
  destruct (research_writable o rd args Hw
              (search rd (arg_search args) (arg_limit args * 2)%Z)
              ([], 0%Z)) as (H1 & H2).
  destruct (research o rd args _ ([], 0%Z)) as [acc1 [r1 notes1]].
  destruct (research o (writable rd) args _ ([], 0%Z))
    as [acc2 [r2 notes2]].
  simpl in H1, H2. subst acc2 r2.
  destruct r1 as [u | e]; [reflexivity |].
  destruct (is_Exception' e); reflexivity.
Qed.

Lemma summary_ignores_failed_writes_witness :
  exists analyzed,
    fst (main sample_oracle read_only_reddit (sample_arguments 5)) =
      inl (analyzed, 3%Z) /\
    fst (main sample_oracle (writable read_only_reddit)
           (sample_arguments 5)) = inl (analyzed, 3%Z).
Proof.
  eexists. split; [vm_compute; reflexivity |].
  rewrite <- (summary_ignores_failed_writes sample_oracle read_only_reddit
                (sample_arguments 5)).
  - vm_compute. reflexivity.
  - intros name ins e H. injection H as <-. reflexivity.
Defined.

End MainProperties.
